(** * Query translation of the PDF catalogue: filters.js, atlasSearch.js and
      the response envelope of GET /api/pdfs

    A shallow embedding of [src/lib/filters.js], [src/lib/atlasSearch.js] and
    of the envelope computed by [src/app/api/pdfs/route.js], followed by the
    properties the specification states about them.  The embedding also
    covers GET of [src/app/api/search/route.js] and the helpers of
    [src/lib/jwt.js] that compute without the token library (the payload,
    the refresh cookie and the bearer token); further properties of all of
    these close the development.

    Conventions of the embedding.
    - A JavaScript string is a sequence of code units; the model uses Rocq's
      [string], whose characters are the code units 0..255.
    - A JavaScript number is modelled by the integer it denotes.  Below 2^53
      in magnitude every integer is a double and the arithmetic of the
      sources is exact: [safe_integer] names that range, and a property that
      needs a number to be exact carries it as a hypothesis.  The rounding
      to the nearest double is modelled where the sources print a number
      ([String]) and where they make a Date of a numeral ([Number]), in
      [Double]; [parseInt] and the products are those of the integers.
    - A value a caller can pass is a [jsval]: undefined, null, a boolean, an
      integer number, a string, an array or a plain object (own properties
      only).  Functions, symbols and objects with user-defined conversions
      are outside the model; so is the TypeError [String] raises on an
      object with an own [toString] property ([String_raises]).
    - An operation that can raise an exception returns a [completion]. *)

From Stdlib Require Import ZArith List String Ascii Bool Lia.
From Stdlib Require Import Decimal DecimalString DecimalPos.
Import ListNotations.

Set Warnings "-register-all".
Open Scope string_scope.
Open Scope Z_scope.

(* ================================================================== *)
(** ** Code units and the string built-ins the sources call           *)
(* ================================================================== *)

Module Str.

Definition code (c : ascii) : N := N_of_ascii c.

Definition in_range (lo hi : N) (c : ascii) : bool :=
  ((lo <=? code c) && (code c <=? hi))%N.

(** WhiteSpace and LineTerminator code units below 256: TAB, LF, VT, FF,
    CR, SP and NBSP.  This is the set [String.prototype.trim] strips and
    [parseInt] skips. *)
Definition is_space (c : ascii) : bool :=
  (in_range 9 13 c || (code c =? 32) || (code c =? 160))%N.

(** The character class [[\x00-\x1F\x7F]] of [sanitizeString]. *)
Definition is_control (c : ascii) : bool :=
  (in_range 0 31 c || (code c =? 127))%N.

Definition is_digit (c : ascii) : bool := in_range 48 57 c.

Definition digit_value (c : ascii) : Z := Z.of_N (code c) - 48.

Fixpoint filter (p : ascii -> bool) (s : string) : string :=
  match s with
  | EmptyString => EmptyString
  | String c r => if p c then String c (filter p r) else filter p r
  end.

Fixpoint map (f : ascii -> ascii) (s : string) : string :=
  match s with
  | EmptyString => EmptyString
  | String c r => String (f c) (map f r)
  end.

Fixpoint forallb (p : ascii -> bool) (s : string) : bool :=
  match s with
  | EmptyString => true
  | String c r => p c && forallb p r
  end.

Definition is_empty (s : string) : bool :=
  match s with EmptyString => true | _ => false end.

Fixpoint trim_start (s : string) : string :=
  match s with
  | String c r => if is_space c then trim_start r else s
  | EmptyString => EmptyString
  end.

Fixpoint trim_end (s : string) : string :=
  match s with
  | EmptyString => EmptyString
  | String c r =>
      let r' := trim_end r in
      if is_space c && is_empty r' then EmptyString else String c r'
  end.

(** [s.trim()] *)
Definition trim (s : string) : string := trim_end (trim_start s).

(** [toLowerCase] on one code unit: A-Z, and the Latin-1 capitals
    U+00C0..U+00DE except the multiplication sign U+00D7. *)
Definition lower (c : ascii) : ascii :=
  if (in_range 65 90 c || (in_range 192 222 c && negb (code c =? 215)))%N
  then ascii_of_N (code c + 32) else c.

(** [s.toLowerCase()] *)
Definition toLowerCase (s : string) : string := map lower s.

(** [s.split(sep)] for a one-character separator: always at least one
    piece, the empty string splits into one empty piece. *)
Fixpoint split (sep : ascii) (s : string) : list string :=
  match s with
  | EmptyString => [EmptyString]
  | String c r =>
      if Ascii.eqb c sep then EmptyString :: split sep r
      else match split sep r with
           | p :: ps => String c p :: ps
           | [] => [String c EmptyString]
           end
  end.

Fixpoint join (sep : string) (l : list string) : string :=
  match l with
  | [] => EmptyString
  | x :: r => match r with [] => x | _ => x ++ sep ++ join sep r end
  end.

(** [s.startsWith(t)] *)
Fixpoint starts_with (s t : string) {struct t} : bool :=
  match t with
  | EmptyString => true
  | String b t' =>
      match s with
      | String a s' => Ascii.eqb a b && starts_with s' t'
      | EmptyString => false
      end
  end.

(** [s.includes(t)]: [t] occurs in [s] as a contiguous run. *)
Fixpoint includes (s t : string) : bool :=
  starts_with s t ||
  match s with
  | EmptyString => false
  | String _ r => includes r t
  end.

(** Accumulating reader of a decimal digit run: [None] as long as no digit
    was read, otherwise the value of the longest prefix of digits. *)
Fixpoint digits_acc (acc : option Z) (s : string) : option Z :=
  match s with
  | String c r =>
      if is_digit c
      then digits_acc
             (Some (10 * match acc with Some a => a | None => 0 end
                    + digit_value c)) r
      else acc
  | EmptyString => acc
  end.

(** [parseInt(s, 10)]: skips leading white space, reads an optional sign and
    the longest run of decimal digits; [None] is NaN.  The result is the
    integer the digits denote; the number the code gets is the double
    nearest to it, which is that integer as long as it lies below 2^53. *)
Definition parseInt10 (s : string) : option Z :=
  match trim_start s with
  | String "-" r => option_map Z.opp (digits_acc None r)
  | String "+" r => digits_acc None r
  | r => digits_acc None r
  end.

(** A string is numeric for [parseInt] when, after the white space and an
    optional sign, it starts with a digit. *)
Definition starts_with_number (s : string) : bool :=
  let first_is_digit r :=
    match r with String c _ => is_digit c | EmptyString => false end in
  match trim_start s with
  | String "-" r => first_is_digit r
  | String "+" r => first_is_digit r
  | r => first_is_digit r
  end.

(** Decimal numeral of an integer, as [String(n)] prints it. *)
Definition of_Z (n : Z) : string := NilEmpty.string_of_int (Z.to_int n).

End Str.

(* ================================================================== *)
(** ** Numbers as doubles: rounding and printing                      *)
(* ================================================================== *)

(** A number of the model is an integer.  Up to 2^53 in magnitude every
    integer is a double and the sources' arithmetic on it is exact; this
    module holds what the built-ins do beyond: the rounding of an integer
    or a fraction to the nearest double (53-bit significand, ties to even)
    and the printing of a number by [String].  The exponent range of a
    double is not modelled: magnitudes from 2^1024 on, which are Infinity,
    are outside the model. *)
Module Double.

(** The integer nearest to [n / d] for [0 <= n] and [0 < d], ties to the
    even one. *)
Definition round_half_even (n d : Z) : Z :=
  let q := n / d in
  let r := n mod d in
  if (d <? 2 * r) || ((d =? 2 * r) && Z.odd q) then q + 1 else q.

(** The double nearest to the integer [n]. *)
Definition round_double (n : Z) : Z :=
  if Z.abs n <? 2 ^ 53 then n
  else
    let ulp := 2 ^ (Z.log2 (Z.abs n) - 52) in
    Z.sgn n * (round_half_even (Z.abs n) ulp * ulp).

(** The whole part of the double nearest to [a / d], for [0 < a], [0 < d]
    and [a / d < 2^53]: with [2^j <= a / d < 2^(j+1)], the double is the
    multiple of [2^(j-52)] nearest to [a / d]. *)
Definition trunc_double (a d : Z) : Z :=
  let j0 := Z.log2 a - Z.log2 d in
  let reaches (j : Z) : bool :=
    if 0 <=? j then d * 2 ^ j <=? a else d <=? a * 2 ^ (- j) in
  let j := if reaches j0 then j0 else j0 - 1 in
  let s := 52 - j in
  Z.shiftr (round_half_even (a * 2 ^ s) d) s.

(** Number::toString, step 5 as its Note 2 refines it (the engines follow
    the note): the decimal [s * 10^(len - k)] with the fewest digits [k]
    that rounds to the double [x], the closest to [x] among those, the
    even [s] on a tie.  [candidate] is the choice for one [k]. *)
Definition candidate (x len k : Z) : option Z :=
  let p := 10 ^ (len - k) in
  let lo := x / p * p in
  let hi := lo + p in
  match round_double lo =? x, round_double hi =? x with
  | true, true =>
      Some (if x - lo <? hi - x then lo
            else if hi - x <? x - lo then hi
            else if Z.even (lo / p) then lo else hi)
  | true, false => Some lo
  | false, true => Some hi
  | false, false => None
  end.

Definition shortest (x : Z) : Z :=
  let len := String.length (Str.of_Z x) in
  List.fold_right
    (fun k found =>
       match candidate x (Z.of_nat len) (Z.of_nat k) with
       | Some v => v
       | None => found
       end)
    x (List.seq 1 len).

Fixpoint drop_zeros_end (s : string) : string :=
  match s with
  | EmptyString => EmptyString
  | String c r =>
      match drop_zeros_end r with
      | EmptyString =>
          if Ascii.eqb c "0" then EmptyString else String c EmptyString
      | r' => String c r'
      end
  end.

(** The exponent notation of a decimal [v] of 22 digits or more:
    [d.ddde+n]. *)
Definition exponential (v : Z) : string :=
  let ds := Str.of_Z v in
  let e := Str.of_Z (Z.of_nat (String.length ds) - 1) in
  match drop_zeros_end ds with
  | String c EmptyString => String c ("e+" ++ e)
  | String c rest => String c ("." ++ rest ++ "e+" ++ e)
  | EmptyString => ds
  end.

(** [String(n)] for the number the integer [n] denotes.  Below 2^53 every
    integer is a double and prints its own digits (the general rule gives
    the same); beyond, the digits are the shortest that denote the double,
    followed by zeros up to 21 digits and in exponent notation from 1e21
    on. *)
Definition to_string (n : Z) : string :=
  if Z.abs n <? 2 ^ 53 then Str.of_Z n
  else
    let v := shortest (round_double (Z.abs n)) in
    let body := if v <? 10 ^ 21 then Str.of_Z v else exponential v in
    if n <? 0 then "-" ++ body else body.

End Double.

(* ================================================================== *)
(** ** JavaScript values                                              *)
(* ================================================================== *)

Inductive jsval : Type :=
| JUndefined
| JNull
| JBool (b : bool)
| JNum (n : Z)
| JStr (s : string)
| JArr (elems : list jsval)
| JObj (props : list (string * jsval)).

(** Outcome of a call: a value, or a raised [TypeError]. *)
Inductive completion (A : Type) : Type :=
| Normal (a : A)
| Throw (e : string).
Arguments Normal {A} a.
Arguments Throw {A} e.

Definition bind {A B} (c : completion A) (k : A -> completion B)
  : completion B :=
  match c with
  | Normal a => k a
  | Throw e => Throw e
  end.

Notation "x <- c ;; k" := (bind c (fun x => k))
  (at level 61, c at next level, right associativity).

(** ToBoolean: what [if (v)], [!v], [Boolean(v)] and [||] test. *)
Definition truthy (v : jsval) : bool :=
  match v with
  | JUndefined | JNull => false
  | JBool b => b
  | JNum n => negb (n =? 0)
  | JStr s => negb (Str.is_empty s)
  | JArr _ | JObj _ => true
  end.

(** [String(v)].  A number prints as [Double.to_string] has it.  An array
    joins the conversions of its elements with commas, undefined and null
    elements giving the empty string; a plain object gives its default tag.
    An object with an own [toString] property is the exception: no value of
    the model is callable, so the code raises a TypeError on it, where
    [ToString] still gives the tag.  [String_raises] tells these values. *)
Fixpoint ToString (v : jsval) : string :=
  match v with
  | JUndefined => "undefined"
  | JNull => "null"
  | JBool true => "true"
  | JBool false => "false"
  | JNum n => Double.to_string n
  | JStr s => s
  | JArr l =>
      Str.join ","
        ((fix each (l : list jsval) : list string :=
            match l with
            | [] => []
            | x :: r =>
                match x with
                | JUndefined | JNull => EmptyString
                | _ => ToString x
                end :: each r
            end) l)
  | JObj _ => "[object Object]"
  end.

(** The values on which [String(v)] raises: an object with an own
    [toString] property, and an array that holds such a value. *)
Fixpoint String_raises (v : jsval) : bool :=
  match v with
  | JArr l =>
      (fix any (l : list jsval) : bool :=
         match l with
         | [] => false
         | x :: r => String_raises x || any r
         end) l
  | JObj props =>
      List.existsb (fun kv => String.eqb (fst kv) "toString") props
  | _ => false
  end.

(** [typeof v === 'undefined'] *)
Definition is_undefined (v : jsval) : bool :=
  match v with JUndefined => true | _ => false end.

(** [v === undefined || v === null] *)
Definition is_nullish (v : jsval) : bool :=
  match v with JUndefined | JNull => true | _ => false end.

(** Own-property lookup with first-binding-wins. *)
Fixpoint assoc {A} (k : string) (l : list (string * A)) : option A :=
  match l with
  | [] => None
  | (k', v) :: r => if String.eqb k k' then Some v else assoc k r
  end.

(** [o.k] for the parameter names the sources read.  Of those names only
    [sort] is a member of a built-in prototype: on an array it answers
    [Array.prototype.sort], a function, for which an opaque object stands
    here (truthy, not undefined, not a string).  Otherwise a primitive or an
    array answers undefined, and so does an object without the own property.
    Reading a property of undefined or null raises and is handled where it
    occurs. *)
Definition get_prop (o : jsval) (k : string) : jsval :=
  match o with
  | JObj props => match assoc k props with Some v => v | None => JUndefined end
  | JArr _ => if String.eqb k "sort" then JObj [] else JUndefined
  | _ => JUndefined
  end.

(** Assignment [o.k = v] on an object under construction: an existing
    property keeps its place, a new one goes last. *)
Fixpoint set_prop {A} (k : string) (v : A) (o : list (string * A))
  : list (string * A) :=
  match o with
  | [] => [(k, v)]
  | (k', v') :: r =>
      if String.eqb k k' then (k, v) :: r else (k', v') :: set_prop k v r
  end.

(** [delete o.k] *)
Definition delete_prop {A} (k : string) (o : list (string * A))
  : list (string * A) :=
  List.filter (fun kv => negb (String.eqb k (fst kv))) o.

(** [Object.keys(o)] *)
Definition keys {A} (o : list (string * A)) : list string := List.map fst o.

(* ================================================================== *)
(** ** Numbers read from strings, and dates                           *)
(* ================================================================== *)

(** Result of [Number(s)] on a string: NaN, an infinity, or the decimal
    (or radix-prefixed) numeral it spells, kept as
    [mantissa * 10 ^ exponent]: the number is the double nearest to it,
    and the rounding is done where the number is used
    ([DateObj.of_num]). *)
Inductive jsnum : Type :=
| NaN
| Infinite
| Finite (mantissa exponent : Z).

Module Num.

Fixpoint span_digits (s : string) : string * string :=
  match s with
  | String c r =>
      if Str.is_digit c
      then let (d, t) := span_digits r in (String c d, t)
      else (EmptyString, s)
  | EmptyString => (EmptyString, EmptyString)
  end.

Fixpoint digits_val (acc : Z) (s : string) : Z :=
  match s with
  | String c r => digits_val (10 * acc + Str.digit_value c) r
  | EmptyString => acc
  end.

(** Value of a digit in a radix up to 16, when it is one. *)
Definition radix_digit (radix : Z) (c : ascii) : option Z :=
  let n := Z.of_N (Str.code c) in
  let v := if Str.is_digit c then Some (n - 48)
           else if Str.in_range 97 102 c then Some (n - 87)
           else if Str.in_range 65 70 c then Some (n - 55)
           else None in
  match v with
  | Some d => if d <? radix then Some d else None
  | None => None
  end.

Fixpoint radix_val (radix : Z) (acc : Z) (s : string) : option Z :=
  match s with
  | String c r =>
      match radix_digit radix c with
      | Some d => radix_val radix (radix * acc + d) r
      | None => None
      end
  | EmptyString => Some acc
  end.

(** ExponentPart, or nothing, up to the end of the string. *)
Definition parse_exponent (s : string) : option Z :=
  match s with
  | EmptyString => Some 0
  | String c r =>
      if Ascii.eqb (Str.lower c) "e" then
        let '(neg, ds) :=
          match r with
          | String "-" t => (true, t)
          | String "+" t => (false, t)
          | _ => (false, r)
          end in
        if negb (Str.is_empty ds) && Str.forallb Str.is_digit ds
        then Some (if neg then - digits_val 0 ds else digits_val 0 ds)
        else None
      else None
  end.

(** StrUnsignedDecimalLiteral other than Infinity. *)
Definition parse_decimal (s : string) : option (Z * Z) :=
  let (ip, r1) := span_digits s in
  let (fp, r2) :=
    match r1 with
    | String "." r => span_digits r
    | _ => (EmptyString, r1)
    end in
  if Str.is_empty ip && Str.is_empty fp then None
  else match parse_exponent r2 with
       | Some x =>
           Some (digits_val 0 (ip ++ fp), x - Z.of_nat (String.length fp))
       | None => None
       end.

Definition parse_unsigned (s : string) : jsnum :=
  if String.eqb s "Infinity" then Infinite
  else match parse_decimal s with
       | Some (m, e) => Finite m e
       | None => NaN
       end.

Definition parse_radix (radix : Z) (ds : string) : jsnum :=
  if Str.is_empty ds then NaN
  else match radix_val radix 0 ds with
       | Some v => Finite v 0
       | None => NaN
       end.

Definition negate (x : jsnum) : jsnum :=
  match x with
  | Finite m e => Finite (- m) e
  | _ => x
  end.

(** [Number(s)] (StringToNumber): surrounding white space is dropped, the
    empty string is 0, a radix prefix takes no sign. *)
Definition of_string (s : string) : jsnum :=
  match Str.trim s with
  | EmptyString => Finite 0 0
  | String "0" (String p ds) as t =>
      if Ascii.eqb (Str.lower p) "x" then parse_radix 16 ds
      else if Ascii.eqb (Str.lower p) "o" then parse_radix 8 ds
      else if Ascii.eqb (Str.lower p) "b" then parse_radix 2 ds
      else parse_unsigned t
  | String "-" r => negate (parse_unsigned r)
  | String "+" r => parse_unsigned r
  | t => parse_unsigned t
  end.

Definition isNaN (x : jsnum) : bool :=
  match x with NaN => true | _ => false end.

End Num.

(** A [Date] object: its time value in milliseconds since the epoch, or the
    Invalid Date (time value NaN). *)
Inductive jsdate : Type :=
| DateAt (t : Z)
| InvalidDate.

Module DateObj.

(** Largest magnitude of a time value: 8.64e15 ms. *)
Definition MAX_TIME : Z := 8640000000000000.

(** [new Date(t)] for an integer number [t], through TimeClip. *)
Definition of_ms (t : Z) : jsdate :=
  if Z.abs t <=? MAX_TIME then DateAt t else InvalidDate.

(** [new Date(x)] for the result of [Number(s)].  [Number] rounds the
    numeral to the nearest double; TimeClip rejects what is not finite or
    exceeds [MAX_TIME], and drops the fraction otherwise.  An integer
    below 2^53 is a double, and from 2^53 on the nearest double is at least
    2^53 and exceeds [MAX_TIME] as the integer does; so does every numeral
    with an exponent above 16.  A fraction below 1/10 rounds to a double
    below 1; any other fraction is rounded by [Double.trunc_double]. *)
Definition of_num (x : jsnum) : jsdate :=
  match x with
  | NaN | Infinite => InvalidDate
  | Finite m e =>
      if m =? 0 then DateAt 0
      else if 0 <=? e then
        if 16 <? e then InvalidDate else of_ms (m * 10 ^ e)
      else if Z.log2 (Z.abs m) + 1 <? - e then DateAt 0
      else
        let d := 10 ^ (- e) in
        if 2 ^ 53 * d <=? Z.abs m then InvalidDate
        else of_ms (Z.sgn m * Double.trunc_double (Z.abs m) d)
  end.

(** [isNaN(d.getTime())] *)
Definition is_invalid (d : jsdate) : bool :=
  match d with InvalidDate => true | DateAt _ => false end.

End DateObj.

(* ================================================================== *)
(** ** src/lib/filters.js: constants and parsers                      *)
(* ================================================================== *)

Definition DEFAULT_PAGE : Z := 1.
Definition DEFAULT_LIMIT : Z := 12.
Definition MAX_LIMIT : Z := 200.

(** [sanitizeString]: a non-string is returned as it is; a string loses its
    control characters and is trimmed. *)
Definition sanitizeString (val : jsval) : jsval :=
  match val with
  | JStr s => JStr (Str.trim (Str.filter (fun c => negb (Str.is_control c)) s))
  | _ => val
  end.

(** [val === undefined || val === null || val === ''] *)
Definition is_blank (val : jsval) : bool :=
  match val with
  | JUndefined | JNull => true
  | JStr s => Str.is_empty s
  | _ => false
  end.

(** [parseInteger(val, fallback)]: [None] stands for "the fallback is
    returned", [Some n] for the parsed number. *)
Definition parseInteger (val : jsval) : option Z :=
  if is_blank val then None else Str.parseInt10 (ToString val).

Definition or_fallback {A} (fallback : A) (r : option A) : A :=
  match r with Some a => a | None => fallback end.

(** [parseBoolean(val, fallback)], with the same reading of [None]. *)
Definition parseBoolean (val : jsval) : option bool :=
  if is_blank val then None
  else match val with
       | JBool b => Some b
       | _ =>
           let s := Str.trim (Str.toLowerCase (ToString val)) in
           if String.eqb s "1" || String.eqb s "true" || String.eqb s "yes"
           then Some true
           else if String.eqb s "0" || String.eqb s "false" || String.eqb s "no"
           then Some false
           else None
       end.

(** [parseList] *)
Definition parseList (val : jsval) : list jsval :=
  if negb (truthy val) then []
  else match val with
       | JArr l => List.filter truthy (List.map sanitizeString l)
       | _ =>
           List.filter truthy
             (List.map sanitizeString
                (List.map JStr (Str.split "," (ToString val))))
       end.

(** The match of [/^last(\d+)([dhmy])$/i]: the digit run and the unit. *)
Definition match_relative (s : string) : option (string * ascii) :=
  match s with
  | String c1 (String c2 (String c3 (String c4 rest))) =>
      if String.eqb
           (Str.toLowerCase
              (String c1 (String c2 (String c3 (String c4 EmptyString)))))
           "last"
      then
        match Num.span_digits rest with
        | (String d ds, String u EmptyString) =>
            let u' := Str.lower u in
            if Ascii.eqb u' "d" || Ascii.eqb u' "h"
               || Ascii.eqb u' "m" || Ascii.eqb u' "y"
            then Some (String d ds, u)
            else None
        | _ => None
        end
      else None
  | _ => None
  end.

Section Host.

(** [Date.parse]: the ISO-8601 date-time format of the language, then
    whatever else the engine accepts; [None] is NaN.  Its value on a
    string depends on the engine and on the local time zone, so it is a
    parameter of the development. *)
Variable Date_parse : string -> option Z.

(** [parseDate(val)], where [now] is what [new Date()] reads from the
    clock.  [None] is the [null] result; a [Date] can be the Invalid Date. *)
Definition parseDate (now : Z) (val : jsval) : option jsdate :=
  if negb (truthy val) then None
  else
    let s := Str.trim (ToString val) in
    match match_relative s with
    | Some (digits, u) =>
        let n := Num.digits_val 0 digits in
        let unit := Str.lower u in
        if Ascii.eqb unit "d" then
          Some (DateObj.of_ms (now - n * 24 * 60 * 60 * 1000))
        else if Ascii.eqb unit "h" then
          Some (DateObj.of_ms (now - n * 60 * 60 * 1000))
        else if Ascii.eqb unit "m" then
          Some (DateObj.of_ms (now - n * 30 * 24 * 60 * 60 * 1000))
        else if Ascii.eqb unit "y" then
          Some (DateObj.of_ms (now - n * 365 * 24 * 60 * 60 * 1000))
        else None
    | None =>
        let asNum := Num.of_string s in
        if negb (Num.isNaN asNum) && (10 <=? String.length s)%nat then
          let d := DateObj.of_num asNum in
          if DateObj.is_invalid d then None else Some d
        else
          match Date_parse s with
          | Some t =>
              let d := DateObj.of_ms t in
              if DateObj.is_invalid d then None else Some d
          | None => None
          end
    end.

End Host.

(* ================================================================== *)
(** ** Regular expressions built from user input                      *)
(* ================================================================== *)

Module RegExp.






End RegExp.

(** The character class [[.*+?^${}()|[\]\\]] of the keywords escape. *)
Definition is_escaped_char (c : ascii) : bool :=
  existsb (Ascii.eqb c)
    ["."; "*"; "+"; "?"; "^"; "$"; "{"; "}"; "("; ")"; "|"; "["; "]"; "\"]%char.

(** [kw.replace(/[.*+?^${}()|[\]\\]/g, '\\$&')] *)
Fixpoint escape_regex (kw : string) : string :=
  match kw with
  | EmptyString => EmptyString
  | String c r =>
      if is_escaped_char c
      then String "\" (String c (escape_regex r))
      else String c (escape_regex r)
  end.

(* ================================================================== *)
(** ** src/lib/filters.js: the filter and the list options            *)
(* ================================================================== *)

(** Values of a Mongo filter: a value of the caller, a [Date], a [RegExp],
    an array or an object of such. *)
Inductive mval : Type :=
| MVal (v : jsval)
| MDate (d : jsdate)
| MRegExp (source flags : string)
| MArr (elems : list mval)
| MObj (props : list (string * mval)).

Definition filter_obj : Type := list (string * mval).

(** An ordering handed to [sort()]: field names with their direction. *)
Definition sort_spec : Type := list (string * Z).

Definition SORT_MAP : list (string * sort_spec) :=
  [ ("score", [("score", -1); ("downloads", -1); ("createdAt", -1)]);
    ("downloads", [("downloads", -1); ("createdAt", -1)]);
    ("latest", [("createdAt", -1)]);
    ("oldest", [("createdAt", 1)]);
    ("price_asc", [("price", 1)]);
    ("price_desc", [("price", -1)]) ].

(** [SORT_MAP] is an object literal, so a bracket lookup that finds no own
    property goes on to [Object.prototype].  These are its members (the
    last five are the legacy ones every Node and browser engine has). *)
Definition Object_prototype_members : list string :=
  [ "constructor"; "hasOwnProperty"; "isPrototypeOf"; "propertyIsEnumerable";
    "toLocaleString"; "toString"; "valueOf"; "__proto__";
    "__defineGetter__"; "__defineSetter__"; "__lookupGetter__";
    "__lookupSetter__" ].

(** What [SORT_MAP[k]] evaluates to when it is not undefined: one of the
    six orderings, or the member of [Object.prototype] of that name (a
    function, or the prototype object itself for [__proto__]). *)
Inductive sort_value : Type :=
| SortSpec (s : sort_spec)
| Inherited (member : string).

(** [SORT_MAP[k]]; [None] is undefined, every other result is truthy. *)
Definition SORT_MAP_get (k : string) : option sort_value :=
  match assoc k SORT_MAP with
  | Some s => Some (SortSpec s)
  | None =>
      if existsb (String.eqb k) Object_prototype_members
      then Some (Inherited k) else None
  end.

Definition SORT_MAP_score : sort_value :=
  SortSpec [("score", -1); ("downloads", -1); ("createdAt", -1)].

Record list_options : Type := {
  skip : Z;
  limit : Z;
  sort : sort_value;
  page : Z
}.

(** [{ $in: arr }] *)
Definition in_clause (arr : list jsval) : mval :=
  MObj [("$in", MVal (JArr arr))].

(** Lines 166-172 for [tags] and 174-179 for [locations]: the same code on
    two fields. *)
Definition membership_filter (field : string) (val : jsval)
    (filters : filter_obj) : filter_obj :=
  match val with
  | JArr l =>
      if negb (Nat.eqb (List.length l) 0)
      then set_prop field (in_clause (List.map sanitizeString l)) filters
      else filters
  | JStr s =>
      if negb (Str.is_empty (Str.trim s)) then
        let arr := parseList val in
        if negb (Nat.eqb (List.length arr) 0)
        then set_prop field (in_clause arr) filters
        else filters
      else filters
  | _ => filters
  end.

(** Lines 192-200 for [publishedAt] and 203-210 for [examDate]: the range
    object receives the bounds that are set and is dropped when it stays
    empty. *)
Definition range_filter (field : string) (from to : option jsdate)
    (filters : filter_obj) : filter_obj :=
  match from, to with
  | None, None => filters
  | _, _ =>
      let range : filter_obj := [] in
      let range :=
        match from with
        | Some d => set_prop "$gte" (MDate d) range
        | None => range
        end in
      let range :=
        match to with
        | Some d => set_prop "$lte" (MDate d) range
        | None => range
        end in
      let filters := set_prop field (MObj range) filters in
      if Nat.eqb (List.length (keys range)) 0
      then delete_prop field filters else filters
  end.

(** Lines 217-227: the keywords fallback. *)
Definition keywords_filter (keywords : jsval) (filters : filter_obj)
  : filter_obj :=
  match keywords with
  | JStr s =>
      if truthy keywords && (0 <? String.length (Str.trim s))%nat then
        match sanitizeString keywords with
        | JStr kw =>
            let re := MRegExp (escape_regex kw) "i" in
            set_prop "$or"
              (MArr [ MObj [("title_en", re)];
                      MObj [("title_hi", re)];
                      MObj [("title_bn", re)];
                      MObj [("description", re)];
                      MObj [("tags", in_clause [JStr kw])] ])
              filters
        | _ => filters
        end
      else filters
  | _ => filters
  end.

Section Builders.

Variable Date_parse : string -> option Z.

(** The clock: [clock k] is what [new Date()] reads in the [k]-th call of
    [parseDate] made by one run of [buildMongoFilters]. *)
Variable clock : nat -> Z.

(** [buildMongoFilters(opts = {})].  The parameter default replaces
    undefined only; destructuring null raises a TypeError. *)
Definition buildMongoFilters (opts : jsval) : completion filter_obj :=
  let opts := match opts with JUndefined => JObj [] | _ => opts end in
  if is_nullish opts
  then Throw "TypeError: Cannot destructure property of null"
  else
    let filters : filter_obj := [] in
    let language := get_prop opts "language" in
    let category := get_prop opts "category" in
    let tags := get_prop opts "tags" in
    let locations := get_prop opts "locations" in
    let isPaid := get_prop opts "isPaid" in
    let minDownloads := get_prop opts "minDownloads" in
    let dateFrom := get_prop opts "dateFrom" in
    let dateTo := get_prop opts "dateTo" in
    let examDateFrom := get_prop opts "examDateFrom" in
    let examDateTo := get_prop opts "examDateTo" in
    let level := get_prop opts "level" in
    let keywords := get_prop opts "keywords" in
    let filters :=
      if truthy language
      then set_prop "language" (MVal (sanitizeString language)) filters
      else filters in
    let filters :=
      if truthy category
      then set_prop "category" (MVal (sanitizeString category)) filters
      else filters in
    let filters := membership_filter "tags" tags filters in
    let filters := membership_filter "locations" locations filters in
    let filters :=
      if negb (is_nullish isPaid)
      then set_prop "isPaid" (MVal (JBool (truthy isPaid))) filters
      else filters in
    let filters :=
      match parseInteger minDownloads with
      | Some minD =>
          set_prop "downloads" (MObj [("$gte", MVal (JNum minD))]) filters
      | None => filters
      end in
    let from := parseDate Date_parse (clock 0) dateFrom in
    let to := parseDate Date_parse (clock 1) dateTo in
    let filters := range_filter "publishedAt" from to filters in
    let eFrom := parseDate Date_parse (clock 2) examDateFrom in
    let eTo := parseDate Date_parse (clock 3) examDateTo in
    let filters := range_filter "examDate" eFrom eTo filters in
    let filters :=
      if truthy level
      then set_prop "level" (MVal (sanitizeString level)) filters
      else filters in
    let filters := keywords_filter keywords filters in
    Normal filters.

End Builders.

(** A destructuring default: it replaces undefined only. *)
Definition with_default (d v : jsval) : jsval :=
  match v with JUndefined => d | _ => v end.

(** [buildListOptions(opts = {})], which destructures [opts || {}].  The
    page, the limit and the skip are integers: they are the numbers of the
    code as long as the page and the skip stay below 2^53, beyond which the
    code rounds what it parses, the difference and the product. *)
Definition buildListOptions (opts : jsval) : list_options :=
  let opts := with_default (JObj []) opts in
  let o := if truthy opts then opts else JObj [] in
  let page := with_default (JNum DEFAULT_PAGE) (get_prop o "page") in
  let limit := with_default (JNum DEFAULT_LIMIT) (get_prop o "limit") in
  let sort := with_default (JStr "score") (get_prop o "sort") in
  let page := or_fallback DEFAULT_PAGE (parseInteger page) in
  let limit := or_fallback DEFAULT_LIMIT (parseInteger limit) in
  let limit := if limit <=? 0 then DEFAULT_LIMIT else limit in
  let limit := if limit >? MAX_LIMIT then MAX_LIMIT else limit in
  let page := if page <=? 0 then DEFAULT_PAGE else page in
  let skip := (page - 1) * limit in
  let sortKey :=
    match sort with
    | JStr name =>
        match SORT_MAP_get name with
        | Some _ => name
        | None => "score"
        end
    | _ => "score"
    end in
  let sortObj := or_fallback SORT_MAP_score (SORT_MAP_get sortKey) in
  {| skip := skip; limit := limit; sort := sortObj; page := page |}.

(** The two shapes [buildPdfFiltersAndOptions] accepts: a [URLSearchParams]
    (its entries in order; [typeof query.get === 'function'] holds for it
    alone, the values of the model containing no function) or any value. *)
Inductive query : Type :=
| SearchParams (entries : list (string * string))
| PlainQuery (v : jsval).

(** [query.get(name)]: the first value of that name, or null. *)
Definition usp_get (entries : list (string * string)) (name : string)
  : jsval :=
  match assoc name entries with
  | Some v => JStr v
  | None => JNull
  end.

(** [query.has(name)] *)
Definition usp_has (entries : list (string * string)) (name : string)
  : bool :=
  match assoc name entries with Some _ => true | None => false end.

(** [a || b] *)
Definition js_or (a b : jsval) : jsval := if truthy a then a else b.

(** The value of an optional boolean parameter: [parseBoolean(v)] with the
    fallback left undefined. *)
Definition boolean_param (v : jsval) : jsval :=
  match parseBoolean v with
  | Some b => JBool b
  | None => JUndefined
  end.

Record request_meta : Type := {
  meta_q : jsval;
  meta_page : Z;
  meta_limit : Z;
  meta_sort : jsval
}.

Record filters_and_options : Type := {
  filters : filter_obj;
  options : list_options;
  meta : request_meta
}.

(** Lines 309-314: a comma-separated list becomes an array. *)
Definition normalize_list (field : string) (params : list (string * jsval))
  : list (string * jsval) :=
  match get_prop (JObj params) field with
  | JStr s =>
      if negb (Str.is_empty (Str.trim s))
      then set_prop field (JArr (parseList (JStr s))) params
      else params
  | _ => params
  end.

Section Wrapper.

Variable Date_parse : string -> option Z.
Variable clock : nat -> Z.

(** The object literal of lines 270-287. *)
Definition params_of_search_params (entries : list (string * string))
  : list (string * jsval) :=
  let get := usp_get entries in
  [ ("q", js_or (get "q") (JStr ""));
    ("language", js_or (get "language") JUndefined);
    ("category", js_or (get "category") JUndefined);
    ("tags", js_or (get "tags") JUndefined);
    ("locations", js_or (get "locations") JUndefined);
    ("isPaid",
      if usp_has entries "isPaid"
      then boolean_param (get "isPaid") else JUndefined);
    ("minDownloads", js_or (get "minDownloads") JUndefined);
    ("dateFrom", js_or (get "dateFrom") JUndefined);
    ("dateTo", js_or (get "dateTo") JUndefined);
    ("examDateFrom", js_or (get "examDateFrom") JUndefined);
    ("examDateTo", js_or (get "examDateTo") JUndefined);
    ("level", js_or (get "level") JUndefined);
    ("keywords", js_or (get "keywords") JUndefined);
    ("page", js_or (get "page") JUndefined);
    ("limit", js_or (get "limit") JUndefined);
    ("sort", js_or (get "sort") JUndefined) ].

(** The object literal of lines 289-306. *)
Definition params_of_object (o : jsval) : list (string * jsval) :=
  [ ("q", js_or (get_prop o "q") (JStr ""));
    ("language", get_prop o "language");
    ("category", get_prop o "category");
    ("tags", get_prop o "tags");
    ("locations", get_prop o "locations");
    ("isPaid",
      if negb (is_undefined (get_prop o "isPaid"))
      then boolean_param (get_prop o "isPaid") else JUndefined);
    ("minDownloads", get_prop o "minDownloads");
    ("dateFrom", get_prop o "dateFrom");
    ("dateTo", get_prop o "dateTo");
    ("examDateFrom", get_prop o "examDateFrom");
    ("examDateTo", get_prop o "examDateTo");
    ("level", get_prop o "level");
    ("keywords", get_prop o "keywords");
    ("page", get_prop o "page");
    ("limit", get_prop o "limit");
    ("sort", get_prop o "sort") ].

(** [buildPdfFiltersAndOptions(query = {})].  Reading [query.get] of null
    raises a TypeError. *)
Definition buildPdfFiltersAndOptions (query : query)
  : completion filters_and_options :=
  params <-
    match query with
    | SearchParams entries => Normal (params_of_search_params entries)
    | PlainQuery v =>
        let o := with_default (JObj []) v in
        if is_nullish o
        then Throw "TypeError: Cannot read properties of null"
        else Normal (params_of_object o)
    end ;;
  let params := normalize_list "tags" params in
  let params := normalize_list "locations" params in
  filters <- buildMongoFilters Date_parse clock (JObj params) ;;
  let options :=
    buildListOptions
      (JObj [ ("page", get_prop (JObj params) "page");
              ("limit", get_prop (JObj params) "limit");
              ("sort", get_prop (JObj params) "sort") ]) in
  Normal
    {| filters := filters;
       options := options;
       meta := {| meta_q := get_prop (JObj params) "q";
                  meta_page := page options;
                  meta_limit := limit options;
                  meta_sort :=
                    js_or (get_prop (JObj params) "sort") (JStr "score") |}
    |}.

End Wrapper.

(* ================================================================== *)
(** ** src/lib/atlasSearch.js                                         *)
(* ================================================================== *)

Module Atlas.

(** Operators placed in the compound query. *)
Inductive clause : Type :=
| Text (query : jsval) (path : list string) (maxEdits prefixLength : Z)
| Equals (path : string) (value : jsval)
| In (path : string) (value : jsval).

(** [compound: { should, must }]; [None] is the undefined the source
    writes for an empty list. *)
Record compound : Type := {
  should : option (list clause);
  must : option (list clause)
}.

Inductive stage : Type :=
| Search (index : string) (query : compound) (highlight : list string)
| AddFields (fields : list (string * string))
| Project (fields : list string)
| Sort (spec : sort_spec)
| Skip (n : Z)
| Limit (n : Z)
| Count (field : string)
| Facet (branches : list (string * list stage)).

(** The argument object, after destructuring; [None] in [page] and
    [limit] is undefined, where the defaults 1 and 10 apply.  [page] and
    [limit] are numbers, as in every call of the repository. *)
Record args : Type := {
  q : jsval;
  language : jsval;
  category : jsval;
  locations : jsval;
  sort : jsval;
  page : option Z;
  limit : option Z
}.

(** Truthiness of [locations?.length]. *)
Definition has_length (v : jsval) : bool :=
  match v with
  | JArr l => negb (Nat.eqb (List.length l) 0)
  | JStr s => negb (Str.is_empty s)
  | JObj _ => truthy (get_prop v "length")
  | _ => false
  end.

(** [v === name] for a string literal [name]. *)
Definition is_string_eq (v : jsval) (name : string) : bool :=
  match v with JStr s => String.eqb s name | _ => false end.

Definition text_paths : list string :=
  [ "title_en"; "title_hi"; "title_bn"; "keywords.en"; "keywords.hi";
    "keywords.bn"; "tags"; "category" ].

Definition non_empty (l : list clause) : option (list clause) :=
  match l with [] => None | _ => Some l end.

Definition buildPdfSearchPipeline (a : args) : list stage :=
  let sort := with_default (JStr "score") (sort a) in
  let page := or_fallback 1 (page a) in
  let limit := or_fallback 10 (limit a) in
  let should :=
    if truthy (q a) then [Text (q a) text_paths 2 2] else [] in
  let must : list clause := [] in
  let must :=
    if truthy (language a)
    then (must ++ [Equals "language" (language a)])%list else must in
  let must :=
    if truthy (category a)
    then (must ++ [Equals "category" (category a)])%list else must in
  let must :=
    if has_length (locations a)
    then (must ++ [In "locations" (locations a)])%list else must in
  let pipeline :=
    [ Search "pdf_search_index"
        {| should := non_empty should; must := non_empty must |}
        ["title_en"; "title_hi"; "title_bn"; "keywords.en"; "tags"];
      AddFields [("score", "searchScore");
                 ("highlights", "searchHighlights")];
      Project ["title_en"; "title_hi"; "title_bn"; "category"; "tags";
               "language"; "seoSlug"; "downloads"; "createdAt"; "r2Key";
               "price"; "isPaid"; "score"; "highlights"] ] in
  let pipeline :=
    if is_string_eq sort "downloads" then
      (pipeline ++ [Sort [("downloads", -1); ("createdAt", -1)]])%list
    else if is_string_eq sort "latest" then
      (pipeline ++ [Sort [("createdAt", -1)]])%list
    else
      (pipeline
       ++ [Sort [("score", -1); ("downloads", -1); ("createdAt", -1)]])%list
  in
  let skip := (page - 1) * limit in
  (pipeline
   ++ [Facet [ ("results", [Skip skip; Limit limit]);
               ("totalCount", [Count "count"]) ]])%list.

End Atlas.

(* ================================================================== *)
(** ** How the store reads a pipeline                                 *)
(* ================================================================== *)

(** The part of the aggregation semantics the properties below rest on:
    the compound operator of [$search] and the stages of the fan-out.
    [doc] is the type of the stored documents. *)
Module Engine.
Import Atlas.

Section Run.

Variable doc : Type.

(** The verdict of one operator on one document (term matching, path
    lookup) is the search engine's. *)
Variable holds : clause -> doc -> bool.

Definition clauses (l : option (list clause)) : list clause :=
  match l with Some cs => cs | None => [] end.

(** A document is selected by a compound query when it satisfies every
    [must] clause; [should] clauses only add to the score, except that
    without any [must] clause at least one of them has to match
    ([minimumShouldMatch] is 0 by default). *)
Definition selects (c : compound) (d : doc) : bool :=
  List.forallb (fun cl => holds cl d) (clauses (must c))
  && match clauses (must c) with
     | [] => List.existsb (fun cl => holds cl d) (clauses (should c))
     | _ => true
     end.

(** What flows between stages: a stored document, the output of
    [$count], or the single output of [$facet]. *)
Inductive row : Type :=
| Doc (d : doc)
| Counted (field : string) (n : Z)
| Faceted (out : list (string * list row)).

(** One stage on its input.  [$skip] rejects a negative number and
    [$limit] a number that is not positive; [$count] yields nothing on
    an empty input; [$facet] runs every branch on the same input and
    yields one document.  [None] is an error of the store, or a stage
    whose execution is not modelled.  The store takes a [$skip] and a
    [$limit] up to 2^63 - 1 only; the model sets no upper bound, so what
    is said of a request holds for numbers below that one. *)
Fixpoint run_stage (s : stage) (input : list row) {struct s}
  : option (list row) :=
  match s with
  | Skip n =>
      if n <? 0 then None else Some (List.skipn (Z.to_nat n) input)
  | Limit n =>
      if n <=? 0 then None else Some (List.firstn (Z.to_nat n) input)
  | Count field =>
      Some match input with
           | [] => []
           | _ => [Counted field (Z.of_nat (List.length input))]
           end
  | Facet branches =>
      option_map (fun out => [Faceted out])
        ((fix each (bs : list (string * list stage))
            : option (list (string * list row)) :=
            match bs with
            | [] => Some []
            | (name, p) :: rest =>
                match
                  (fix sub (p : list stage) (inp : list row)
                     : option (list row) :=
                     match p with
                     | [] => Some inp
                     | s' :: p' =>
                         match run_stage s' inp with
                         | Some o => sub p' o
                         | None => None
                         end
                     end) p input,
                  each rest
                with
                | Some o, Some os => Some ((name, o) :: os)
                | _, _ => None
                end
            end) branches)
  | Search _ _ _ | AddFields _ | Project _ | Sort _ => None
  end.

Fixpoint run (p : list stage) (input : list row) : option (list row) :=
  match p with
  | [] => Some input
  | s :: p' =>
      match run_stage s input with
      | Some o => run p' o
      | None => None
      end
  end.

(** The stages that follow the [$sort] stage. *)
Fixpoint after_sort (p : list stage) : option (list stage) :=
  match p with
  | [] => None
  | Sort _ :: rest => Some rest
  | _ :: rest => after_sort rest
  end.

(** [Pdf.aggregate(pipeline)]: the search, projection and sort stages are
    the engine's; [ranked] is the sequence of matches that leaves the
    [$sort] stage, on which the rest of the pipeline runs. *)
Definition aggregate (ranked : list doc) (pipeline : list stage)
  : option (list row) :=
  match after_sort pipeline with
  | Some rest => run rest (List.map Doc ranked)
  | None => None
  end.

End Run.

Arguments Doc {doc} d.
Arguments Counted {doc} field n.
Arguments Faceted {doc} out.

End Engine.

(* ================================================================== *)
(** ** src/app/api/pdfs/route.js: the search branch of GET             *)
(* ================================================================== *)

Module Route.
Import Engine.

Section Get.

Variable doc : Type.
Variable Date_parse : string -> option Z.
Variable clock : nat -> Z.

Record envelope : Type := {
  success : bool;
  results : list (row doc);
  total : Z;
  env_page : Z;
  env_limit : Z;
  totalPages : Z
}.

(** [Math.ceil(a / b)] for a positive [b]. *)
Definition ceil_div (a b : Z) : Z := - ((- a) / b).

(** Lines 70-83: the envelope made from the output of the aggregation. *)
Definition search_body (agg : list (row doc)) (page limit : Z)
  : envelope :=
  let agg0 :=
    match agg with
    | Faceted out :: _ => out
    | _ => [("results", []); ("totalCount", [])]
    end in
  let results :=
    match assoc "results" agg0 with Some rs => rs | None => [] end in
  let total :=
    match assoc "totalCount" agg0 with
    | Some (Counted field n :: _) =>
        if String.eqb field "count" then n else 0
    | _ => 0
    end in
  {| success := true;
     results := results;
     total := total;
     env_page := page;
     env_limit := limit;
     totalPages := if limit >? 0 then ceil_div total limit else 0 |}.

(** Lines 47-53: the locations handed to the pipeline builder. *)
Definition locations_param (entries : list (string * string)) : jsval :=
  match usp_get entries "locations" with
  | JStr s =>
      if Str.is_empty s then JArr []
      else JArr (List.map JStr
                   (List.filter (fun t => negb (Str.is_empty t))
                      (List.map Str.trim (Str.split "," s))))
  | _ => JArr []
  end.

(** What GET answers. *)
Inductive response : Type :=
| Json (body : envelope)
| FilterOnly
| InternalServerError.

(** Lines 29-91: the handler on the search parameters of the request URL.
    [ranked] is the ranked sequence of matches in the store.  A request
    whose trimmed [q] is empty takes the filter-only branch of lines 93-145,
    which is not modelled: [FilterOnly] marks it.  [InternalServerError] is
    the response of the catch block. *)
Definition GET (entries : list (string * string)) (ranked : list doc)
  : response :=
  let q := Str.trim (ToString (js_or (usp_get entries "q") (JStr ""))) in
  match buildPdfFiltersAndOptions Date_parse clock
          (SearchParams entries) with
  | Throw _ => InternalServerError
  | Normal fo =>
      let limit := limit (options fo) in
      let page := page (options fo) in
      if truthy (JStr q) then
        let pipeline :=
          Atlas.buildPdfSearchPipeline
            {| Atlas.q := JStr q;
               Atlas.language :=
                 js_or (usp_get entries "language") JUndefined;
               Atlas.category :=
                 js_or (usp_get entries "category") JUndefined;
               Atlas.locations := locations_param entries;
               Atlas.sort := js_or (usp_get entries "sort") (JStr "score");
               Atlas.page := Some page;
               Atlas.limit := Some limit |} in
        match aggregate doc ranked pipeline with
        | Some agg => Json (search_body agg page limit)
        | None => InternalServerError
        end
      else FilterOnly
  end.

End Get.

Arguments success {doc} e.
Arguments results {doc} e.
Arguments total {doc} e.
Arguments env_page {doc} e.
Arguments env_limit {doc} e.
Arguments totalPages {doc} e.
Arguments Json {doc} body.
Arguments FilterOnly {doc}.
Arguments InternalServerError {doc}.

End Route.

(* ================================================================== *)
(** ** Vocabulary of the properties                                   *)
(* ================================================================== *)

(** The parameters [buildMongoFilters] destructures from its argument. *)
Definition filter_params : list string :=
  [ "language"; "category"; "tags"; "locations"; "isPaid"; "minDownloads";
    "dateFrom"; "dateTo"; "examDateFrom"; "examDateTo"; "level"; "keywords" ].



(** [sanitizeString] on a string. *)
Definition sanitize (s : string) : string :=
  Str.trim (Str.filter (fun c => negb (Str.is_control c)) s).

(** The filter of a wrapper result. *)
Definition filters_of (c : completion filters_and_options)
  : completion filter_obj :=
  match c with
  | Normal r => Normal (filters r)
  | Throw e => Throw e
  end.

(** A parameter that carries nothing: absent, undefined, null or the empty
    string. *)
Definition no_value (opts : jsval) (name : string) : Prop :=
  is_blank (get_prop opts name) = true.

(** Milliseconds in the units of a relative date. *)
Definition unit_ms (u : ascii) : Z :=
  if Ascii.eqb u "d" then 86400000
  else if Ascii.eqb u "h" then 3600000
  else if Ascii.eqb u "m" then 30 * 86400000
  else if Ascii.eqb u "y" then 365 * 86400000
  else 0.

(** A value [parseInt] has no number for. *)
Definition non_numeric (v : jsval) : Prop :=
  is_blank v = true \/ Str.starts_with_number (ToString v) = false.

(** The compound query of the [$search] stage that opens a pipeline. *)
Definition search_compound (p : list Atlas.stage) : option Atlas.compound :=
  match p with
  | Atlas.Search _ c _ :: _ => Some c
  | _ => None
  end.

(** The stages of a pipeline that fan out. *)
Definition is_facet (s : Atlas.stage) : bool :=
  match s with Atlas.Facet _ => true | _ => false end.

(** A list parameter after lines 309-314. *)
Definition normalized (v : jsval) : jsval :=
  match v with
  | JStr s =>
      if negb (Str.is_empty (Str.trim s)) then JArr (parseList (JStr s))
      else v
  | _ => v
  end.

(** The parameter object the wrapper hands to [buildMongoFilters]. *)
Definition filter_argument (params : list (string * jsval)) : jsval :=
  JObj (normalize_list "locations" (normalize_list "tags" params)).

(** The parameters [buildListOptions] destructures. *)
Definition list_params : list string := ["page"; "limit"; "sort"].

(** What a caller wrote for [isPaid]. *)
Definition isPaid_input (q : query) : jsval :=
  match q with
  | SearchParams entries => usp_get entries "isPaid"
  | PlainQuery v => get_prop v "isPaid"
  end.

(** The integers on which the numbers of the sources are exact: below
    2^53 in magnitude every integer is a double, [String] prints its
    digits, [parseInt] reads them back, and sums and products that stay in
    the range are not rounded. *)
Definition safe_integer (n : Z) : Prop := Z.abs n < 2 ^ 53.

(** The values [String] converts without raising. *)
Definition converts (v : jsval) : Prop := String_raises v = false.

(** The parameters [buildMongoFilters] hands to [String], through
    [parseInteger] and [parseDate]. *)
Definition converted_params : list string :=
  ["minDownloads"; "dateFrom"; "dateTo"; "examDateFrom"; "examDateTo"].

(** The magnitude of the number [m * 10 ^ e] against an integer bound,
    written without fractions. *)
Definition magnitude_le (m e b : Z) : Prop :=
  if 0 <=? e then Z.abs m * 10 ^ e <= b else Z.abs m <= b * 10 ^ (- e).

Definition magnitude_ge (m e b : Z) : Prop :=
  if 0 <=? e then b <= Z.abs m * 10 ^ e else b * 10 ^ (- e) <= Z.abs m.

(** The limit resolved from what [parseInteger] returned. *)
Definition clamp_limit (parsed : option Z) : Z :=
  let limit := or_fallback DEFAULT_LIMIT parsed in
  let limit := if limit <=? 0 then DEFAULT_LIMIT else limit in
  if limit >? MAX_LIMIT then MAX_LIMIT else limit.

(** The page resolved from what [parseInteger] returned. *)
Definition clamp_page (parsed : option Z) : Z :=
  let page := or_fallback DEFAULT_PAGE parsed in
  if page <=? 0 then DEFAULT_PAGE else page.

(** The page, limit and sort a URLSearchParams carries, as the wrapper hands
    them to [buildListOptions]. *)
Definition list_argument (entries : list (string * string)) : jsval :=
  JObj [ ("page", js_or (usp_get entries "page") JUndefined);
         ("limit", js_or (usp_get entries "limit") JUndefined);
         ("sort", js_or (usp_get entries "sort") JUndefined) ].

(** The unit letters of a relative date, in either case. *)
Definition is_unit (u : ascii) : bool :=
  Ascii.eqb (Str.lower u) "d" || Ascii.eqb (Str.lower u) "h"
  || Ascii.eqb (Str.lower u) "m" || Ascii.eqb (Str.lower u) "y".

(** The result of [parseDate] for a [Date] it has checked. *)
Definition checked (d : jsdate) : option jsdate :=
  if DateObj.is_invalid d then None else Some d.

(** The free-text term of a request, as GET reads it. *)
Definition search_term (entries : list (string * string)) : string :=
  Str.trim (ToString (js_or (usp_get entries "q") (JStr ""))).

(** The host of the concrete runs: no date is parsed and the clock stands
    still. *)
Definition no_Date_parse : string -> option Z := fun _ => None.
Definition still_clock : nat -> Z := fun _ => 1700000000000.

(* ================================================================== *)
(** ** src/lib/jwt.js: payload, cookie and bearer token               *)
(* ================================================================== *)

Module Jwt.

(** The variables of [process.env] the module reads; [None] is a variable
    that is not set. *)
Record environment : Type := {
  env_NODE_ENV : option string;
  env_REFRESH_TOKEN_EXP : option string;
  env_REFRESH_TOKEN_EXPIRES : option string
}.

(** A string without its last character, and that character. *)
Fixpoint split_last (s : string) : option (string * ascii) :=
  match s with
  | EmptyString => None
  | String c r =>
      match split_last r with
      | Some (front, l) => Some (String c front, l)
      | None => Some (EmptyString, c)
      end
  end.

(** [s.endsWith(c)] for a one-character [c], and [s.slice(0, -1)]. *)
Definition ends_with (s : string) (c : ascii) : bool :=
  match split_last s with
  | Some (_, l) => Ascii.eqb l c
  | None => false
  end.

Definition drop_last (s : string) : string :=
  match split_last s with
  | Some (front, _) => front
  | None => EmptyString
  end.

(** The constants destructured from [process.env] with their defaults. *)
Definition REFRESH_TOKEN_EXP (e : environment) : string :=
  match env_REFRESH_TOKEN_EXP e with Some s => s | None => "30d" end.

Definition NODE_ENV (e : environment) : string :=
  match env_NODE_ENV e with Some s => s | None => "development" end.



(** The body of [if (!computedMaxAge)] in [getRefreshTokenCookie]: the
    [Max-Age] derived from the time to live of the environment.  The
    variables of the environment are strings, so that [ttl] is one; [None]
    is the undefined or the NaN that results when no number can be read
    (both are falsy, and nothing else is asked of them).  The environment
    is the same when the module is loaded and when the function runs. *)
Definition derived_max_age (e : environment) : option Z :=
  let non_empty (v : option string) : option string :=
    match v with
    | Some s => if Str.is_empty s then None else Some s
    | None => None
    end in
  let envVal :=
    match non_empty (env_REFRESH_TOKEN_EXP e) with
    | Some s => Some s
    | None => non_empty (env_REFRESH_TOKEN_EXPIRES e)
    end in
  let fallback := REFRESH_TOKEN_EXP e in
  let ttl := match envVal with Some s => s | None => fallback end in
  if ends_with ttl "d" then
    option_map (fun days => days * 24 * 60 * 60)
      (Str.parseInt10 (drop_last ttl))
  else if ends_with ttl "h" then
    option_map (fun hours => hours * 60 * 60)
      (Str.parseInt10 (drop_last ttl))
  else if ends_with ttl "m" then
    option_map (fun mins => mins * 60) (Str.parseInt10 (drop_last ttl))
  else Str.parseInt10 ttl.

(** [getRefreshTokenCookie(token, opts = {})].  Destructuring null
    raises a TypeError. *)
Definition getRefreshTokenCookie (e : environment) (token opts : jsval)
  : completion string :=
  let opts := with_default (JObj []) opts in
  if is_nullish opts
  then Throw "TypeError: Cannot destructure property of null"
  else
    let httpOnly := with_default (JBool true) (get_prop opts "httpOnly") in
    let secure :=
      with_default (JBool (String.eqb (NODE_ENV e) "production"))
        (get_prop opts "secure") in
    let sameSite := with_default (JStr "lax") (get_prop opts "sameSite") in
    let path := with_default (JStr "/") (get_prop opts "path") in
    let maxAge := get_prop opts "maxAge" in
    let computedMaxAge :=
      if negb (truthy maxAge) then
        match derived_max_age e with
        | Some n => JNum n
        | None => JUndefined
        end
      else maxAge in
    let parts :=
      [ "refreshToken=" ++ ToString token;
        "Path=" ++ ToString path;
        "HttpOnly=" ++ (if truthy httpOnly then "true" else "false");
        "SameSite=" ++ ToString sameSite ] in
    let parts := if truthy secure then (parts ++ ["Secure"])%list else parts in
    let parts :=
      if truthy computedMaxAge
      then (parts ++ [("Max-Age=" ++ ToString computedMaxAge)%string])%list
      else parts in
    Normal (Str.join "; " parts).

(** What [.] does not match: the line terminators LF and CR. *)
Definition is_line_terminator (c : ascii) : bool :=
  ((Str.code c =? 10) || (Str.code c =? 13))%N.

(** The longest prefix [\s+] can take, and what follows it. *)
Fixpoint span_spaces (s : string) : string * string :=
  match s with
  | String c r =>
      if Str.is_space c
      then let (w, t) := span_spaces r in (String c w, t)
      else (EmptyString, s)
  | EmptyString => (EmptyString, EmptyString)
  end.

(** The capture of [/^Bearer\s+(.+)$/i] in what follows the six letters
    of the scheme.  [\s+] is greedy: it takes the whole run of white space
    when something follows the run, and that must be free of line
    terminators up to the end of the string.  When nothing follows the
    run, [\s+] gives back its last character to [(.+)], which takes it
    unless it is a line terminator; [\s+] must keep one character. *)
Definition capture_after_scheme (rest : string) : option string :=
  match span_spaces rest with
  | (EmptyString, _) => None
  | (String _ _, String c t) =>
      if Str.forallb (fun x => negb (is_line_terminator x)) (String c t)
      then Some (String c t) else None
  | (String _ _ as w, EmptyString) =>
      match split_last w with
      | Some (String _ _, l) =>
          if is_line_terminator l then None
          else Some (String l EmptyString)
      | _ => None
      end
  end.

(** [headerVal.match(/^Bearer\s+(.+)$/i)], reduced to its capture. *)
Definition match_bearer (s : string) : option string :=
  match s with
  | String c1 (String c2 (String c3 (String c4 (String c5 (String c6
      rest))))) =>
      if String.eqb
           (Str.toLowerCase
              (String c1 (String c2 (String c3 (String c4 (String c5
                 (String c6 EmptyString)))))))
           "bearer"
      then capture_after_scheme rest
      else None
  | _ => None
  end.

(** [extractBearerToken(headerVal)].  A falsy header gives null; a string
    is matched; any other truthy value has no [match] method, and calling
    it raises a TypeError. *)
Definition extractBearerToken (headerVal : jsval) : completion (option string) :=
  if negb (truthy headerVal) then Normal None
  else match headerVal with
       | JStr s => Normal (match_bearer s)
       | _ => Throw "TypeError: headerVal.match is not a function"
       end.

End Jwt.

(* ================================================================== *)
(** ** src/app/api/search/route.js                                     *)
(* ================================================================== *)

Module SearchRoute.
Import Engine.

Section Get.

Variable doc : Type.

(** What this GET answers.  [NotANumber] marks a request whose page or
    limit parses to NaN, which the number model does not cover. *)
Inductive response : Type :=
| Json (body : Route.envelope doc)
| InternalServerError
| NotANumber.

(** [locationsParam ? locationsParam.split(',').map(l => l.trim()) : []] *)
Definition locations_param (entries : list (string * string)) : jsval :=
  match usp_get entries "locations" with
  | JStr s =>
      if Str.is_empty s then JArr []
      else JArr (List.map JStr (List.map Str.trim (Str.split "," s)))
  | _ => JArr []
  end.

(** The body of the try block once the aggregation has returned:
    optional chaining gives the empty results and the total 0 when the
    output has no first document. *)
Definition response_data (agg : list (row doc)) (page limit : Z)
  : Route.envelope doc :=
  let agg0 :=
    match agg with
    | Faceted out :: _ => out
    | _ => []
    end in
  let results :=
    match assoc "results" agg0 with Some rs => rs | None => [] end in
  let total :=
    match assoc "totalCount" agg0 with
    | Some (Counted field n :: _) =>
        if String.eqb field "count" then n else 0
    | _ => 0
    end in
  {| Route.success := true;
     Route.results := results;
     Route.total := total;
     Route.env_page := page;
     Route.env_limit := limit;
     Route.totalPages := Route.ceil_div total limit |}.

(** GET of /api/search.  Page and limit are what [parseInt] reads, with
    no clamping; an error of the store ends in the catch block.  [ranked]
    is the ranked sequence of matches in the store. *)
Definition GET (entries : list (string * string)) (ranked : list doc)
  : response :=
  let q := js_or (usp_get entries "q") (JStr "") in
  let language := js_or (usp_get entries "language") JNull in
  let category := js_or (usp_get entries "category") JNull in
  let sort := js_or (usp_get entries "sort") (JStr "score") in
  match Str.parseInt10 (ToString (js_or (usp_get entries "page") (JStr "1"))),
        Str.parseInt10 (ToString (js_or (usp_get entries "limit") (JStr "10")))
  with
  | Some page, Some limit =>
      let pipeline :=
        Atlas.buildPdfSearchPipeline
          {| Atlas.q := q;
             Atlas.language := language;
             Atlas.category := category;
             Atlas.locations := locations_param entries;
             Atlas.sort := sort;
             Atlas.page := Some page;
             Atlas.limit := Some limit |} in
      match aggregate doc ranked pipeline with
      | Some agg => Json (response_data agg page limit)
      | None => InternalServerError
      end
  | _, _ => NotANumber
  end.

End Get.

Arguments Json {doc} body.
Arguments InternalServerError {doc}.
Arguments NotANumber {doc}.

End SearchRoute.

(* ================================================================== *)
(** ** Vocabulary of the further properties                           *)
(* ================================================================== *)

(** A string [sanitizeString] leaves alone: no control character, no white
    space at either end. *)
Definition is_clean (s : string) : Prop := sanitize s = s.

(** A token of a comma-separated list: clean, not empty, without comma. *)
Definition is_token (s : string) : Prop :=
  is_clean s /\ s <> EmptyString
  /\ Str.forallb (fun c => negb (Ascii.eqb c ",")) s = true.

(** A string made of white space only. *)
Definition is_blank_run (s : string) : bool := Str.forallb Str.is_space s.

(** The plain object with one property per entry of a URLSearchParams, as
    [Object.fromEntries] makes it: a later entry of the same name
    overwrites an earlier one. *)
Definition object_of_entries (entries : list (string * string)) : jsval :=
  JObj (List.fold_left
          (fun o kv => set_prop (fst kv) (JStr (snd kv)) o) entries []).

(** Two readings of one parameter: the same value, or undefined on one side
    and the empty string on the other. *)
Definition same_or_blank (v1 v2 : jsval) : Prop :=
  v1 = v2 \/ (v1 = JUndefined /\ v2 = JStr EmptyString).

(** The documents on page [p] for a page size [l]. *)
Definition page_slice {doc : Type} (ranked : list doc) (p l : Z) : list doc :=
  List.firstn (Z.to_nat l) (List.skipn (Z.to_nat ((p - 1) * l)) ranked).

(** The pages 1 .. n. *)
Definition pages_up_to (n : Z) : list Z :=
  List.map Z.of_nat (List.seq 1 (Z.to_nat n)).

(** The results branch of what a pipeline yields on the ranked matches;
    empty when the store rejects the pipeline. *)
Definition results_of {doc : Type} (agg : option (list (Engine.row doc)))
  : list (Engine.row doc) :=
  match agg with
  | Some (Engine.Faceted out :: _) =>
      match assoc "results" out with Some rs => rs | None => [] end
  | _ => []
  end.

(** The arguments of a search for page [p] with page size [l]. *)
Definition with_page (a : Atlas.args) (p l : Z) : Atlas.args :=
  {| Atlas.q := Atlas.q a;
     Atlas.language := Atlas.language a;
     Atlas.category := Atlas.category a;
     Atlas.locations := Atlas.locations a;
     Atlas.sort := Atlas.sort a;
     Atlas.page := Some p;
     Atlas.limit := Some l |}.



(** A tags or locations parameter that names no member: neither a
    non-empty array nor a string with a token in it. *)
Definition no_members (v : jsval) : Prop :=
  match v with
  | JArr l => l = []
  | JStr s => Str.trim s = EmptyString \/ parseList (JStr s) = []
  | _ => True
  end.

(** A keywords parameter that starts no fallback search: not a string, or
    white space only. *)
Definition no_keywords (v : jsval) : Prop :=
  match v with
  | JStr s => Str.trim s = EmptyString
  | _ => True
  end.


(** The arguments GET of /api/pdfs hands to [buildPdfSearchPipeline]
    (lines 45-66). *)
Definition search_args (entries : list (string * string)) : Atlas.args :=
  let o := buildListOptions (list_argument entries) in
  {| Atlas.q := JStr (search_term entries);
     Atlas.language := js_or (usp_get entries "language") JUndefined;
     Atlas.category := js_or (usp_get entries "category") JUndefined;
     Atlas.locations := Route.locations_param entries;
     Atlas.sort := js_or (usp_get entries "sort") (JStr "score");
     Atlas.page := Some (page o);
     Atlas.limit := Some (limit o) |}.
(* ================================================================== *)
(** ** Facts about the string built-ins                               *)
(* ================================================================== *)

Module StrFacts.
Import Str.

Lemma digits_acc_some (s : string) (a : Z) :
  exists v, digits_acc (Some a) s = Some v.
Proof.
  revert a; induction s as [|c r IH]; intros a; simpl.
  - now exists a.
  - destruct (is_digit c); [apply IH | now exists a].
Qed.

(** Reading the digits of a printed numeral after a positive
    accumulator follows [Pos.of_uint_acc]. *)
Lemma digits_acc_uint_pos (u : uint) (p : positive) :
  digits_acc (Some (Z.pos p)) (NilEmpty.string_of_uint u)
  = Some (Z.pos (Pos.of_uint_acc u p)).
Proof.
  revert p; induction u; intros p; cbn [NilEmpty.string_of_uint digits_acc];
    try reflexivity;
    match goal with
    | |- context [is_digit ?c] =>
        change (is_digit c) with true; cbv iota;
        let v := eval vm_compute in (digit_value c) in
        change (digit_value c) with v
    end;
    cbn [Pos.of_uint_acc]; rewrite <- IHu; do 2 f_equal; lia.
Qed.

Lemma digits_acc_uint_zero (u : uint) :
  digits_acc (Some 0) (NilEmpty.string_of_uint u)
  = Some (Z.of_N (Pos.of_uint u)).
Proof.
  induction u; cbn [NilEmpty.string_of_uint digits_acc Pos.of_uint];
    try reflexivity;
    match goal with
    | |- context [is_digit ?c] => change (is_digit c) with true; cbv iota
    end;
    first [ exact IHu | apply digits_acc_uint_pos ].
Qed.

Lemma digits_acc_uint_none (u : uint) :
  u <> Nil ->
  digits_acc None (NilEmpty.string_of_uint u)
  = Some (Z.of_N (Pos.of_uint u)).
Proof.
  intros Hu. rewrite <- digits_acc_uint_zero.
  destruct u; [contradiction | reflexivity ..].
Qed.

Lemma trim_start_uint (u : uint) :
  trim_start (NilEmpty.string_of_uint u) = NilEmpty.string_of_uint u.
Proof. destruct u; reflexivity. Qed.

Lemma parseInt10_uint (u : uint) :
  u <> Nil ->
  parseInt10 (NilEmpty.string_of_uint u) = Some (Z.of_N (Pos.of_uint u)).
Proof.
  intros Hu. unfold parseInt10. rewrite trim_start_uint.
  rewrite <- (digits_acc_uint_none u Hu).
  destruct u; [contradiction | reflexivity ..].
Qed.

(** [parseInt(String(n), 10)] is [n]. *)
Lemma parseInt10_of_Z (n : Z) : parseInt10 (of_Z n) = Some n.
Proof.
  unfold of_Z. destruct n as [|p|p]; cbn [Z.to_int NilEmpty.string_of_int].
  - reflexivity.
  - rewrite parseInt10_uint by apply DecimalPos.Unsigned.to_uint_nonnil.
    now rewrite DecimalPos.Unsigned.of_to.
  - unfold parseInt10. cbn [trim_start].
    change (is_space "-") with false. cbv iota.
    rewrite digits_acc_uint_none by apply DecimalPos.Unsigned.to_uint_nonnil.
    now rewrite DecimalPos.Unsigned.of_to.
Qed.

Lemma digits_acc_none (s : string) :
  digits_acc None s = None <->
  match s with String c _ => is_digit c | EmptyString => false end = false.
Proof.
  destruct s as [|c r]; cbn [digits_acc]; [tauto|].
  destruct (is_digit c).
  - destruct (digits_acc_some r (10 * 0 + digit_value c)) as [v ->].
    split; discriminate.
  - tauto.
Qed.

(** [parseInt] answers NaN exactly on the strings that are not numeric. *)
Lemma parseInt10_NaN (s : string) :
  parseInt10 s = None <-> starts_with_number s = false.
Proof.
  unfold parseInt10, starts_with_number.
  assert (Hopp : forall r, option_map Z.opp (digits_acc None r) = None
                           <-> digits_acc None r = None).
  { intros r. destruct (digits_acc None r); cbn; split; congruence. }
  destruct (trim_start s) as [|c r]; [apply digits_acc_none|].
  destruct c as [[] [] [] [] [] [] [] []]; cbv beta iota;
    try rewrite Hopp; apply digits_acc_none.
Qed.



Lemma string_of_uint_digits (u : uint) :
  forallb is_digit (NilEmpty.string_of_uint u) = true.
Proof. induction u; cbn; auto. Qed.

Lemma trim_end_last (s : string) (c : ascii) :
  is_space c = false ->
  trim_end (s ++ String c EmptyString) = s ++ String c EmptyString.
Proof.
  intros Hc. induction s as [|a s IH]; cbn [append trim_end].
  - now rewrite Hc.
  - rewrite IH. destruct s; cbn; now rewrite andb_false_r.
Qed.

End StrFacts.

(* ================================================================== *)
(** ** Facts about objects under construction                         *)
(* ================================================================== *)

Section ObjectFacts.

Context {A : Type}.
Implicit Types (o : list (string * A)) (k : string).

Lemma assoc_set_prop k k' (v : A) o :
  assoc k (set_prop k' v o) = if String.eqb k k' then Some v else assoc k o.
Proof.
  induction o as [|[k0 v0] o IH]; cbn [set_prop assoc].
  - reflexivity.
  - destruct (String.eqb_spec k' k0) as [->|Hne]; cbn [assoc].
    + destruct (String.eqb k k0); reflexivity.
    + destruct (String.eqb_spec k k0) as [->|Hne'].
      * destruct (String.eqb_spec k0 k'); [congruence | reflexivity].
      * exact IH.
Qed.

Lemma assoc_delete_prop k k' o :
  assoc k (delete_prop k' o) = if String.eqb k k' then None else assoc k o.
Proof.
  unfold delete_prop.
  induction o as [|[k0 v0] o IH]; cbn [List.filter assoc fst].
  - now destruct (String.eqb k k').
  - destruct (String.eqb_spec k' k0) as [->|Hne]; cbn [negb assoc].
    + rewrite IH. destruct (String.eqb k k0); reflexivity.
    + rewrite IH. destruct (String.eqb_spec k k0) as [->|Hne'].
      * destruct (String.eqb_spec k0 k'); [congruence | reflexivity].
      * reflexivity.
Qed.


Lemma keys_delete_prop k o (S : list string) :
  incl (keys o) S -> incl (keys (delete_prop k o)) S.
Proof.
  intros Ho x Hx. apply Ho. unfold keys, delete_prop in *.
  apply in_map_iff in Hx as [[k0 v0] [<- Hin]].
  apply filter_In in Hin as [Hin _].
  apply in_map_iff. now exists (k0, v0).
Qed.

End ObjectFacts.

Lemma get_prop_set_prop (props : list (string * jsval)) k k' v :
  k <> k' ->
  get_prop (JObj (set_prop k' v props)) k = get_prop (JObj props) k.
Proof.
  intros Hne. cbn [get_prop]. rewrite assoc_set_prop.
  destruct (String.eqb_spec k k'); [contradiction | reflexivity].
Qed.


(* ================================================================== *)
(** ** Facts about the steps of [buildMongoFilters]                    *)
(* ================================================================== *)

Section StepFacts.

Variable S : list string.
Implicit Types (filters : filter_obj).




End StepFacts.

Lemma membership_filter_assoc k field val filters :
  k <> field ->
  assoc k (membership_filter field val filters) = assoc k filters.
Proof.
  intros Hne. unfold membership_filter.
  assert (E : forall v, assoc k (set_prop field v filters) = assoc k filters).
  { intros v. rewrite assoc_set_prop.
    destruct (String.eqb_spec k field); [contradiction | reflexivity]. }
  destruct val; try reflexivity.
  - destruct (negb (Str.is_empty (Str.trim s))); [|reflexivity].
    destruct (negb _); [apply E | reflexivity].
  - destruct (negb _); [apply E | reflexivity].
Qed.

Lemma range_filter_assoc k field from to filters :
  k <> field ->
  assoc k (range_filter field from to filters) = assoc k filters.
Proof.
  intros Hne. unfold range_filter.
  destruct from, to; cbn -[assoc]; try reflexivity;
    rewrite assoc_set_prop;
    (destruct (String.eqb_spec k field); [contradiction | reflexivity]).
Qed.

Lemma keywords_filter_assoc k keywords filters :
  k <> "$or" ->
  assoc k (keywords_filter keywords filters) = assoc k filters.
Proof.
  intros Hne. unfold keywords_filter.
  destruct keywords; try reflexivity.
  destruct (_ && _); [|reflexivity].
  cbn [sanitizeString]. rewrite assoc_set_prop.
  destruct (String.eqb_spec k "$or"); [contradiction | reflexivity].
Qed.

Lemma assoc_set_prop_eq {A} k (v : A) o :
  assoc k (set_prop k v o) = Some v.
Proof. rewrite assoc_set_prop. now rewrite String.eqb_refl. Qed.

Lemma assoc_set_prop_ne {A} k k' (v : A) o :
  k <> k' -> assoc k (set_prop k' v o) = assoc k o.
Proof.
  intros Hne. rewrite assoc_set_prop.
  destruct (String.eqb_spec k k'); [contradiction | reflexivity].
Qed.

Lemma Normal_inj {A} (a b : A) : Normal a = Normal b -> a = b.
Proof. congruence. Qed.

#[local] Ltac in_list := cbn; tauto.

(** Enters the body of a builder called on an object. *)
#[local] Ltac open_object props :=
  cbv beta iota zeta;
  change (is_nullish (JObj props)) with false; cbv beta iota.

(** Follows a key through the steps that do not assign it. *)
#[local] Ltac skip_steps :=
  repeat first
    [ rewrite keywords_filter_assoc by discriminate
    | rewrite range_filter_assoc by discriminate
    | rewrite membership_filter_assoc by discriminate
    | rewrite assoc_set_prop_ne by discriminate
    | match goal with
      | |- context [if ?b then set_prop _ _ _ else _] => destruct b
      | |- context [match parseInteger ?x with _ => _ end] =>
          destruct (parseInteger x)
      end ].

(** The guard of the keywords fallback amounts to: the trimmed string is not
    empty. *)
Lemma truthy_trimmed s :
  truthy (JStr s) && (0 <? String.length (Str.trim s))%nat
  = negb (Str.is_empty (Str.trim s)).
Proof.
  destruct s as [|c s]; [reflexivity|]. cbn [truthy Str.is_empty negb andb].
  now destruct (Str.trim (String c s)).
Qed.

Section FilterFacts.

Variable Date_parse : string -> option Z.
Variable clock : nat -> Z.

(** Only a null argument makes [buildMongoFilters] raise. *)
Lemma buildMongoFilters_returns opts :
  opts <> JNull -> exists f, buildMongoFilters Date_parse clock opts = Normal f.
Proof.
  intros Hn. unfold buildMongoFilters.
  destruct opts; cbn [is_nullish]; eauto. contradiction.
Qed.



Lemma buildMongoFilters_isPaid props f :
  buildMongoFilters Date_parse clock (JObj props) = Normal f ->
  assoc "isPaid" f =
    let v := get_prop (JObj props) "isPaid" in
    if is_nullish v then None else Some (MVal (JBool (truthy v))).
Proof.
  unfold buildMongoFilters. open_object props. intros <-%Normal_inj. rewrite keywords_filter_assoc by discriminate.
  destruct (truthy (get_prop (JObj props) "level"));
    rewrite ?assoc_set_prop_ne by discriminate;
    rewrite !range_filter_assoc by discriminate;
    destruct (parseInteger (get_prop (JObj props) "minDownloads"));
    rewrite ?assoc_set_prop_ne by discriminate;
    (destruct (is_nullish (get_prop (JObj props) "isPaid")); cbn [negb];
     [ skip_steps; reflexivity | now rewrite assoc_set_prop_eq ]).
Qed.


End FilterFacts.

(* ================================================================== *)
(** ** Facts about [buildPdfFiltersAndOptions]                         *)
(* ================================================================== *)

Lemma get_prop_normalize_list field params name :
  get_prop (JObj (normalize_list field params)) name
  = if String.eqb name field
    then normalized (get_prop (JObj params) field)
    else get_prop (JObj params) name.
Proof.
  unfold normalize_list, normalized.
  destruct (String.eqb_spec name field) as [->|Hne].
  - destruct (get_prop (JObj params) field) eqn:E; try exact E.
    destruct (negb _); [|exact E].
    cbn [get_prop]. now rewrite assoc_set_prop_eq.
  - destruct (get_prop (JObj params) field); try reflexivity.
    destruct (negb _); [|reflexivity].
    now apply get_prop_set_prop.
Qed.

Lemma filters_of_bind (c : completion filter_obj)
    (k : filter_obj -> list_options * request_meta) :
  filters_of
    (filters <- c ;;
     Normal {| filters := filters;
               options := fst (k filters);
               meta := snd (k filters) |})
  = c.
Proof. now destruct c. Qed.

Lemma jsval_null_dec (v : jsval) : {v = JNull} + {v <> JNull}.
Proof. destruct v; (now left) || (right; discriminate). Qed.

Section WrapperFacts.

Variable Date_parse : string -> option Z.
Variable clock : nat -> Z.

Lemma wrapper_filters_search entries :
  filters_of
    (buildPdfFiltersAndOptions Date_parse clock (SearchParams entries))
  = buildMongoFilters Date_parse clock
      (filter_argument (params_of_search_params entries)).
Proof. unfold buildPdfFiltersAndOptions. cbn [bind]. now destruct (buildMongoFilters _ _ _). Qed.

Lemma wrapper_filters_object v :
  v <> JNull ->
  filters_of (buildPdfFiltersAndOptions Date_parse clock (PlainQuery v))
  = buildMongoFilters Date_parse clock
      (filter_argument (params_of_object (with_default (JObj []) v))).
Proof.
  intros Hv. unfold buildPdfFiltersAndOptions.
  replace (is_nullish (with_default (JObj []) v)) with false
    by (destruct v; try reflexivity; contradiction).
  cbn [bind]. now destruct (buildMongoFilters _ _ _).
Qed.

(** The wrapper raises on a null query only. *)
Lemma wrapper_returns query :
  query <> PlainQuery JNull ->
  exists r, buildPdfFiltersAndOptions Date_parse clock query = Normal r.
Proof.
  intros Hq. unfold buildPdfFiltersAndOptions.
  destruct query as [entries|v]; cbn [bind].
  - unfold buildMongoFilters. cbn [is_nullish bind]. eauto.
  - replace (is_nullish (with_default (JObj []) v)) with false
      by (destruct v; try reflexivity; congruence).
    cbn [bind]. unfold buildMongoFilters. cbn [is_nullish bind]. eauto.
Qed.


End WrapperFacts.

Lemma params_of_object_get o name :
  In name filter_params ->
  get_prop (JObj (params_of_object o)) name
  = if String.eqb name "isPaid"
    then if negb (is_undefined (get_prop o "isPaid"))
         then boolean_param (get_prop o "isPaid") else JUndefined
    else get_prop o name.
Proof.
  intros Hin. cbn in Hin.
  repeat (destruct Hin as [<-|Hin]; [reflexivity|]). destruct Hin.
Qed.

Lemma params_of_search_params_get entries name :
  In name filter_params ->
  get_prop (JObj (params_of_search_params entries)) name
  = if String.eqb name "isPaid"
    then if usp_has entries "isPaid"
         then boolean_param (usp_get entries "isPaid") else JUndefined
    else js_or (usp_get entries name) JUndefined.
Proof.
  intros Hin. cbn in Hin.
  repeat (destruct Hin as [<-|Hin]; [reflexivity|]). destruct Hin.
Qed.


Section WrapperExt.

Variable Date_parse : string -> option Z.
Variable clock : nat -> Z.



End WrapperExt.

(* ================================================================== *)
(** ** Properties of the filter builder                               *)
(* ================================================================== *)


(** *** The keywords fallback *)










(** *** Parameters that carry nothing *)

Lemma blank_not_truthy v : is_blank v = true -> truthy v = false.
Proof. destruct v as [| | | |s| |]; try (reflexivity || discriminate); now destruct s. Qed.

Lemma blank_membership field v filters :
  is_blank v = true -> membership_filter field v filters = filters.
Proof.
  destruct v as [| | | |s| |]; try (reflexivity || discriminate).
  destruct s; [reflexivity | discriminate].
Qed.

Lemma blank_parseInteger v : is_blank v = true -> parseInteger v = None.
Proof. unfold parseInteger. now intros ->. Qed.

Lemma blank_parseDate Date_parse now v :
  is_blank v = true -> parseDate Date_parse now v = None.
Proof. intros H. unfold parseDate. now rewrite (blank_not_truthy v H). Qed.

Lemma blank_keywords v filters :
  is_blank v = true -> keywords_filter v filters = filters.
Proof.
  destruct v as [| | | |s| |]; try (reflexivity || discriminate).
  destruct s; [reflexivity | discriminate].
Qed.

Lemma get_prop_default opts name :
  get_prop (with_default (JObj []) opts) name = get_prop opts name.
Proof. now destruct opts. Qed.

(** C4.  When every parameter is absent, undefined, null or the empty
    string (for isPaid: absent, undefined or null; the empty string is a
    value there), [buildMongoFilters], given the absent argument or an
    object, returns the empty filter, and [buildListOptions] returns page 1,
    limit 12, skip 0 and the score ordering. *)
Theorem empty_parameters_give_defaults
    (Date_parse : string -> option Z) (clock : nat -> Z) (opts : jsval) :
  (forall name, In name (filter_params ++ list_params)%list ->
     no_value opts name) ->
  is_nullish (get_prop opts "isPaid") = true ->
  (opts <> JNull -> buildMongoFilters Date_parse clock opts = Normal [])
  /\ buildListOptions opts
     = {| skip := 0;
          limit := 12;
          sort := SortSpec [("score", -1); ("downloads", -1);
                            ("createdAt", -1)];
          page := 1 |}.
Proof.
  intros Hall Hpaid.
  assert (H : forall name, In name (filter_params ++ list_params)%list ->
            is_blank (get_prop (with_default (JObj []) opts) name) = true).
  { intros name Hin. rewrite get_prop_default. now apply Hall. }
  split.
  - intros Hn. unfold buildMongoFilters.
    change (match opts with JUndefined => JObj [] | _ => opts end)
      with (with_default (JObj []) opts).
    replace (is_nullish (with_default (JObj []) opts)) with false
      by (destruct opts; try reflexivity; contradiction).
    cbv zeta. rewrite (get_prop_default opts "isPaid"), Hpaid. cbn [negb].
    rewrite (blank_keywords _ _ (H "keywords" ltac:(in_list))).
    rewrite (blank_not_truthy _ (H "level" ltac:(in_list))).
    rewrite !blank_parseDate by (apply H; in_list).
    rewrite (blank_parseInteger _ (H "minDownloads" ltac:(in_list))).
    rewrite !blank_membership by (apply H; in_list).
    rewrite (blank_not_truthy _ (H "category" ltac:(in_list))).
    rewrite (blank_not_truthy _ (H "language" ltac:(in_list))).
    reflexivity.
  - unfold buildListOptions.
    assert (Ho : forall name, In name (filter_params ++ list_params)%list ->
              is_blank
                (get_prop
                   (if truthy (with_default (JObj []) opts)
                    then with_default (JObj []) opts else JObj []) name)
              = true).
    { intros name Hin. destruct (truthy _); [now apply H | reflexivity]. }
    cbv zeta.
    pose proof (Ho "page" ltac:(in_list)) as Hp.
    pose proof (Ho "limit" ltac:(in_list)) as Hl.
    pose proof (Ho "sort" ltac:(in_list)) as Hs.
    destruct (get_prop _ "page") as [| | | |[|? ?]| |]; try discriminate Hp;
      destruct (get_prop _ "limit") as [| | | |[|? ?]| |]; try discriminate Hl;
      destruct (get_prop _ "sort") as [| | | |[|? ?]| |]; try discriminate Hs;
      reflexivity.
Qed.

(** *** The paid flag *)

Lemma boolean_param_input entries :
  (if usp_has entries "isPaid"
   then boolean_param (usp_get entries "isPaid") else JUndefined)
  = boolean_param (usp_get entries "isPaid").
Proof. unfold usp_has, usp_get. now destruct (assoc "isPaid" entries). Qed.

Lemma boolean_param_undefined v :
  (if negb (is_undefined v) then boolean_param v else JUndefined)
  = boolean_param v.
Proof. now destruct v. Qed.

Lemma filter_argument_isPaid params :
  get_prop
    (JObj (normalize_list "locations" (normalize_list "tags" params)))
    "isPaid"
  = get_prop (JObj params) "isPaid".
Proof. now rewrite !get_prop_normalize_list. Qed.

(** C10.  Called directly, [buildMongoFilters] stores the truthiness of an
    isPaid value that is neither undefined nor null, so every non-empty
    string, including false, 0 and no, gives isPaid: true.  Through
    [buildPdfFiltersAndOptions] the value goes through [parseBoolean] first:
    the filter has the parsed boolean, false for the strings false, 0 and
    no, and no isPaid key at all when the spelling is not recognized. *)
Theorem isPaid_direct_and_wrapped
    (Date_parse : string -> option Z) (clock : nat -> Z) :
  (forall props f,
     is_nullish (get_prop (JObj props) "isPaid") = false ->
     buildMongoFilters Date_parse clock (JObj props) = Normal f ->
     assoc "isPaid" f
     = Some (MVal (JBool (truthy (get_prop (JObj props) "isPaid")))))
  /\ (forall props s f,
        get_prop (JObj props) "isPaid" = JStr s -> s <> EmptyString ->
        buildMongoFilters Date_parse clock (JObj props) = Normal f ->
        assoc "isPaid" f = Some (MVal (JBool true)))
  /\ (forall query r,
        buildPdfFiltersAndOptions Date_parse clock query = Normal r ->
        assoc "isPaid" (filters r)
        = match parseBoolean (isPaid_input query) with
          | Some b => Some (MVal (JBool b))
          | None => None
          end)
  /\ parseBoolean (JStr "false") = Some false
  /\ parseBoolean (JStr "0") = Some false
  /\ parseBoolean (JStr "no") = Some false.
Proof.
  repeat split.
  - intros props f Hv Hf.
    rewrite (buildMongoFilters_isPaid _ _ _ _ Hf). cbv zeta. now rewrite Hv.
  - intros props s f Hv Hs Hf.
    rewrite (buildMongoFilters_isPaid _ _ _ _ Hf). cbv zeta. rewrite Hv.
    destruct s; [contradiction | reflexivity].
  - intros query r Hr.
    assert (E : filters_of
                  (buildPdfFiltersAndOptions Date_parse clock query)
                = Normal (filters r)) by now rewrite Hr.
    assert (Hb : forall v,
              (let w := boolean_param v in
               if is_nullish w then None
               else Some (MVal (JBool (truthy w))))
              = match parseBoolean v with
                | Some b => Some (MVal (JBool b))
                | None => None
                end).
    { intros v. unfold boolean_param.
      now destruct (parseBoolean v) as [[]|]. }
    destruct query as [entries|v].
    + rewrite wrapper_filters_search in E. unfold filter_argument in E.
      rewrite (buildMongoFilters_isPaid _ _ _ _ E), filter_argument_isPaid.
      rewrite (params_of_search_params_get entries "isPaid") by in_list.
      change (String.eqb "isPaid" "isPaid") with true. cbv iota.
      rewrite boolean_param_input. apply Hb.
    + destruct (jsval_null_dec v) as [->|Hv]; [discriminate Hr|].
      rewrite wrapper_filters_object in E by exact Hv.
      unfold filter_argument in E.
      rewrite (buildMongoFilters_isPaid _ _ _ _ E), filter_argument_isPaid.
      rewrite (params_of_object_get _ "isPaid") by in_list.
      change (String.eqb "isPaid" "isPaid") with true. cbv iota.
      rewrite boolean_param_undefined, get_prop_default. apply Hb.
Qed.

(* ================================================================== *)
(** ** Properties of the list options                                 *)
(* ================================================================== *)

Lemma to_string_safe (n : Z) :
  safe_integer n -> Double.to_string n = Str.of_Z n.
Proof.
  unfold safe_integer, Double.to_string. intros H.
  destruct (Z.ltb_spec (Z.abs n) (2 ^ 53)); [reflexivity | lia].
Qed.

Lemma parseInteger_number (n : Z) :
  safe_integer n -> parseInteger (JNum n) = Some n.
Proof.
  intros H. unfold parseInteger. cbn [is_blank ToString].
  rewrite (to_string_safe n H). apply StrFacts.parseInt10_of_Z.
Qed.

Lemma of_Z_not_empty (n : Z) : Str.of_Z n <> EmptyString.
Proof.
  intros E. pose proof (StrFacts.parseInt10_of_Z n) as H.
  rewrite E in H. discriminate H.
Qed.

Lemma parseInteger_numeral (n : Z) : parseInteger (JStr (Str.of_Z n)) = Some n.
Proof.
  unfold parseInteger. cbn [is_blank ToString].
  destruct (Str.of_Z n) eqn:E; [now apply of_Z_not_empty in E|].
  cbn [Str.is_empty]. rewrite <- E. apply StrFacts.parseInt10_of_Z.
Qed.

Lemma parseInteger_non_numeric (v : jsval) :
  non_numeric v <-> parseInteger v = None.
Proof.
  unfold non_numeric, parseInteger. destruct (is_blank v).
  - tauto.
  - rewrite StrFacts.parseInt10_NaN. split; [intros [H|H] | right]; congruence.
Qed.

Lemma get_prop_or_empty opts name :
  name <> "sort" ->
  get_prop
    (if truthy (with_default (JObj []) opts)
     then with_default (JObj []) opts else JObj []) name
  = get_prop opts name.
Proof.
  intros Hn. destruct opts as [| |[]|n|[|c s]|l|p]; try reflexivity.
  - cbn [with_default truthy]. now destruct (negb (n =? 0)).
Qed.

Lemma parse_with_default (d : Z) (v : jsval) :
  safe_integer d ->
  or_fallback d (parseInteger (with_default (JNum d) v))
  = or_fallback d (parseInteger v).
Proof.
  intros Hd. destruct v; try reflexivity. cbn [with_default].
  now rewrite parseInteger_number.
Qed.

(** The options in terms of what [parseInteger] makes of the page and of
    the limit. *)
Lemma buildListOptions_resolved (opts : jsval) :
  limit (buildListOptions opts)
  = clamp_limit (parseInteger (get_prop opts "limit"))
  /\ page (buildListOptions opts)
     = clamp_page (parseInteger (get_prop opts "page"))
  /\ skip (buildListOptions opts)
     = (page (buildListOptions opts) - 1) * limit (buildListOptions opts).
Proof.
  unfold buildListOptions. cbv zeta. cbn [limit page skip].
  rewrite !parse_with_default by (vm_compute; reflexivity).
  rewrite !get_prop_or_empty by discriminate.
  repeat split.
Qed.

Lemma buildListOptions_bounds (opts : jsval) :
  1 <= limit (buildListOptions opts) <= 200
  /\ 1 <= page (buildListOptions opts).
Proof.
  destruct (buildListOptions_resolved opts) as (-> & -> & _).
  unfold clamp_limit, clamp_page, or_fallback, DEFAULT_LIMIT, DEFAULT_PAGE,
    MAX_LIMIT.
  destruct (parseInteger (get_prop opts "limit")) as [l|];
    destruct (parseInteger (get_prop opts "page")) as [p|];
    repeat match goal with
      | |- context [?a <=? ?b] => destruct (Z.leb_spec a b)
      | |- context [?a >? ?b] => destruct (Z.gtb_spec a b)
      end;
    lia.
Qed.

(** What [parseInt] reads after a minus sign is not positive. *)
Lemma digits_acc_nonneg (s : string) (acc : option Z) (a : Z) :
  (forall x, acc = Some x -> 0 <= x) ->
  Str.digits_acc acc s = Some a -> 0 <= a.
Proof.
  revert acc. induction s as [|c s IH]; intros acc Hacc; cbn [Str.digits_acc].
  - intros ->. now apply Hacc.
  - destruct (Str.is_digit c) eqn:Hc; [|intros ->; now apply Hacc].
    apply IH. intros x Hx.
    assert (Hd : 0 <= Str.digit_value c)
      by (revert Hc; destruct c as [[] [] [] [] [] [] [] []];
          intros Hc; try discriminate Hc; now vm_compute).
    destruct acc as [y|].
    + specialize (Hacc y eq_refl).
      assert (x = 10 * y + Str.digit_value c) by congruence. lia.
    + assert (x = 10 * 0 + Str.digit_value c) by congruence. lia.
Qed.

(** A number that is not positive is read as one that is not positive, or
    as no number: beyond 2^53 its print starts with the minus sign. *)
Lemma parseInteger_not_positive (n : Z) :
  n <= 0 ->
  match parseInteger (JNum n) with
  | Some m => m <= 0
  | None => True
  end.
Proof.
  intros Hn. destruct (Z.ltb_spec (Z.abs n) (2 ^ 53)) as [Hs|Hs].
  - now rewrite (parseInteger_number n Hs).
  - unfold parseInteger. cbn [is_blank ToString]. unfold Double.to_string.
    destruct (Z.ltb_spec (Z.abs n) (2 ^ 53)); [lia|].
    destruct (Z.ltb_spec n 0); [|lia].
    cbv zeta. cbn [append]. unfold Str.parseInt10.
    change (Str.trim_start (String "-" ?b)) with (String "-" b).
    cbv iota.
    match goal with
    | |- context [Str.digits_acc None ?b] =>
        destruct (Str.digits_acc None b) as [a|] eqn:E
    end; cbn [option_map]; [|exact I].
    apply digits_acc_nonneg in E; [lia | discriminate].
Qed.

(** C3, as the code has it.  The resolved limit lies in 1..200 and the
    resolved page is at least 1.  The limits 0, -5 and abc, and every limit
    that parses to nothing or to a number that is not positive, resolve to
    12.  Every limit that parses to a number above 200 resolves to 200:
    every decimal numeral above 200, and every number above 200 and below
    2^53.  A page that parses to nothing or to a number that is not
    positive resolves to 1: every number and every decimal numeral that is
    not positive.  A page that parses to a number from 1 on resolves to
    it.  The skip is never negative, and it is (page - 1) * limit on the
    resolved values.  Where a number is named, it lies below 2^53, the
    range in which the numbers of the code are exact; the page and the
    limit are values [String] converts, as the code raises on the others. *)
Theorem buildListOptions_clamps (opts : jsval) :
  let r := buildListOptions opts in
  let lv := get_prop opts "limit" in
  let pv := get_prop opts "page" in
  converts lv -> converts pv ->
  1 <= limit r <= 200
  /\ 1 <= page r
  /\ 0 <= skip r
  /\ (safe_integer ((page r - 1) * limit r) ->
      skip r = (page r - 1) * limit r)
  /\ (In lv [JNum 0; JNum (-5); JStr "abc"] -> limit r = 12)
  /\ (non_numeric lv -> limit r = 12)
  /\ (forall n, parseInteger lv = Some n -> n <= 0 -> limit r = 12)
  /\ (forall n, parseInteger lv = Some n -> 200 < n -> limit r = 200)
  /\ (forall n, parseInteger lv = Some n -> 1 <= n <= 200 -> limit r = n)
  /\ (forall n, 200 < n ->
        lv = JStr (Str.of_Z n) \/ (lv = JNum n /\ safe_integer n) ->
        limit r = 200)
  /\ (non_numeric pv -> page r = 1)
  /\ (forall n, parseInteger pv = Some n -> n <= 0 -> page r = 1)
  /\ (forall n, parseInteger pv = Some n -> 1 <= n -> safe_integer n ->
        page r = n)
  /\ (forall n, n <= 0 -> pv = JNum n \/ pv = JStr (Str.of_Z n) ->
        page r = 1).
Proof.
  intros r lv pv _ _. subst r lv pv.
  destruct (buildListOptions_bounds opts) as (Bl & Bp).
  destruct (buildListOptions_resolved opts) as (Hl & Hp & Hs).
  split; [exact Bl|]. split; [exact Bp|]. split; [rewrite Hs; nia|].
  split; [intros _; exact Hs|].
  rewrite Hl, Hp. clear Bl Bp Hl Hp Hs.
  assert (Hnone : forall v, non_numeric v -> parseInteger v = None)
    by (intros v; apply parseInteger_non_numeric).
  assert (Hlimit : forall parsed n, parsed = Some n ->
            (n <= 0 -> clamp_limit parsed = 12)
            /\ (200 < n -> clamp_limit parsed = 200)
            /\ (1 <= n <= 200 -> clamp_limit parsed = n)).
  { intros parsed n ->.
    unfold clamp_limit, or_fallback, DEFAULT_LIMIT, MAX_LIMIT. cbv zeta.
    repeat split; intros Hn;
      repeat match goal with
        | |- context [?a <=? ?b] => destruct (Z.leb_spec a b)
        | |- context [?a >? ?b] => destruct (Z.gtb_spec a b)
        end; lia. }
  assert (Hpage : forall parsed n, parsed = Some n ->
            (n <= 0 -> clamp_page parsed = 1)
            /\ (1 <= n -> clamp_page parsed = n)).
  { intros parsed n ->.
    unfold clamp_page, or_fallback, DEFAULT_PAGE. cbv zeta.
    split; intros Hn; destruct (Z.leb_spec n 0); lia. }
  split; [intros [<-|[<-|[<-|[]]]]; reflexivity|].
  split; [intros H; now rewrite (Hnone _ H)|].
  split; [intros n H Hn; now apply (Hlimit _ n H)|].
  split; [intros n H Hn; now apply (Hlimit _ n H)|].
  split; [intros n H Hn; now apply (Hlimit _ n H)|].
  split.
  { intros n Hn [-> | [-> Hsafe]].
    - now apply (Hlimit _ n (parseInteger_numeral n)).
    - now apply (Hlimit _ n (parseInteger_number n Hsafe)). }
  split; [intros H; now rewrite (Hnone _ H)|].
  split; [intros n H Hn; now apply (Hpage _ n H)|].
  split; [intros n H Hn _; now apply (Hpage _ n H)|].
  intros n Hn [-> | ->].
  - pose proof (parseInteger_not_positive n Hn) as H.
    destruct (parseInteger (JNum n)) as [m|] eqn:E.
    + now apply (Hpage _ m eq_refl).
    + reflexivity.
  - now apply (Hpage _ n (parseInteger_numeral n)).
Qed.

(** C3, as the specification words it, fails for a number that [String]
    prints in exponent notation: 1e21 is above 200, and as a limit it is
    printed as 1e+21, of which [parseInt] reads the 1. *)
Lemma limit_1e21_resolves_to_1 :
  200 < 10 ^ 21
  /\ ToString (JNum (10 ^ 21)) = "1e+21"
  /\ limit (buildListOptions (JObj [("limit", JNum (10 ^ 21))])) = 1.
Proof. split; [reflexivity|]. split; vm_compute; reflexivity. Qed.

(** *** Sort names *)

(** The ordering [buildListOptions] resolves for a sort name that is a key
    of [SORT_MAP], and for one that neither [SORT_MAP] nor
    [Object.prototype] knows. *)
Lemma buildListOptions_sort (props : list (string * jsval)) (name : string) :
  get_prop (JObj props) "sort" = JStr name ->
  sort (buildListOptions (JObj props))
  = match SORT_MAP_get name with
    | Some v => v
    | None => SORT_MAP_score
    end.
Proof.
  intros H. unfold buildListOptions. cbv zeta. cbn [sort].
  change (truthy (with_default (JObj []) (JObj props))) with true. cbv iota.
  cbn [with_default]. rewrite H. cbn [with_default].
  destruct (SORT_MAP_get name) eqn:E.
  - now rewrite E.
  - reflexivity.
Qed.

Lemma sort_downloads_list (props : list (string * jsval)) :
  get_prop (JObj props) "sort" = JStr "downloads" ->
  sort (buildListOptions (JObj props))
  = SortSpec [("downloads", -1); ("createdAt", -1)].
Proof. intros H. now rewrite (buildListOptions_sort props "downloads" H). Qed.

Lemma sort_unknown_list (props : list (string * jsval)) (name : string) :
  get_prop (JObj props) "sort" = JStr name ->
  assoc name SORT_MAP = None ->
  ~ In name Object_prototype_members ->
  sort (buildListOptions (JObj props))
  = sort (buildListOptions (JObj [("sort", JStr "score")])).
Proof.
  intros H Hown Hproto. rewrite (buildListOptions_sort props name H).
  unfold SORT_MAP_get. rewrite Hown.
  destruct (existsb (String.eqb name) Object_prototype_members) eqn:E;
    [|reflexivity].
  apply existsb_exists in E as [m [Hm Heq]].
  apply String.eqb_eq in Heq. subst m. contradiction.
Qed.

(** C9.  The sort name constructor is not a key of [SORT_MAP], yet
    [SORT_MAP[sort]] finds the member of that name on [Object.prototype]:
    [buildListOptions] returns that function as the ordering, not the
    ordering of score. *)
Theorem sort_name_found_on_prototype :
  sort (buildListOptions (JObj [("sort", JStr "constructor")]))
  = Inherited "constructor"
  /\ sort (buildListOptions (JObj [("sort", JStr "score")]))
     = SortSpec [("score", -1); ("downloads", -1); ("createdAt", -1)]
  /\ sort (buildListOptions (JObj [("sort", JStr "bogus")]))
     = SortSpec [("score", -1); ("downloads", -1); ("createdAt", -1)]
  /\ assoc "constructor" SORT_MAP = None.
Proof. repeat split. Qed.

(* ================================================================== *)
(** ** Properties of the search pipeline                              *)
(* ================================================================== *)

Section PipelineFacts.
Import Atlas.

(** The stages in front of the sort stage and of the fan-out never
    change. *)
Lemma pipeline_shape (a : args) :
  exists c spec,
    buildPdfSearchPipeline a
    = [ Search "pdf_search_index" c
          ["title_en"; "title_hi"; "title_bn"; "keywords.en"; "tags"];
        AddFields [("score", "searchScore");
                   ("highlights", "searchHighlights")];
        Project ["title_en"; "title_hi"; "title_bn"; "category"; "tags";
                 "language"; "seoSlug"; "downloads"; "createdAt"; "r2Key";
                 "price"; "isPaid"; "score"; "highlights"];
        Sort spec;
        Facet [ ("results",
                 [Skip ((or_fallback 1 (page a) - 1)
                        * or_fallback 10 (limit a));
                  Limit (or_fallback 10 (limit a))]);
                ("totalCount", [Count "count"]) ] ]
    /\ should c
       = (if truthy (q a) then Some [Text (q a) text_paths 2 2] else None)
    /\ must c
       = non_empty
           ((if truthy (language a)
             then [Equals "language" (language a)] else [])
            ++ (if truthy (category a)
                then [Equals "category" (category a)] else [])
            ++ (if has_length (locations a)
                then [In "locations" (locations a)] else []))%list
    /\ spec
       = (if is_string_eq (with_default (JStr "score") (sort a)) "downloads"
          then [("downloads", -1); ("createdAt", -1)]
          else if is_string_eq (with_default (JStr "score") (sort a))
                    "latest"
          then [("createdAt", -1)]
          else [("score", -1); ("downloads", -1); ("createdAt", -1)]).
Proof.
  unfold buildPdfSearchPipeline. cbv zeta.
  destruct (is_string_eq _ "downloads"); [|destruct (is_string_eq _ "latest")];
    (eexists; eexists; split; [reflexivity|]);
    cbn [should must]; (split; [|split; [|reflexivity]]);
    try (now destruct (truthy (q a)));
    destruct (truthy (language a)), (truthy (category a)),
      (has_length (locations a)); reflexivity.
Qed.

End PipelineFacts.

(** The filter clauses a call supplies. *)
Lemma must_clauses (a : Atlas.args) (c : Atlas.compound) :
  Atlas.must c
  = Atlas.non_empty
      ((if truthy (Atlas.language a)
        then [Atlas.Equals "language" (Atlas.language a)] else [])
       ++ (if truthy (Atlas.category a)
           then [Atlas.Equals "category" (Atlas.category a)] else [])
       ++ (if Atlas.has_length (Atlas.locations a)
           then [Atlas.In "locations" (Atlas.locations a)] else []))%list ->
  forall cl,
    In cl (Engine.clauses (Atlas.must c))
    <-> (truthy (Atlas.language a) = true
         /\ cl = Atlas.Equals "language" (Atlas.language a))
        \/ (truthy (Atlas.category a) = true
            /\ cl = Atlas.Equals "category" (Atlas.category a))
        \/ (Atlas.has_length (Atlas.locations a) = true
            /\ cl = Atlas.In "locations" (Atlas.locations a)).
Proof.
  intros -> cl.
  destruct (truthy (Atlas.language a)), (truthy (Atlas.category a)),
    (Atlas.has_length (Atlas.locations a)); cbn; intuition congruence.
Qed.

(** C5, as the code has it.  The text clause is in the pipeline exactly
    when q is truthy (a non-empty string), and is the only [should] clause;
    the [must] clauses are exactly an equality on language, an equality on
    category and a membership on locations, each present exactly when its
    parameter is supplied (truthy, of non-zero length for locations).  A
    selected document satisfies every filter clause; the text clause is
    required of it only when no filter clause is present, and otherwise
    takes no part in the selection. *)
Theorem search_clauses (a : Atlas.args) :
  exists c,
    search_compound (Atlas.buildPdfSearchPipeline a) = Some c
    /\ Atlas.should c
       = (if truthy (Atlas.q a)
          then Some [Atlas.Text (Atlas.q a) Atlas.text_paths 2 2]
          else None)
    /\ (forall cl,
          In cl (Engine.clauses (Atlas.must c))
          <-> (truthy (Atlas.language a) = true
               /\ cl = Atlas.Equals "language" (Atlas.language a))
              \/ (truthy (Atlas.category a) = true
                  /\ cl = Atlas.Equals "category" (Atlas.category a))
              \/ (Atlas.has_length (Atlas.locations a) = true
                  /\ cl = Atlas.In "locations" (Atlas.locations a)))
    /\ (forall (doc : Type) (holds : Atlas.clause -> doc -> bool) (d : doc),
          Engine.selects doc holds c d = true ->
          forall cl, In cl (Engine.clauses (Atlas.must c)) ->
                     holds cl d = true)
    /\ (forall (doc : Type) (holds : Atlas.clause -> doc -> bool) (d : doc),
          Engine.clauses (Atlas.must c) <> [] ->
          Engine.selects doc holds c d
          = List.forallb (fun cl => holds cl d)
              (Engine.clauses (Atlas.must c)))
    /\ (forall (doc : Type) (holds : Atlas.clause -> doc -> bool) (d : doc),
          Engine.clauses (Atlas.must c) = [] ->
          truthy (Atlas.q a) = true ->
          Engine.selects doc holds c d
          = holds (Atlas.Text (Atlas.q a) Atlas.text_paths 2 2) d).
Proof.
  destruct (pipeline_shape a) as (c & spec & Hp & Hs & Hm & _).
  exists c. rewrite Hp. cbn [search_compound].
  split; [reflexivity|]. split; [exact Hs|].
  split; [now apply must_clauses|].
  repeat split.
  - intros doc holds d Hsel cl Hin. unfold Engine.selects in Hsel.
    apply andb_true_iff in Hsel as [Hall _].
    rewrite forallb_forall in Hall. now apply Hall.
  - intros doc holds d Hne. unfold Engine.selects.
    destruct (Engine.clauses (Atlas.must c)); [contradiction|].
    apply andb_true_r.
  - intros doc holds d He Hq. unfold Engine.selects.
    rewrite He, Hs, Hq. cbn. now rewrite orb_false_r.
Qed.

(** C5, as the specification words it, fails: with q and language supplied
    the compound query selects a document in the requested language that
    the text clause does not match, so the two clauses are not combined by
    a conjunction. *)
Lemma language_filter_selects_without_text_match :
  let a :=
    {| Atlas.q := JStr "algebra"; Atlas.language := JStr "en";
       Atlas.category := JUndefined; Atlas.locations := JArr [];
       Atlas.sort := JStr "score"; Atlas.page := Some 1;
       Atlas.limit := Some 10 |} in
  let holds (cl : Atlas.clause) (d : string * string) : bool :=
    match cl with
    | Atlas.Text (JStr term) _ _ _ => Str.includes (snd d) term
    | Atlas.Equals _ (JStr v) => String.eqb v (fst d)
    | _ => false
    end in
  let d := ("en", "History of Rome") in
  exists c,
    search_compound (Atlas.buildPdfSearchPipeline a) = Some c
    /\ Atlas.should c
       = Some [Atlas.Text (JStr "algebra") Atlas.text_paths 2 2]
    /\ Atlas.must c = Some [Atlas.Equals "language" (JStr "en")]
    /\ holds (Atlas.Text (JStr "algebra") Atlas.text_paths 2 2) d = false
    /\ holds (Atlas.Equals "language" (JStr "en")) d = true
    /\ Engine.selects (string * string) holds c d = true.
Proof. eexists. repeat split. Qed.

(** *** Sort stage *)

Lemma sort_downloads_pipeline (a : Atlas.args) :
  Atlas.sort a = JStr "downloads" ->
  In (Atlas.Sort [("downloads", -1); ("createdAt", -1)])
    (Atlas.buildPdfSearchPipeline a).
Proof.
  intros H. destruct (pipeline_shape a) as (c & spec & Hp & _ & _ & Hspec).
  rewrite H in Hspec. cbn in Hspec. subst spec. rewrite Hp. cbn. tauto.
Qed.

Lemma sort_unknown_pipeline (a : Atlas.args) (name : string) :
  Atlas.sort a = JStr name -> name <> "downloads" -> name <> "latest" ->
  In (Atlas.Sort [("score", -1); ("downloads", -1); ("createdAt", -1)])
    (Atlas.buildPdfSearchPipeline a).
Proof.
  intros H Hd Hl.
  destruct (pipeline_shape a) as (c & spec & Hp & _ & _ & Hspec).
  rewrite H in Hspec. cbn [with_default Atlas.is_string_eq] in Hspec.
  destruct (String.eqb_spec name "downloads"); [contradiction|].
  destruct (String.eqb_spec name "latest"); [contradiction|].
  subst spec. rewrite Hp. cbn. tauto.
Qed.

(** *** The fan-out *)

Lemma ceil_div_bounds (a b : Z) :
  0 < b ->
  (Route.ceil_div a b - 1) * b < a <= Route.ceil_div a b * b.
Proof.
  intros Hb. unfold Route.ceil_div.
  pose proof (Z.div_mod (- a) b ltac:(lia)) as Hd.
  pose proof (Z.mod_pos_bound (- a) b Hb) as Hm. nia.
Qed.

Section FacetFacts.

Variable doc : Type.

Lemma run_facet (skip limit : Z) (input : list (Engine.row doc)) :
  0 <= skip -> 0 < limit ->
  Engine.run doc
    [Atlas.Facet [ ("results", [Atlas.Skip skip; Atlas.Limit limit]);
                   ("totalCount", [Atlas.Count "count"]) ]]
    input
  = Some [Engine.Faceted
            [ ("results",
               List.firstn (Z.to_nat limit)
                 (List.skipn (Z.to_nat skip) input));
              ("totalCount",
               match input with
               | [] => []
               | _ => [Engine.Counted "count"
                         (Z.of_nat (List.length input))]
               end) ]].
Proof.
  intros Hs Hl. cbn [Engine.run Engine.run_stage option_map].
  destruct (Z.ltb_spec skip 0); [lia|].
  destruct (Z.leb_spec limit 0); [lia|]. reflexivity.
Qed.

Lemma aggregate_pipeline (a : Atlas.args) (ranked : list doc) :
  let page := or_fallback 1 (Atlas.page a) in
  let limit := or_fallback 10 (Atlas.limit a) in
  1 <= page -> 1 <= limit ->
  Engine.aggregate doc ranked (Atlas.buildPdfSearchPipeline a)
  = Some [Engine.Faceted
            [ ("results",
               List.map Engine.Doc
                 (List.firstn (Z.to_nat limit)
                    (List.skipn (Z.to_nat ((page - 1) * limit)) ranked)));
              ("totalCount",
               match ranked with
               | [] => []
               | _ => [Engine.Counted "count"
                         (Z.of_nat (List.length ranked))]
               end) ]].
Proof.
  intros page limit Hp Hl. subst page limit.
  destruct (pipeline_shape a) as (c & spec & -> & _).
  unfold Engine.aggregate. cbn [Engine.after_sort].
  rewrite run_facet by nia.
  rewrite List.skipn_map, List.firstn_map, List.length_map.
  now destruct ranked.
Qed.

End FacetFacts.

Section GetFacts.

Variable doc : Type.
Variable Date_parse : string -> option Z.
Variable clock : nat -> Z.

Lemma wrapper_options_search (entries : list (string * string)) :
  exists r,
    buildPdfFiltersAndOptions Date_parse clock (SearchParams entries)
    = Normal r
    /\ options r = buildListOptions (list_argument entries).
Proof.
  unfold buildPdfFiltersAndOptions. cbn [bind].
  destruct (buildMongoFilters_returns Date_parse clock
              (JObj (normalize_list "locations"
                       (normalize_list "tags"
                          (params_of_search_params entries)))))
    as [f Hf]; [discriminate|].
  rewrite Hf. cbn [bind]. eexists. split; [reflexivity|].
  cbn [options]. rewrite !get_prop_normalize_list. reflexivity.
Qed.

(** The envelope of a search request, in terms of the resolved page and
    limit. *)
Lemma GET_search_envelope (entries : list (string * string))
    (ranked : list doc) :
  let o := buildListOptions (list_argument entries) in
  search_term entries <> EmptyString ->
  exists e,
    Route.GET doc Date_parse clock entries ranked = Route.Json e
    /\ Route.results e
       = List.map Engine.Doc
           (List.firstn (Z.to_nat (limit o))
              (List.skipn (Z.to_nat ((page o - 1) * limit o)) ranked))
    /\ Route.total e = Z.of_nat (List.length ranked)
    /\ Route.env_page e = page o
    /\ Route.env_limit e = limit o
    /\ Route.totalPages e = Route.ceil_div (Route.total e) (limit o).
Proof.
  intros o Hq. unfold Route.GET.
  destruct (wrapper_options_search entries) as (r & -> & Ho).
  rewrite Ho. fold o. fold (search_term entries).
  replace (truthy (JStr (search_term entries))) with true
    by (destruct (search_term entries); [contradiction | reflexivity]).
  cbv iota.
  destruct (buildListOptions_bounds (list_argument entries))
    as (Hl & Hp). fold o in Hl, Hp.
  rewrite aggregate_pipeline by (cbn [Atlas.page Atlas.limit or_fallback]; lia).
  cbn [Atlas.page Atlas.limit or_fallback].
  eexists. split; [reflexivity|].
  unfold Route.search_body.
  cbn [assoc String.eqb Ascii.eqb Bool.eqb Route.results Route.total
         Route.env_page Route.env_limit Route.totalPages].
  repeat split.
  - now destruct ranked.
  - destruct (Z.gtb_spec (limit o) 0); [|lia]. now destruct ranked.
Qed.

End GetFacts.

(** C8.  Every pipeline ends in its only [$facet] stage, whose results
    branch skips (page - 1) * limit documents and keeps at most limit of
    them and whose other branch counts all of them.  Run on the ranked
    matches, it yields that slice and the total; the handler reports the
    slice, the total and ceil(total / limit) pages.  For page 2 and limit
    10 on 25 matches: the items 11 to 20, total 25 and 3 pages. *)
Theorem facet_pagination :
  (forall a : Atlas.args,
     exists front,
       Atlas.buildPdfSearchPipeline a
       = (front
          ++ [Atlas.Facet
                [ ("results",
                   [Atlas.Skip ((or_fallback 1 (Atlas.page a) - 1)
                                * or_fallback 10 (Atlas.limit a));
                    Atlas.Limit (or_fallback 10 (Atlas.limit a))]);
                  ("totalCount", [Atlas.Count "count"]) ]])%list
       /\ List.existsb is_facet front = false)
  /\ (forall (doc : Type) (a : Atlas.args) (ranked : list doc),
        let page := or_fallback 1 (Atlas.page a) in
        let limit := or_fallback 10 (Atlas.limit a) in
        let slice :=
          List.firstn (Z.to_nat limit)
            (List.skipn (Z.to_nat ((page - 1) * limit)) ranked) in
        1 <= page -> 1 <= limit ->
        Engine.aggregate doc ranked (Atlas.buildPdfSearchPipeline a)
        = Some [Engine.Faceted
                  [ ("results", List.map Engine.Doc slice);
                    ("totalCount",
                     match ranked with
                     | [] => []
                     | _ => [Engine.Counted "count"
                               (Z.of_nat (List.length ranked))]
                     end) ]]
        /\ Z.of_nat (List.length slice) <= limit)
  /\ (forall (doc : Type) (Date_parse : string -> option Z)
             (clock : nat -> Z) (entries : list (string * string))
             (ranked : list doc),
        search_term entries <> EmptyString ->
        usp_get entries "page" = JStr "2" ->
        usp_get entries "limit" = JStr "10" ->
        List.length ranked = 25%nat ->
        exists e,
          Route.GET doc Date_parse clock entries ranked = Route.Json e
          /\ Route.results e
             = List.map Engine.Doc (List.firstn 10 (List.skipn 10 ranked))
          /\ List.length (Route.results e) = 10%nat
          /\ Route.total e = 25
          /\ Route.totalPages e = 3
          /\ Route.totalPages e = Route.ceil_div (Route.total e) 10).
Proof.
  split; [|split].
  - intros a. destruct (pipeline_shape a) as (c & spec & -> & _).
    eexists [_; _; _; _]. split; reflexivity.
  - intros doc a ranked page limit slice Hp Hl. split.
    + apply aggregate_pipeline; assumption.
    + subst slice. rewrite List.length_firstn. lia.
  - intros doc Date_parse clock entries ranked Hq Hpage Hlimit Hlen.
    destruct (GET_search_envelope doc Date_parse clock entries ranked Hq)
      as (e & He & Hr & Ht & _ & _ & Htp).
    assert (Ho : buildListOptions (list_argument entries)
                 = {| skip := 10; limit := 10;
                      sort := sort (buildListOptions (list_argument entries));
                      page := 2 |}).
    { unfold buildListOptions, list_argument. cbv zeta.
      change (truthy (with_default (JObj []) (JObj ?p))) with true. cbv iota.
      cbn [with_default get_prop assoc String.eqb Ascii.eqb Bool.eqb].
      rewrite Hpage, Hlimit. reflexivity. }
    rewrite Ho in Hr, Htp. cbn [limit page] in Hr, Htp.
    exists e. rewrite Hr, Htp, Ht, Hlen.
    repeat split; try assumption.
    rewrite List.length_map, List.length_firstn, List.length_skipn, Hlen.
    reflexivity.
Qed.

(* ================================================================== *)
(** ** Properties of [parseDate]                                      *)
(* ================================================================== *)

Module DateFacts.
Import Str.

Lemma append_empty (s : string) : s ++ EmptyString = s.
Proof. induction s; cbn; congruence. Qed.

Lemma append_assoc (a b c : string) : (a ++ b) ++ c = a ++ (b ++ c).
Proof. induction a; cbn; congruence. Qed.

Lemma digit_not_space (c : ascii) : is_digit c = true -> is_space c = false.
Proof. destruct c as [[] [] [] [] [] [] [] []]; (reflexivity || discriminate). Qed.

Lemma trim_end_no_space (s : string) :
  forallb (fun c => negb (is_space c)) s = true -> trim_end s = s.
Proof.
  induction s as [|c s IH]; cbn [forallb trim_end]; [reflexivity|].
  intros [Hc Hs]%andb_true_iff. rewrite (IH Hs).
  apply negb_true_iff in Hc. now rewrite Hc.
Qed.

Lemma digits_no_space (s : string) :
  forallb is_digit s = true ->
  forallb (fun c => negb (is_space c)) s = true.
Proof.
  induction s as [|c s IH]; cbn [forallb]; [reflexivity|].
  intros [Hc Hs]%andb_true_iff.
  now rewrite (digit_not_space c Hc), (IH Hs).
Qed.

Lemma trim_digits (s : string) : forallb is_digit s = true -> trim s = s.
Proof.
  intros H. unfold trim.
  assert (E : trim_start s = s).
  { destruct s as [|c s]; [reflexivity|]. cbn [forallb] in H.
    apply andb_true_iff in H as [Hc _]. cbn [trim_start].
    now rewrite (digit_not_space c Hc). }
  rewrite E. now apply trim_end_no_space, digits_no_space.
Qed.

Lemma span_digits_app (ds : string) (c : ascii) (r : string) :
  forallb is_digit ds = true -> is_digit c = false ->
  Num.span_digits (ds ++ String c r) = (ds, String c r).
Proof.
  intros Hds Hc. induction ds as [|d ds IH]; cbn [append Num.span_digits].
  - now rewrite Hc.
  - cbn [forallb] in Hds. apply andb_true_iff in Hds as [Hd Hds].
    now rewrite Hd, (IH Hds).
Qed.

Lemma span_digits_all (ds : string) :
  forallb is_digit ds = true -> Num.span_digits ds = (ds, EmptyString).
Proof.
  induction ds as [|d ds IH]; cbn [forallb Num.span_digits]; [reflexivity|].
  intros [Hd Hds]%andb_true_iff. now rewrite Hd, (IH Hds).
Qed.

Lemma digits_acc_val (s : string) (a : Z) :
  forallb is_digit s = true ->
  digits_acc (Some a) s = Some (Num.digits_val a s).
Proof.
  revert a. induction s as [|c s IH]; intros a; cbn [forallb digits_acc Num.digits_val].
  - reflexivity.
  - intros [Hc Hs]%andb_true_iff. rewrite Hc. now apply IH.
Qed.

Lemma of_Z_digits (n : Z) : 0 <= n -> forallb is_digit (of_Z n) = true.
Proof.
  intros Hn. unfold of_Z. destruct n as [|p|p]; [reflexivity| |lia].
  apply StrFacts.string_of_uint_digits.
Qed.

(** The digits [String] prints for a natural number denote it. *)
Lemma digits_val_of_Z (n : Z) : 0 <= n -> Num.digits_val 0 (of_Z n) = n.
Proof.
  intros Hn. pose proof (of_Z_digits n Hn) as Hd.
  apply (digits_acc_val _ 0) in Hd.
  unfold of_Z in *. destruct n as [|p|p]; [reflexivity| |lia].
  cbn [Z.to_int NilEmpty.string_of_int] in *.
  rewrite StrFacts.digits_acc_uint_zero, DecimalPos.Unsigned.of_to in Hd.
  now injection Hd.
Qed.

Lemma unit_not_digit (u : ascii) : is_unit u = true -> is_digit u = false.
Proof. destruct u as [[] [] [] [] [] [] [] []]; (reflexivity || discriminate). Qed.

Lemma unit_not_space (u : ascii) : is_unit u = true -> is_space u = false.
Proof. destruct u as [[] [] [] [] [] [] [] []]; (reflexivity || discriminate). Qed.

(** The strings [last<digits><unit>] match the relative pattern. *)
Lemma match_relative_form (ds : string) (u : ascii) :
  ds <> EmptyString -> forallb is_digit ds = true -> is_unit u = true ->
  match_relative ("last" ++ ds ++ String u EmptyString) = Some (ds, u).
Proof.
  intros Hne Hds Hu. cbn [append match_relative].
  change (String.eqb (toLowerCase "last") "last") with true. cbv iota.
  rewrite (span_digits_app ds u EmptyString Hds (unit_not_digit u Hu)).
  destruct ds as [|d ds]; [contradiction|].
  unfold is_unit in Hu. now rewrite Hu.
Qed.

Lemma trim_relative_form (ds : string) (u : ascii) :
  is_unit u = true ->
  trim ("last" ++ ds ++ String u EmptyString)
  = "last" ++ ds ++ String u EmptyString.
Proof.
  intros Hu. unfold trim. cbn [append trim_start].
  change (is_space "l") with false. cbv iota.
  change (String "l" (String "a" (String "s" (String "t"
            (ds ++ String u EmptyString)))))
    with ("last" ++ ds ++ String u EmptyString).
  rewrite <- append_assoc.
  apply StrFacts.trim_end_last, unit_not_space, Hu.
Qed.

End DateFacts.

Module NumFacts.
Import Str.

Lemma digit_cases (c : ascii) :
  is_digit c = true ->
  In c ["0"; "1"; "2"; "3"; "4"; "5"; "6"; "7"; "8"; "9"]%char.
Proof.
  destruct c as [[] [] [] [] [] [] [] []]; try discriminate; intros _;
    cbn; tauto.
Qed.

Lemma parse_unsigned_digits (s : string) :
  s <> EmptyString -> forallb is_digit s = true ->
  Num.parse_unsigned s = Finite (Num.digits_val 0 s) 0.
Proof.
  intros Hne Hd. unfold Num.parse_unsigned.
  assert (E : String.eqb s "Infinity" = false).
  { destruct s as [|c s]; [contradiction|]. cbn [forallb] in Hd.
    apply andb_true_iff in Hd as [Hc _]. apply digit_cases in Hc.
    cbn in Hc. repeat (destruct Hc as [<-|Hc]; [reflexivity|]). destruct Hc. }
  rewrite E. unfold Num.parse_decimal.
  rewrite (DateFacts.span_digits_all s Hd).
  destruct s as [|c s]; [contradiction|].
  cbn [is_empty andb Num.parse_exponent String.length Z.of_nat].
  now rewrite DateFacts.append_empty.
Qed.

(** [Number] of a run of decimal digits is the integer it denotes. *)
Lemma of_string_digits (s : string) :
  s <> EmptyString -> forallb is_digit s = true ->
  Num.of_string s = Finite (Num.digits_val 0 s) 0.
Proof.
  intros Hne Hd. unfold Num.of_string.
  rewrite (DateFacts.trim_digits s Hd).
  rewrite <- (parse_unsigned_digits s Hne Hd).
  destruct s as [|c s]; [contradiction|].
  cbn [forallb] in Hd. apply andb_true_iff in Hd as [Hc Hs].
  apply digit_cases in Hc. cbn in Hc.
  destruct Hc as [<-|Hc].
  - destruct s as [|p s]; [reflexivity|].
    cbn [forallb] in Hs. apply andb_true_iff in Hs as [Hp _].
    apply digit_cases in Hp. cbn in Hp.
    repeat (destruct Hp as [<-|Hp]; [reflexivity|]). destruct Hp.
  - repeat (destruct Hc as [<-|Hc]; [reflexivity|]). destruct Hc.
Qed.

Lemma match_relative_digits (s : string) :
  forallb is_digit s = true -> match_relative s = None.
Proof.
  intros Hd. destruct s as [|c [|c2 [|c3 [|c4 r]]]]; try reflexivity.
  cbn [forallb] in Hd. apply andb_true_iff in Hd as [Hc _].
  apply digit_cases in Hc. cbn in Hc. unfold match_relative.
  repeat (destruct Hc as [<-|Hc]; [reflexivity|]). destruct Hc.
Qed.

(** Rounding to the nearest integer errs by a half at most. *)
Lemma round_half_even_near (n d : Z) :
  0 <= n -> 0 < d ->
  let r := Double.round_half_even n d in
  (2 * r - 1) * d <= 2 * n <= (2 * r + 1) * d.
Proof.
  intros Hn Hd. unfold Double.round_half_even. cbv zeta.
  pose proof (Z.div_mod n d ltac:(lia)) as E.
  pose proof (Z.mod_pos_bound n d Hd) as B.
  destruct ((d <? 2 * (n mod d))
            || ((d =? 2 * (n mod d)) && Z.odd (n / d))) eqn:T.
  - assert (d <= 2 * (n mod d)).
    { apply orb_true_iff in T as [T|T].
      - apply Z.ltb_lt in T. lia.
      - apply andb_true_iff in T as [T _]. apply Z.eqb_eq in T. lia. }
    nia.
  - apply orb_false_iff in T as [T _]. apply Z.ltb_ge in T. nia.
Qed.

(** The whole part of the double nearest to a fraction is less than 1 away
    from the fraction. *)
Lemma trunc_double_near (a d : Z) :
  0 < a -> 0 < d -> a < 2 ^ 53 * d ->
  let t := Double.trunc_double a d in
  0 <= t /\ (t - 1) * d < a < (t + 1) * d.
Proof.
  intros Ha Hd Hlt. unfold Double.trunc_double. cbv zeta.
  set (j0 := Z.log2 a - Z.log2 d).
  set (j := if (if 0 <=? j0 then d * 2 ^ j0 <=? a else d <=? a * 2 ^ (- j0))
            then j0 else j0 - 1).
  assert (Hj : j <= 52).
  { assert (Hj0 : j0 <= 53).
    { pose proof (Z.log2_nonneg d) as Hld.
      destruct (Z.log2_spec d Hd) as [_ Hdu].
      assert (a < 2 ^ (54 + Z.log2 d)).
      { replace (54 + Z.log2 d) with (53 + Z.succ (Z.log2 d)) by lia.
        rewrite Z.pow_add_r by lia. nia. }
      assert (Z.log2 a < 54 + Z.log2 d)
        by (apply Z.log2_lt_pow2; [exact Ha | assumption]).
      subst j0. lia. }
    subst j. destruct (Z.eq_dec j0 53) as [E|E].
    - rewrite E. cbn [Z.leb Z.compare].
      destruct (Z.leb_spec (d * 2 ^ 53) a); lia.
    - destruct (if 0 <=? j0 then _ else _); lia. }
  set (s := 52 - j). assert (Hs : 0 <= s) by (subst s; lia).
  set (P := 2 ^ s). assert (HP : 1 <= P)
    by (subst P; pose proof (Z.pow_pos_nonneg 2 s ltac:(lia) Hs); lia).
  pose proof (round_half_even_near (a * P) d ltac:(nia) Hd) as HR.
  cbv zeta in HR. set (R := Double.round_half_even (a * P) d) in *.
  assert (HR0 : 0 <= R).
  { destruct (Z.le_gt_cases 0 R) as [?|Hneg]; [assumption|]. nia. }
  rewrite Z.shiftr_div_pow2 by exact Hs. fold P.
  pose proof (Z.div_mod R P ltac:(lia)) as E.
  pose proof (Z.mod_pos_bound R P ltac:(lia)) as B.
  set (t := R / P) in *.
  assert (Ht : 0 <= t) by (subst t; apply Z.div_pos; lia).
  split; [exact Ht|]. split.
  - apply (Z.mul_lt_mono_pos_r P); [lia|].
    assert ((t - 1) * P <= R - 1) by nia.
    assert ((R - 1) * d < a * P) by nia.
    nia.
  - apply (Z.mul_lt_mono_pos_r P); [lia|].
    assert (R + 1 <= (t + 1) * P) by nia.
    assert (a * P < (R + 1) * d) by nia.
    nia.
Qed.

Lemma of_num_integer (m : Z) :
  Z.abs m <= DateObj.MAX_TIME ->
  DateObj.of_num (Finite m 0) = DateAt m.
Proof.
  intros Hm. unfold DateObj.of_num.
  destruct (Z.eqb_spec m 0) as [->|Hne]; [reflexivity|].
  cbn [Z.leb Z.compare Z.ltb]. unfold DateObj.of_ms.
  rewrite Z.pow_0_r, Z.mul_1_r.
  destruct (Z.leb_spec (Z.abs m) DateObj.MAX_TIME); [reflexivity | lia].
Qed.

(** A Date made from a numeral lies in the range, is the integer the
    numeral denotes when it denotes one, and is less than 1 ms away from
    the fraction it denotes otherwise. *)
Lemma of_num_near (m e t : Z) :
  DateObj.of_num (Finite m e) = DateAt t ->
  Z.abs t <= DateObj.MAX_TIME
  /\ (0 <= e -> t = m * 10 ^ e)
  /\ (e < 0 -> Z.abs (t * 10 ^ (- e) - m) < 10 ^ (- e)).
Proof.
  assert (Hms : forall x, DateObj.of_ms x = DateAt t ->
            x = t /\ Z.abs t <= DateObj.MAX_TIME).
  { intros x. unfold DateObj.of_ms.
    destruct (Z.leb_spec (Z.abs x) DateObj.MAX_TIME); [|discriminate].
    intros [= <-]. now split. }
  unfold DateObj.of_num.
  destruct (Z.eqb_spec m 0) as [->|Hm].
  - intros [= <-]. split; [unfold DateObj.MAX_TIME; lia|].
    split; [intros _; lia|]. intros He.
    pose proof (Z.pow_pos_nonneg 10 (- e) ltac:(lia) ltac:(lia)).
    rewrite Z.mul_0_l. cbn. lia.
  - destruct (Z.leb_spec 0 e) as [He|He].
    + destruct (16 <? e); [discriminate|]. intros Hx.
      apply Hms in Hx as [<- Ht]. split; [exact Ht|]. split; [reflexivity|lia].
    + destruct (Z.ltb_spec (Z.log2 (Z.abs m) + 1) (- e)) as [Htiny|Hbig].
      * intros [= <-]. split; [unfold DateObj.MAX_TIME; lia|].
        split; [lia|]. intros _.
        destruct (Z.log2_spec (Z.abs m) ltac:(lia)) as [_ Hu].
        assert (2 ^ Z.succ (Z.log2 (Z.abs m)) <= 2 ^ (- e))
          by (apply Z.pow_le_mono_r; lia).
        assert (2 ^ (- e) <= 10 ^ (- e))
          by (apply Z.pow_le_mono_l; lia).
        rewrite Z.mul_0_l. lia.
      * cbv zeta.
        pose proof (Z.pow_pos_nonneg 10 (- e) ltac:(lia) ltac:(lia)) as Hd.
        destruct (Z.leb_spec (2 ^ 53 * 10 ^ (- e)) (Z.abs m)); [discriminate|].
        intros Hx. apply Hms in Hx as [<- Ht]. split; [exact Ht|].
        split; [lia|]. intros _.
        pose proof (trunc_double_near (Z.abs m) (10 ^ (- e))
                      ltac:(lia) Hd ltac:(lia)) as Hn.
        cbv zeta in Hn.
        set (q := Double.trunc_double (Z.abs m) (10 ^ (- e))) in *.
        destruct Hn as (Hq & Hlo & Hhi).
        destruct (Z.lt_total m 0) as [Hneg|[E|Hpos]]; [|contradiction|].
        -- rewrite (Z.sgn_neg m Hneg).
           rewrite (Z.abs_neq m) in Hlo, Hhi by lia. lia.
        -- rewrite (Z.sgn_pos m Hpos).
           rewrite (Z.abs_eq m) in Hlo, Hhi by lia. lia.
Qed.

(** A numeral within the range of a Date gives a Date. *)
Lemma of_num_in_range (m e : Z) :
  magnitude_le m e DateObj.MAX_TIME ->
  exists t, DateObj.of_num (Finite m e) = DateAt t.
Proof.
  unfold magnitude_le, DateObj.of_num.
  destruct (Z.eqb_spec m 0) as [->|Hm]; [intros _; now exists 0|].
  destruct (Z.leb_spec 0 e) as [He|He]; intros Hle.
  - assert (H1 : 1 <= 10 ^ e)
      by (pose proof (Z.pow_pos_nonneg 10 e ltac:(lia) He); lia).
    destruct (Z.ltb_spec 16 e) as [Hbig|_].
    + assert (10 ^ 17 <= 10 ^ e) by (apply Z.pow_le_mono_r; lia).
      exfalso. unfold DateObj.MAX_TIME in Hle.
      assert (10 ^ 17 <= Z.abs m * 10 ^ e) by nia.
      change (10 ^ 17) with 100000000000000000 in *. lia.
    + exists (m * 10 ^ e). unfold DateObj.of_ms.
      rewrite Z.abs_mul, (Z.abs_eq (10 ^ e)) by lia.
      destruct (Z.leb_spec (Z.abs m * 10 ^ e) DateObj.MAX_TIME);
        [reflexivity | lia].
  - destruct (Z.ltb_spec (Z.log2 (Z.abs m) + 1) (- e)); [now exists 0|].
    cbv zeta.
    pose proof (Z.pow_pos_nonneg 10 (- e) ltac:(lia) ltac:(lia)) as Hd.
    assert (Hlt : Z.abs m < 2 ^ 53 * 10 ^ (- e)).
    { unfold DateObj.MAX_TIME in Hle.
      change (2 ^ 53) with 9007199254740992. nia. }
    destruct (Z.leb_spec (2 ^ 53 * 10 ^ (- e)) (Z.abs m)); [lia|].
    pose proof (trunc_double_near (Z.abs m) (10 ^ (- e))
                  ltac:(lia) Hd Hlt) as Hn.
    cbv zeta in Hn.
    set (q := Double.trunc_double (Z.abs m) (10 ^ (- e))) in *.
    destruct Hn as (Hq & Hlo & _).
    assert (Hqle : q <= DateObj.MAX_TIME) by nia.
    exists (Z.sgn m * q). unfold DateObj.of_ms.
    destruct (Z.leb_spec (Z.abs (Z.sgn m * q)) DateObj.MAX_TIME) as [_|Hgt];
      [reflexivity|].
    exfalso. destruct (Z.lt_total m 0) as [Hneg|[E|Hpos]]; [|contradiction|].
    + rewrite (Z.sgn_neg m Hneg) in Hgt. lia.
    + rewrite (Z.sgn_pos m Hpos) in Hgt. lia.
Qed.

(** A numeral one millisecond or more beyond the range gives no Date. *)
Lemma of_num_beyond (m e : Z) :
  magnitude_ge m e (DateObj.MAX_TIME + 1) ->
  DateObj.of_num (Finite m e) = InvalidDate.
Proof.
  unfold magnitude_ge, DateObj.of_num.
  destruct (Z.eqb_spec m 0) as [->|Hm].
  - destruct (Z.leb_spec 0 e) as [He|He]; intros Hge; exfalso;
      unfold DateObj.MAX_TIME in Hge.
    + cbn in Hge. lia.
    + pose proof (Z.pow_pos_nonneg 10 (- e) ltac:(lia) ltac:(lia)).
      cbn [Z.abs] in Hge. nia.
  - destruct (Z.leb_spec 0 e) as [He|He]; intros Hge.
    + destruct (16 <? e); [reflexivity|]. unfold DateObj.of_ms.
      assert (H1 : 0 < 10 ^ e) by (apply Z.pow_pos_nonneg; lia).
      destruct (Z.leb_spec (Z.abs (m * 10 ^ e)) DateObj.MAX_TIME) as [Hle|_];
        [|reflexivity].
      rewrite Z.abs_mul, (Z.abs_eq (10 ^ e)) in Hle by lia. lia.
    + pose proof (Z.pow_pos_nonneg 10 (- e) ltac:(lia) ltac:(lia)) as Hd.
      destruct (Z.ltb_spec (Z.log2 (Z.abs m) + 1) (- e)) as [Htiny|_].
      * exfalso.
        destruct (Z.log2_spec (Z.abs m) ltac:(lia)) as [_ Hu].
        assert (2 ^ Z.succ (Z.log2 (Z.abs m)) <= 2 ^ (- e))
          by (apply Z.pow_le_mono_r; lia).
        assert (2 ^ (- e) <= 10 ^ (- e))
          by (apply Z.pow_le_mono_l; lia).
        unfold DateObj.MAX_TIME in Hge. nia.
      * cbv zeta.
        destruct (Z.leb_spec (2 ^ 53 * 10 ^ (- e)) (Z.abs m)) as [_|Hlt];
          [reflexivity|].
        pose proof (trunc_double_near (Z.abs m) (10 ^ (- e))
                      ltac:(lia) Hd Hlt) as Hn.
        cbv zeta in Hn.
        set (q := Double.trunc_double (Z.abs m) (10 ^ (- e))) in *.
        destruct Hn as (Hq & _ & Hhi).
        assert (Hqgt : DateObj.MAX_TIME < q) by nia.
        unfold DateObj.of_ms.
        destruct (Z.leb_spec (Z.abs (Z.sgn m * q)) DateObj.MAX_TIME)
          as [Hle|_]; [|reflexivity].
        exfalso. destruct (Z.lt_total m 0) as [Hneg|[E|Hpos]]; [|contradiction|].
        -- rewrite (Z.sgn_neg m Hneg) in Hle. lia.
        -- rewrite (Z.sgn_pos m Hpos) in Hle. lia.
Qed.

End NumFacts.

Section ParseDateFacts.

Variable Date_parse : string -> option Z.
Variable now : Z.

Lemma parseDate_relative (ds : string) (u : ascii) :
  ds <> EmptyString -> Str.forallb Str.is_digit ds = true ->
  is_unit u = true ->
  parseDate Date_parse now (JStr ("last" ++ ds ++ String u EmptyString))
  = Some (DateObj.of_ms
            (now - Num.digits_val 0 ds * unit_ms (Str.lower u))).
Proof.
  intros Hne Hd Hu. unfold parseDate.
  change (truthy (JStr ("last" ++ ds ++ String u EmptyString))) with true.
  cbn [negb ToString]. rewrite (DateFacts.trim_relative_form ds u Hu).
  rewrite (DateFacts.match_relative_form ds u Hne Hd Hu).
  unfold is_unit in Hu. unfold unit_ms.
  destruct (Ascii.eqb (Str.lower u) "d");
    [do 2 f_equal; lia|].
  destruct (Ascii.eqb (Str.lower u) "h");
    [do 2 f_equal; lia|].
  destruct (Ascii.eqb (Str.lower u) "m");
    [do 2 f_equal; lia|].
  destruct (Ascii.eqb (Str.lower u) "y");
    [do 2 f_equal; lia | discriminate Hu].
Qed.

Lemma parseDate_not_relative (s : string) :
  s <> EmptyString ->
  match_relative (Str.trim s) = None ->
  parseDate Date_parse now (JStr s)
  = if negb (Num.isNaN (Num.of_string (Str.trim s)))
       && (10 <=? String.length (Str.trim s))%nat
    then checked (DateObj.of_num (Num.of_string (Str.trim s)))
    else match Date_parse (Str.trim s) with
         | Some t => checked (DateObj.of_ms t)
         | None => None
         end.
Proof.
  intros Hne Hrel. unfold parseDate.
  destruct s as [|c s]; [contradiction|].
  cbn [truthy Str.is_empty negb ToString]. rewrite Hrel. reflexivity.
Qed.

End ParseDateFacts.

Lemma digits_val_nonneg (s : string) (a : Z) :
  Str.forallb Str.is_digit s = true -> 0 <= a -> 0 <= Num.digits_val a s.
Proof.
  revert a. induction s as [|c s IH]; intros a; cbn [Str.forallb Num.digits_val].
  - auto.
  - intros [Hc Hs]%andb_true_iff Ha. apply IH; [exact Hs|].
    assert (0 <= Str.digit_value c); [|lia].
    apply NumFacts.digit_cases in Hc. cbn in Hc.
    repeat (destruct Hc as [<-|Hc]; [now vm_compute|]). destruct Hc.
Qed.

(** [parseDate("not-a-date")] is null as soon as [Date.parse] has no date
    for that string. *)
Lemma parseDate_not_a_date (Date_parse : string -> option Z) (now : Z) :
  Date_parse "not-a-date" = None ->
  parseDate Date_parse now (JStr "not-a-date") = None.
Proof.
  intros H. rewrite parseDate_not_relative by (discriminate || reflexivity).
  change (Str.trim "not-a-date") with "not-a-date".
  change (Num.of_string "not-a-date") with NaN. cbn [Num.isNaN negb andb].
  now rewrite H.
Qed.

(** C7, as the code has it.  A string last<N><unit> is mapped to the
    instant now - N units, with d = 86400000 ms, h = 3600000 ms,
    m = 30 * 86400000 ms and y = 365 * 86400000 ms, when that instant lies
    within the range of a Date (8.64e15 ms either side of the epoch).  A
    string of 10 digits or more is mapped to the millisecond timestamp it
    denotes when that lies within the range, and to null when it does not.
    Any other numeric string of length 10 or more is read by Number, which
    rounds to the nearest double, and the Date drops the fraction: the
    result is a Date whenever the number spelt lies within the range and
    null whenever it lies a millisecond or more beyond; a Date that results
    lies within the range, is the number spelt when that is an integer and
    is less than 1 ms away from it otherwise.  Every other string is handed
    to Date.parse, and gives null when Date.parse has no instant for it. *)
Theorem parseDate_forms (Date_parse : string -> option Z) (now : Z) :
  (forall (N : Z) (u : ascii),
     0 <= N -> In u ["d"; "h"; "m"; "y"]%char ->
     Z.abs (now - N * unit_ms u) <= DateObj.MAX_TIME ->
     parseDate Date_parse now
       (JStr ("last" ++ Str.of_Z N ++ String u EmptyString))
     = Some (DateAt (now - N * unit_ms u)))
  /\ (unit_ms "d" = 86400000 /\ unit_ms "h" = 3600000
      /\ unit_ms "m" = 30 * 86400000 /\ unit_ms "y" = 365 * 86400000)
  /\ (Z.abs (now - 7 * 86400000) <= DateObj.MAX_TIME ->
      parseDate Date_parse now (JStr "last7d")
      = Some (DateAt (now - 7 * 86400000)))
  /\ (forall s : string,
        s <> EmptyString -> Str.forallb Str.is_digit s = true ->
        (10 <= String.length s)%nat ->
        parseDate Date_parse now (JStr s)
        = if Num.digits_val 0 s <=? DateObj.MAX_TIME
          then Some (DateAt (Num.digits_val 0 s)) else None)
  /\ (forall s : string,
        s <> EmptyString -> match_relative (Str.trim s) = None ->
        Num.isNaN (Num.of_string (Str.trim s)) = false ->
        (10 <= String.length (Str.trim s))%nat ->
        parseDate Date_parse now (JStr s)
        = checked (DateObj.of_num (Num.of_string (Str.trim s))))
  /\ (forall (s : string) (m e t : Z),
        s <> EmptyString -> match_relative (Str.trim s) = None ->
        Num.of_string (Str.trim s) = Finite m e ->
        (10 <= String.length (Str.trim s))%nat ->
        parseDate Date_parse now (JStr s) = Some (DateAt t) ->
        Z.abs t <= DateObj.MAX_TIME
        /\ (0 <= e -> t = m * 10 ^ e)
        /\ (e < 0 -> Z.abs (t * 10 ^ (- e) - m) < 10 ^ (- e)))
  /\ (forall (s : string) (m e : Z),
        s <> EmptyString -> match_relative (Str.trim s) = None ->
        Num.of_string (Str.trim s) = Finite m e ->
        (10 <= String.length (Str.trim s))%nat ->
        (magnitude_le m e DateObj.MAX_TIME ->
         exists t, parseDate Date_parse now (JStr s) = Some (DateAt t))
        /\ (magnitude_ge m e (DateObj.MAX_TIME + 1) ->
            parseDate Date_parse now (JStr s) = None))
  /\ (forall s : string,
        s <> EmptyString -> match_relative (Str.trim s) = None ->
        Num.isNaN (Num.of_string (Str.trim s)) = true
        \/ (String.length (Str.trim s) < 10)%nat ->
        parseDate Date_parse now (JStr s)
        = match Date_parse (Str.trim s) with
          | Some t =>
              if Z.abs t <=? DateObj.MAX_TIME then Some (DateAt t) else None
          | None => None
          end).
Proof.
  assert (Hrel : forall (N : Z) (u : ascii),
            0 <= N -> In u ["d"; "h"; "m"; "y"]%char ->
            Z.abs (now - N * unit_ms u) <= DateObj.MAX_TIME ->
            parseDate Date_parse now
              (JStr ("last" ++ Str.of_Z N ++ String u EmptyString))
            = Some (DateAt (now - N * unit_ms u))).
  { intros N u HN Hu Hr.
    assert (Hunit : is_unit u = true /\ Str.lower u = u).
    { cbn in Hu. repeat (destruct Hu as [<-|Hu]; [now split|]). destruct Hu. }
    destruct Hunit as [Hunit Hlow].
    rewrite parseDate_relative
      by (apply of_Z_not_empty || apply DateFacts.of_Z_digits || exact Hunit;
          exact HN).
    rewrite DateFacts.digits_val_of_Z, Hlow by exact HN.
    unfold DateObj.of_ms.
    destruct (Z.leb_spec (Z.abs (now - N * unit_ms u)) DateObj.MAX_TIME);
      [reflexivity | lia]. }
  split; [exact Hrel|]. split; [repeat split|].
  split; [intros H; now apply (Hrel 7 "d"%char); [lia | cbn; tauto |]|].
  split; [|split; [|split; [|split]]].
  - intros s Hne Hd Hlen.
    rewrite parseDate_not_relative
      by (exact Hne || (rewrite DateFacts.trim_digits by exact Hd;
                        now apply NumFacts.match_relative_digits)).
    rewrite DateFacts.trim_digits by exact Hd.
    rewrite NumFacts.of_string_digits by assumption.
    cbn [Num.isNaN negb andb].
    destruct (Nat.leb_spec 10 (String.length s)) as [_|Hlt]; [|lia].
    pose proof (digits_val_nonneg s 0 Hd ltac:(lia)) as Hpos.
    destruct (Z.leb_spec (Num.digits_val 0 s) DateObj.MAX_TIME) as [Hle|Hgt].
    + rewrite NumFacts.of_num_integer by lia. reflexivity.
    + unfold DateObj.of_num, checked.
      destruct (Z.eqb_spec (Num.digits_val 0 s) 0) as [E|_];
        [unfold DateObj.MAX_TIME in Hgt; lia|].
      cbn [Z.leb Z.compare Z.ltb]. unfold DateObj.of_ms.
      rewrite Z.pow_0_r, Z.mul_1_r.
      destruct (Z.leb_spec (Z.abs (Num.digits_val 0 s)) DateObj.MAX_TIME);
        [lia | reflexivity].
  - intros s Hne Hrel' Hnum Hlen.
    rewrite parseDate_not_relative by assumption. rewrite Hnum.
    destruct (Nat.leb_spec 10 (String.length (Str.trim s))); [reflexivity | lia].
  - intros s m e t Hne Hrel' Hnum Hlen.
    rewrite parseDate_not_relative by assumption. rewrite Hnum.
    destruct (Nat.leb_spec 10 (String.length (Str.trim s))); [|lia].
    cbn [Num.isNaN negb andb]. unfold checked.
    destruct (DateObj.of_num (Finite m e)) as [t'|] eqn:E;
      cbn [DateObj.is_invalid]; [|discriminate].
    intros [= <-]. now apply NumFacts.of_num_near.
  - intros s m e Hne Hrel' Hnum Hlen.
    rewrite parseDate_not_relative by assumption. rewrite Hnum.
    destruct (Nat.leb_spec 10 (String.length (Str.trim s))); [|lia].
    cbn [Num.isNaN negb andb]. split.
    + intros Hin. destruct (NumFacts.of_num_in_range m e Hin) as [t ->].
      now exists t.
    + intros Hout. now rewrite (NumFacts.of_num_beyond m e Hout).
  - intros s Hne Hrel' Hor.
    rewrite parseDate_not_relative by assumption.
    assert (E : negb (Num.isNaN (Num.of_string (Str.trim s)))
                && (10 <=? String.length (Str.trim s))%nat = false).
    { destruct Hor as [-> | Hlt]; [reflexivity|].
      destruct (Nat.leb_spec 10 (String.length (Str.trim s))); [lia|].
      apply andb_false_r. }
    rewrite E. destruct (Date_parse (Str.trim s)) as [t|]; [|reflexivity].
    unfold checked, DateObj.of_ms.
    now destruct (Z.abs t <=? DateObj.MAX_TIME).
Qed.

(** C7, as the specification words it, fails outside the range of a Date:
    200000000 days before now is not an instant a Date can hold, and the
    relative branch returns the Invalid Date; the 20-digit numeral is not a
    timestamp a Date can hold, and the numeric branch returns null. *)
Lemma parseDate_outside_date_range :
  parseDate (fun _ => None) 1700000000000 (JStr "last200000000d")
  = Some InvalidDate
  /\ Some InvalidDate
     <> Some (DateAt (1700000000000 - 200000000 * 86400000))
  /\ parseDate (fun _ => None) 1700000000000 (JStr "99999999999999999999")
     = None.
Proof. repeat split. discriminate. Qed.

(* ================================================================== *)
(** ** Raised errors                                                  *)
(* ================================================================== *)

(** C6.  [buildMongoFilters(null)] raises: the parameter default replaces
    undefined only, and destructuring null is a TypeError, where
    [buildListOptions] guards with [opts || {}] and treats null as the
    empty object.  Besides, the relative branch of [parseDate] returns the
    Invalid Date unchecked where the other two branches return null. *)
Theorem buildMongoFilters_null_raises
    (Date_parse : string -> option Z) (clock : nat -> Z) :
  (exists e, buildMongoFilters Date_parse clock JNull = Throw e)
  /\ buildMongoFilters Date_parse clock JUndefined = Normal []
  /\ buildListOptions JNull = buildListOptions (JObj [])
  /\ parseDate Date_parse 1700000000000 (JStr "last200000000d")
     = Some InvalidDate.
Proof. repeat split. eexists. reflexivity. Qed.

(* ================================================================== *)
(** ** The properties at concrete inputs                              *)
(* ================================================================== *)




Lemma buildListOptions_clamps_witness :
  let r :=
    buildListOptions (JObj [("limit", JNum 500); ("page", JStr "-3")]) in
  limit r = 200 /\ page r = 1 /\ skip r = 0.
Proof.
  pose proof (buildListOptions_clamps
                (JObj [("limit", JNum 500); ("page", JStr "-3")])
                eq_refl eq_refl) as H.
  cbv zeta in H.
  destruct H
    as (_ & _ & _ & Hskip & _ & _ & _ & _ & _ & H200 & _ & _ & _ & Hpage).
  cbv zeta.
  assert (Hl : limit (buildListOptions
                        (JObj [("limit", JNum 500); ("page", JStr "-3")]))
               = 200).
  { apply (H200 500); [lia|]. right. split; [reflexivity|].
    unfold safe_integer. vm_compute. reflexivity. }
  assert (Hp : page (buildListOptions
                       (JObj [("limit", JNum 500); ("page", JStr "-3")]))
               = 1).
  { apply (Hpage (-3)); [lia|]. right. reflexivity. }
  split; [exact Hl|]. split; [exact Hp|].
  rewrite Hskip; rewrite Hl, Hp; [reflexivity|].
  unfold safe_integer. vm_compute. reflexivity.
Defined.

Lemma empty_parameters_give_defaults_witness :
  buildMongoFilters no_Date_parse still_clock
    (JObj [("language", JStr ""); ("tags", JNull); ("utm_source", JStr "x")])
  = Normal []
  /\ buildListOptions
       (JObj [("language", JStr ""); ("tags", JNull);
              ("utm_source", JStr "x")])
     = {| skip := 0; limit := 12;
          sort := SortSpec [("score", -1); ("downloads", -1);
                            ("createdAt", -1)];
          page := 1 |}.
Proof.
  assert (Hall : forall name,
            In name (filter_params ++ list_params)%list ->
            no_value
              (JObj [("language", JStr ""); ("tags", JNull);
                     ("utm_source", JStr "x")]) name).
  { intros name Hin. cbn in Hin.
    repeat (destruct Hin as [<-|Hin]; [reflexivity|]). destruct Hin. }
  destruct (empty_parameters_give_defaults no_Date_parse still_clock
              (JObj [("language", JStr ""); ("tags", JNull);
                     ("utm_source", JStr "x")]) Hall eq_refl)
    as [Hf Ho].
  split; [apply Hf; discriminate | exact Ho].
Defined.

Lemma isPaid_direct_and_wrapped_witness :
  (exists f,
     buildMongoFilters no_Date_parse still_clock
       (JObj [("isPaid", JStr "false")]) = Normal f
     /\ assoc "isPaid" f = Some (MVal (JBool true)))
  /\ (exists r,
        buildPdfFiltersAndOptions no_Date_parse still_clock
          (SearchParams [("isPaid", "false")]) = Normal r
        /\ assoc "isPaid" (filters r) = Some (MVal (JBool false)))
  /\ (exists r,
        buildPdfFiltersAndOptions no_Date_parse still_clock
          (SearchParams [("isPaid", "maybe")]) = Normal r
        /\ assoc "isPaid" (filters r) = None).
Proof.
  destruct (isPaid_direct_and_wrapped no_Date_parse still_clock)
    as (_ & Hdirect & Hwrap & _).
  split; [|split].
  - eexists. split; [reflexivity|].
    apply (Hdirect [("isPaid", JStr "false")] "false");
      [reflexivity | discriminate | reflexivity].
  - eexists. split; [reflexivity|].
    apply (Hwrap (SearchParams [("isPaid", "false")])). reflexivity.
  - eexists. split; [reflexivity|].
    apply (Hwrap (SearchParams [("isPaid", "maybe")])). reflexivity.
Defined.

Lemma search_clauses_witness :
  let a :=
    {| Atlas.q := JStr "algebra"; Atlas.language := JStr "en";
       Atlas.category := JUndefined; Atlas.locations := JArr [];
       Atlas.sort := JStr "score"; Atlas.page := Some 1;
       Atlas.limit := Some 10 |} in
  let holds (cl : Atlas.clause) (d : string * string) : bool :=
    match cl with
    | Atlas.Text (JStr term) _ _ _ => Str.includes (snd d) term
    | Atlas.Equals _ (JStr v) => String.eqb v (fst d)
    | _ => false
    end in
  exists c,
    search_compound (Atlas.buildPdfSearchPipeline a) = Some c
    /\ In (Atlas.Equals "language" (JStr "en")) (Engine.clauses (Atlas.must c))
    /\ forall d,
         Engine.selects (string * string) holds c d
         = List.forallb (fun cl => holds cl d) (Engine.clauses (Atlas.must c)).
Proof.
  intros a holds.
  destruct (search_clauses a) as (c & Hc & _ & Hmust & _ & Hall & _).
  assert (Hin : In (Atlas.Equals "language" (JStr "en"))
                  (Engine.clauses (Atlas.must c))).
  { apply Hmust. left. split; reflexivity. }
  exists c. split; [exact Hc|]. split; [exact Hin|].
  intros d. apply Hall. intros E. rewrite E in Hin. exact Hin.
Defined.

Lemma parseDate_forms_witness :
  parseDate no_Date_parse 1700000000000 (JStr "last7d")
  = Some (DateAt (1700000000000 - 7 * 86400000))
  /\ parseDate no_Date_parse 1700000000000 (JStr "last2y")
     = Some (DateAt (1700000000000 - 2 * (365 * 86400000)))
  /\ parseDate no_Date_parse 1700000000000 (JStr "1700000000000")
     = Some (DateAt 1700000000000)
  /\ parseDate no_Date_parse 1700000000000 (JStr "8640000000000000.5")
     = Some (DateAt 8640000000000000)
  /\ parseDate no_Date_parse 1700000000000 (JStr "8640000000000000.6")
     = None
  /\ parseDate no_Date_parse 1700000000000 (JStr "not-a-date") = None.
Proof.
  destruct (parseDate_forms no_Date_parse 1700000000000)
    as (Hrel & _ & H7 & Hnum & Hgen & _ & _ & Hiso).
  split; [|split; [|split; [|split; [|split]]]].
  - apply H7. vm_compute. discriminate.
  - apply (Hrel 2 "y"%char).
    + lia.
    + cbn. tauto.
    + vm_compute. discriminate.
  - apply (Hnum "1700000000000").
    + discriminate.
    + reflexivity.
    + vm_compute. lia.
  - rewrite (Hgen "8640000000000000.5");
      [reflexivity | discriminate | reflexivity | reflexivity |].
    vm_compute. lia.
  - rewrite (Hgen "8640000000000000.6");
      [reflexivity | discriminate | reflexivity | reflexivity |].
    vm_compute. lia.
  - apply (Hiso "not-a-date").
    + discriminate.
    + reflexivity.
    + left. reflexivity.
Defined.

Lemma facet_pagination_witness :
  (exists e,
     Route.GET nat no_Date_parse still_clock
       [("q", "algebra"); ("page", "2"); ("limit", "10")] (List.seq 1 25)
     = Route.Json e
     /\ Route.results e
        = List.map Engine.Doc (List.seq 11 10)
     /\ Route.total e = 25
     /\ Route.totalPages e = 3)
  /\ Engine.aggregate nat (List.seq 1 25)
       (Atlas.buildPdfSearchPipeline
          {| Atlas.q := JStr "algebra"; Atlas.language := JUndefined;
             Atlas.category := JUndefined; Atlas.locations := JArr [];
             Atlas.sort := JStr "score"; Atlas.page := Some 3;
             Atlas.limit := Some 10 |})
     = Some [Engine.Faceted
               [ ("results", List.map Engine.Doc (List.seq 21 5));
                 ("totalCount", [Engine.Counted "count" 25]) ]].
Proof.
  destruct facet_pagination as (_ & Hrun & Hget).
  split.
  - destruct (Hget nat no_Date_parse still_clock
                [("q", "algebra"); ("page", "2"); ("limit", "10")]
                (List.seq 1 25) ltac:(vm_compute; discriminate)
              eq_refl eq_refl eq_refl)
      as (e & He & Hr & _ & Ht & Hp & _).
    exists e. split; [exact He|]. split; [exact Hr|]. split; assumption.
  - apply (Hrun nat
             {| Atlas.q := JStr "algebra"; Atlas.language := JUndefined;
                Atlas.category := JUndefined; Atlas.locations := JArr [];
                Atlas.sort := JStr "score"; Atlas.page := Some 3;
                Atlas.limit := Some 10 |} (List.seq 1 25));
      cbn; lia.
Defined.

(* ================================================================== *)
(** ** Further facts about strings                                    *)
(* ================================================================== *)

Module TrimFacts.
Import Str.

Lemma trim_end_idem (s : string) : trim_end (trim_end s) = trim_end s.
Proof.
  induction s as [|c s IH]; cbn [trim_end]; [reflexivity|].
  destruct (is_space c && is_empty (trim_end s)) eqn:E; [reflexivity|].
  cbn [trim_end]. now rewrite IH, E.
Qed.

Lemma trim_start_head (s : string) :
  match trim_start s with
  | String c _ => is_space c = false
  | EmptyString => True
  end.
Proof.
  induction s as [|c s IH]; cbn [trim_start]; [exact I|].
  destruct (is_space c) eqn:E; [exact IH | exact E].
Qed.

Lemma trim_start_fixed (s : string) :
  match s with String c _ => is_space c = false | EmptyString => True end ->
  trim_start s = s.
Proof. destruct s as [|c s]; [reflexivity|]. cbn. now intros ->. Qed.

(** Trimming leaves a trimmed string as it is. *)
Lemma trim_idem (s : string) : trim (trim s) = trim s.
Proof.
  unfold trim. pose proof (trim_start_head s) as H.
  destruct (trim_start s) as [|c r]; [reflexivity|].
  cbn [trim_end]. rewrite H. cbn [andb].
  cbn [trim_start]. rewrite H. cbn [trim_end]. rewrite H. cbn [andb].
  now rewrite trim_end_idem.
Qed.

Lemma forallb_trim_start (p : ascii -> bool) (s : string) :
  forallb p s = true -> forallb p (trim_start s) = true.
Proof.
  induction s as [|c s IH]; cbn [trim_start forallb]; [reflexivity|].
  intros H. destruct (is_space c); [|exact H].
  apply andb_true_iff in H as [_ H]. now apply IH.
Qed.

Lemma forallb_trim_end (p : ascii -> bool) (s : string) :
  forallb p s = true -> forallb p (trim_end s) = true.
Proof.
  induction s as [|c s IH]; cbn [trim_end forallb]; [reflexivity|].
  intros [Hc Hs]%andb_true_iff.
  destruct (is_space c && is_empty (trim_end s)); [reflexivity|].
  cbn [forallb]. now rewrite Hc, IH.
Qed.

Lemma forallb_trim (p : ascii -> bool) (s : string) :
  forallb p s = true -> forallb p (trim s) = true.
Proof. intros H. now apply forallb_trim_end, forallb_trim_start. Qed.

Lemma forallb_filter (p : ascii -> bool) (s : string) :
  forallb p (filter p s) = true.
Proof.
  induction s as [|c s IH]; cbn [filter]; [reflexivity|].
  destruct (p c) eqn:E; [cbn [forallb]; now rewrite E|exact IH].
Qed.

Lemma forallb_filter_other (p q : ascii -> bool) (s : string) :
  forallb q s = true -> forallb q (filter p s) = true.
Proof.
  induction s as [|c s IH]; cbn [filter forallb]; [reflexivity|].
  intros [Hc Hs]%andb_true_iff.
  destruct (p c); [cbn [forallb]; now rewrite Hc, IH | now apply IH].
Qed.

Lemma filter_fixed (p : ascii -> bool) (s : string) :
  forallb p s = true -> filter p s = s.
Proof.
  induction s as [|c s IH]; cbn [filter forallb]; [reflexivity|].
  intros [Hc Hs]%andb_true_iff. now rewrite Hc, IH.
Qed.

Lemma trim_start_blank (a s : string) :
  forallb is_space a = true -> trim_start (a ++ s) = trim_start s.
Proof.
  induction a as [|c a IH]; cbn [append forallb trim_start]; [reflexivity|].
  intros [Hc Ha]%andb_true_iff. now rewrite Hc, IH.
Qed.

Lemma trim_end_blank_only (b : string) :
  forallb is_space b = true -> trim_end b = EmptyString.
Proof.
  induction b as [|c b IH]; cbn [forallb trim_end]; [reflexivity|].
  intros [Hc Hb]%andb_true_iff. now rewrite Hc, (IH Hb).
Qed.

Lemma trim_end_blank (s b : string) :
  forallb is_space b = true -> trim_end (s ++ b) = trim_end s.
Proof.
  intros Hb. induction s as [|c s IH]; cbn [append trim_end].
  - now apply trim_end_blank_only.
  - now rewrite IH.
Qed.

Lemma trim_start_blank_only (b : string) :
  forallb is_space b = true -> trim_start b = EmptyString.
Proof.
  induction b as [|c b IH]; cbn [forallb trim_start]; [reflexivity|].
  intros [Hc Hb]%andb_true_iff. now rewrite Hc, (IH Hb).
Qed.

(** White space around a string does not survive trimming. *)
Lemma trim_padded (a s b : string) :
  forallb is_space a = true -> forallb is_space b = true ->
  trim (a ++ s ++ b) = trim s.
Proof.
  intros Ha Hb. unfold trim. rewrite (trim_start_blank a _ Ha).
  induction s as [|c s IH]; cbn [append trim_start].
  - now rewrite (trim_start_blank_only b Hb).
  - destruct (is_space c); [exact IH|].
    change (String c (s ++ b)) with (String c s ++ b).
    now apply trim_end_blank.
Qed.

Lemma lower_idem (c : ascii) : lower (lower c) = lower c.
Proof. destruct c as [[] [] [] [] [] [] [] []]; reflexivity. Qed.

Lemma lower_space (c : ascii) : is_space c = true -> lower c = c.
Proof. destruct c as [[] [] [] [] [] [] [] []]; (reflexivity || discriminate). Qed.

Lemma toLowerCase_idem (s : string) :
  toLowerCase (toLowerCase s) = toLowerCase s.
Proof.
  unfold toLowerCase. induction s as [|c s IH]; cbn [map]; [reflexivity|].
  now rewrite lower_idem, IH.
Qed.

Lemma toLowerCase_app (s t : string) :
  toLowerCase (s ++ t) = toLowerCase s ++ toLowerCase t.
Proof.
  unfold toLowerCase. induction s as [|c s IH]; cbn [append map]; [reflexivity|].
  now rewrite IH.
Qed.

Lemma toLowerCase_blank (a : string) :
  forallb is_space a = true -> toLowerCase a = a.
Proof.
  unfold toLowerCase. induction a as [|c a IH]; cbn [forallb map]; [reflexivity|].
  intros [Hc Ha]%andb_true_iff. now rewrite (lower_space c Hc), (IH Ha).
Qed.

Lemma digits_acc_app (acc : option Z) (s rest : string) :
  match rest with String c _ => is_digit c = false | EmptyString => True end ->
  digits_acc acc (s ++ rest) = digits_acc acc s.
Proof.
  intros Hr. revert acc. induction s as [|c s IH]; intros acc; cbn [append].
  - destruct rest as [|c r]; [reflexivity|]. cbn [digits_acc]. now rewrite Hr.
  - cbn [digits_acc]. destruct (is_digit c); [apply IH | reflexivity].
Qed.

(** What follows the digits [parseInt] reads does not count, as long as it
    does not start with one more digit. *)
Lemma parseInt10_app (s rest : string) :
  trim_start s <> EmptyString ->
  match rest with String c _ => is_digit c = false | EmptyString => True end ->
  parseInt10 (s ++ rest) = parseInt10 s.
Proof.
  intros Hs Hr. unfold parseInt10.
  assert (E : trim_start (s ++ rest) = trim_start s ++ rest).
  { clear Hr. induction s as [|c s IH]; [contradiction|].
    cbn [append trim_start] in *. destruct (is_space c); [now apply IH|reflexivity]. }
  rewrite E. destruct (trim_start s) as [|c r]; [contradiction|].
  cbn [append].
  destruct c as [[] [] [] [] [] [] [] []]; cbv beta iota;
    try change (String ?c (r ++ rest)) with (String c r ++ rest);
    now rewrite digits_acc_app.
Qed.

End TrimFacts.

(* ================================================================== *)
(** ** Further properties of the parsers of filters.js                *)
(* ================================================================== *)

Lemma sanitize_no_control (s : string) :
  Str.forallb (fun c => negb (Str.is_control c)) (sanitize s) = true.
Proof. unfold sanitize. apply TrimFacts.forallb_trim, TrimFacts.forallb_filter. Qed.

Lemma sanitize_idem (s : string) : sanitize (sanitize s) = sanitize s.
Proof.
  unfold sanitize at 1.
  rewrite TrimFacts.filter_fixed by apply sanitize_no_control.
  unfold sanitize. apply TrimFacts.trim_idem.
Qed.

Lemma sanitizeString_idem (v : jsval) :
  sanitizeString (sanitizeString v) = sanitizeString v.
Proof.
  destruct v; try reflexivity. cbn [sanitizeString].
  f_equal. apply sanitize_idem.
Qed.

(** X1.  [sanitizeString] is idempotent; on a string its result holds no
    control character and no white space at either end (trimming it again
    changes nothing), and a value that is not a string is returned as it
    is. *)
Theorem sanitizeString_cleans (v : jsval) :
  sanitizeString (sanitizeString v) = sanitizeString v
  /\ match v with
     | JStr s =>
         exists t,
           sanitizeString v = JStr t
           /\ Str.forallb (fun c => negb (Str.is_control c)) t = true
           /\ Str.trim t = t
           /\ match t with
              | String c _ => Str.is_space c = false
              | EmptyString => True
              end
     | _ => sanitizeString v = v
     end.
Proof.
  split; [apply sanitizeString_idem|].
  destruct v; try reflexivity.
  exists (sanitize s). split; [reflexivity|].
  split; [apply sanitize_no_control|].
  split; [unfold sanitize; apply TrimFacts.trim_idem|].
  unfold sanitize, Str.trim.
  pose proof (TrimFacts.trim_start_head
                (Str.filter (fun c => negb (Str.is_control c)) s)) as H.
  destruct (Str.trim_start _) as [|c r]; [exact I|].
  cbn [Str.trim_end]. now rewrite H.
Qed.

(** X2.  [parseInteger] inverts [String] on the integers below 2^53, and
    what follows the numeral does not count unless it starts with a digit:
    [parseInteger(String(n) + rest)] is [n]. *)
Theorem parseInteger_reads_numeral_prefix (n : Z) (rest : string) :
  safe_integer n ->
  match rest with
  | String c _ => Str.is_digit c = false
  | EmptyString => True
  end ->
  parseInteger (JNum n) = Some n
  /\ parseInteger (JStr (Str.of_Z n ++ rest)) = Some n.
Proof.
  intros Hs Hr. split; [now apply parseInteger_number|].
  unfold parseInteger. cbn [is_blank ToString].
  assert (Hne : Str.trim_start (Str.of_Z n) <> EmptyString).
  { intros E. pose proof (StrFacts.parseInt10_of_Z n) as H.
    unfold Str.parseInt10 in H. rewrite E in H. discriminate H. }
  destruct (Str.of_Z n ++ rest) eqn:E.
  - destruct (Str.of_Z n); [now contradiction Hne | discriminate E].
  - cbn [Str.is_empty]. rewrite <- E.
    rewrite TrimFacts.parseInt10_app by assumption.
    apply StrFacts.parseInt10_of_Z.
Qed.

Lemma parseInteger_reads_numeral_prefix_witness :
  parseInteger (JStr "12px") = Some 12
  /\ parseInteger (JStr "-3.7") = Some (-3).
Proof.
  split.
  - exact (proj2 (parseInteger_reads_numeral_prefix 12 "px"
                    ltac:(vm_compute; reflexivity) eq_refl)).
  - exact (proj2 (parseInteger_reads_numeral_prefix (-3) ".7"
                    ltac:(vm_compute; reflexivity) eq_refl)).
Defined.

(** The comparison [parseBoolean] ends in. *)
Lemma parseBoolean_string (s : string) :
  parseBoolean (JStr s)
  = let t := Str.trim (Str.toLowerCase s) in
    if String.eqb t "1" || String.eqb t "true" || String.eqb t "yes"
    then Some true
    else if String.eqb t "0" || String.eqb t "false" || String.eqb t "no"
    then Some false
    else None.
Proof. destruct s; reflexivity. Qed.

(** X3.  [parseBoolean] does not see the letter case of a string nor the
    white space around it: padded with white space, a string parses as
    its lower-case form does. *)
Theorem parseBoolean_case_and_padding (a s b : string) :
  is_blank_run a = true -> is_blank_run b = true ->
  parseBoolean (JStr (a ++ s ++ b)) = parseBoolean (JStr (Str.toLowerCase s)).
Proof.
  unfold is_blank_run. intros Ha Hb. rewrite !parseBoolean_string. cbv zeta.
  rewrite TrimFacts.toLowerCase_idem, !TrimFacts.toLowerCase_app.
  rewrite (TrimFacts.toLowerCase_blank a Ha), (TrimFacts.toLowerCase_blank b Hb).
  now rewrite TrimFacts.trim_padded.
Qed.

Lemma parseBoolean_case_and_padding_witness :
  parseBoolean (JStr "  YES ") = Some true
  /\ parseBoolean (JStr " False") = Some false.
Proof.
  split.
  - exact (parseBoolean_case_and_padding "  " "YES" " " eq_refl eq_refl).
  - exact (parseBoolean_case_and_padding " " "False" "" eq_refl eq_refl).
Defined.

(** *** Lists *)

Lemma split_token (t rest : string) :
  Str.forallb (fun c => negb (Ascii.eqb c ",")) t = true ->
  Str.split "," (t ++ String "," rest) = t :: Str.split "," rest.
Proof.
  induction t as [|c t IH]; cbn [append Str.forallb Str.split].
  - reflexivity.
  - intros [Hc Ht]%andb_true_iff. apply negb_true_iff in Hc.
    now rewrite Hc, (IH Ht).
Qed.

Lemma split_single (t : string) :
  Str.forallb (fun c => negb (Ascii.eqb c ",")) t = true ->
  Str.split "," t = [t].
Proof.
  induction t as [|c t IH]; cbn [Str.forallb Str.split]; [reflexivity|].
  intros [Hc Ht]%andb_true_iff. apply negb_true_iff in Hc.
  now rewrite Hc, (IH Ht).
Qed.

(** Splitting at the commas undoes joining with commas. *)
Lemma split_join (ts : list string) :
  ts <> [] ->
  Forall (fun t => Str.forallb (fun c => negb (Ascii.eqb c ",")) t = true) ts ->
  Str.split "," (Str.join "," ts) = ts.
Proof.
  induction ts as [|t ts IH]; [contradiction|]. intros _ H.
  apply Forall_cons_iff in H as [Ht Hts].
  destruct ts as [|t' ts]; cbn [Str.join].
  - now apply split_single.
  - change ("," ++ ?x) with (String "," x).
    rewrite (split_token _ _ Ht). f_equal. apply IH; [discriminate | exact Hts].
Qed.

Lemma join_not_empty (ts : list string) (t : string) :
  t <> EmptyString -> Str.join "," (t :: ts) <> EmptyString.
Proof.
  intros Ht. cbn [Str.join]. destruct ts; [exact Ht|].
  destruct t; [contradiction | discriminate].
Qed.

Lemma keep_tokens (ts : list string) :
  Forall is_token ts ->
  List.filter truthy (List.map sanitizeString (List.map JStr ts))
  = List.map JStr ts.
Proof.
  induction 1 as [|t ts (Hc & Hne & _) _ IH]; [reflexivity|].
  cbn [List.map List.filter sanitizeString].
  fold (sanitize t). rewrite Hc.
  destruct t; [contradiction|]. cbn [truthy Str.is_empty negb].
  now rewrite IH.
Qed.

(** X4.  [parseList] undoes [join(',')] on tokens (clean, non-empty,
    comma-free strings): order and duplicates are kept, nothing is merged
    or dropped. *)
Theorem parseList_join (ts : list string) :
  Forall is_token ts ->
  parseList (JStr (Str.join "," ts)) = List.map JStr ts.
Proof.
  intros H. destruct ts as [|t ts]; [reflexivity|].
  pose proof (Forall_inv H) as (_ & Hne & _).
  unfold parseList.
  pose proof (join_not_empty ts t Hne) as Hj.
  destruct (Str.join "," (t :: ts)) eqn:E; [contradiction|].
  cbn [truthy Str.is_empty negb ToString]. rewrite <- E.
  rewrite split_join; [now apply keep_tokens | discriminate |].
  eapply Forall_impl; [|exact H]. now intros x (_ & _ & Hx).
Qed.

Lemma parseList_join_witness :
  parseList (JStr "math,exam 2024,math")
  = [JStr "math"; JStr "exam 2024"; JStr "math"].
Proof.
  apply (parseList_join ["math"; "exam 2024"; "math"]).
  repeat (apply Forall_cons; [repeat split; discriminate|]).
  apply Forall_nil.
Defined.

Lemma filter_sanitized (l : list jsval) :
  Forall (fun x => truthy x = true /\ sanitizeString x = x)
    (List.filter truthy (List.map sanitizeString l)).
Proof.
  induction l as [|x l IH]; cbn [List.map List.filter]; [constructor|].
  destruct (truthy (sanitizeString x)) eqn:E; [|exact IH].
  constructor; [|exact IH]. split; [exact E | apply sanitizeString_idem].
Qed.

Lemma parseList_elements (v : jsval) :
  Forall (fun x => truthy x = true /\ sanitizeString x = x) (parseList v).
Proof.
  unfold parseList. destruct (negb (truthy v)); [constructor|].
  destruct v; apply filter_sanitized.
Qed.

Lemma keep_sanitized (l : list jsval) :
  Forall (fun x => truthy x = true /\ sanitizeString x = x) l ->
  List.filter truthy (List.map sanitizeString l) = l
  /\ List.map sanitizeString l = l.
Proof.
  induction 1 as [|x l [Ht Hs] _ [IH1 IH2]]; [now split|].
  cbn [List.map List.filter]. rewrite Hs, Ht, IH1, IH2. now split.
Qed.

Lemma split_pieces (s : string) :
  Forall (fun t => Str.forallb (fun c => negb (Ascii.eqb c ",")) t = true)
    (Str.split "," s).
Proof.
  induction s as [|c s IH]; cbn [Str.split].
  - now repeat constructor.
  - destruct (Ascii.eqb c ",") eqn:E.
    + now constructor.
    + destruct (Str.split "," s) as [|p ps].
      * repeat constructor. cbn. now rewrite E.
      * apply Forall_cons_iff in IH as [Hp Hps].
        constructor; [|exact Hps]. cbn [Str.forallb]. now rewrite E, Hp.
Qed.

(** X5.  Every element [parseList] returns is truthy and already
    sanitized, so parsing its own result again changes nothing; from a
    string it returns only tokens: non-empty strings without comma,
    without control character and without white space at either end. *)
Theorem parseList_idempotent (v : jsval) :
  parseList (JArr (parseList v)) = parseList v
  /\ (forall x, In x (parseList v) ->
        truthy x = true /\ sanitizeString x = x)
  /\ (forall s x, v = JStr s -> In x (parseList v) ->
        exists t, x = JStr t /\ is_token t).
Proof.
  pose proof (parseList_elements v) as H.
  split; [|split].
  - unfold parseList at 1. cbn [truthy negb].
    now apply keep_sanitized.
  - intros x Hx. rewrite Forall_forall in H. now apply H.
  - intros s x -> Hx. unfold parseList in Hx.
    destruct (negb (truthy (JStr s))); [destruct Hx|].
    cbn [ToString] in Hx.
    apply filter_In in Hx as [Hx Ht].
    apply in_map_iff in Hx as [y [<- Hy]].
    apply in_map_iff in Hy as [p [<- Hp]].
    pose proof (split_pieces s) as Hs. rewrite Forall_forall in Hs.
    specialize (Hs p Hp).
    cbn [sanitizeString] in *. fold (sanitize p) in *.
    exists (sanitize p). split; [reflexivity|].
    split; [apply sanitize_idem|]. split.
    + intros E. rewrite E in Ht. discriminate Ht.
    + unfold sanitize.
      now apply TrimFacts.forallb_trim, TrimFacts.forallb_filter_other.
Qed.

(* ================================================================== *)
(** ** Further properties of the filter builder                       *)
(* ================================================================== *)

Section FilterSteps.

Variable Date_parse : string -> option Z.
Variable clock : nat -> Z.

(** Two parameter objects whose parameters drive every step alike give
    the same filter. *)
Lemma buildMongoFilters_alike (p1 p2 : list (string * jsval)) :
  (forall name, In name ["language"; "category"; "level"] ->
     forall f : filter_obj,
       (if truthy (get_prop (JObj p1) name)
        then set_prop name (MVal (sanitizeString (get_prop (JObj p1) name))) f
        else f)
       = (if truthy (get_prop (JObj p2) name)
          then set_prop name (MVal (sanitizeString (get_prop (JObj p2) name))) f
          else f)) ->
  (forall name, In name ["tags"; "locations"] ->
     forall f, membership_filter name (get_prop (JObj p1) name) f
               = membership_filter name (get_prop (JObj p2) name) f) ->
  get_prop (JObj p1) "isPaid" = get_prop (JObj p2) "isPaid" ->
  parseInteger (get_prop (JObj p1) "minDownloads")
  = parseInteger (get_prop (JObj p2) "minDownloads") ->
  (forall name, In name ["dateFrom"; "dateTo"; "examDateFrom"; "examDateTo"] ->
     forall now, parseDate Date_parse now (get_prop (JObj p1) name)
                 = parseDate Date_parse now (get_prop (JObj p2) name)) ->
  (forall f, keywords_filter (get_prop (JObj p1) "keywords") f
             = keywords_filter (get_prop (JObj p2) "keywords") f) ->
  buildMongoFilters Date_parse clock (JObj p1)
  = buildMongoFilters Date_parse clock (JObj p2).
Proof.
  intros Hx Hm Hp Hn Hd Hk.
  unfold buildMongoFilters. open_object p1. open_object p2. f_equal.
  rewrite Hk.
  rewrite (Hx "level" ltac:(in_list)).
  rewrite !(Hd "examDateFrom" ltac:(in_list)), !(Hd "examDateTo" ltac:(in_list)),
    !(Hd "dateFrom" ltac:(in_list)), !(Hd "dateTo" ltac:(in_list)).
  rewrite Hn, Hp.
  rewrite !(Hm "locations" ltac:(in_list)), !(Hm "tags" ltac:(in_list)).
  rewrite !(Hx "category" ltac:(in_list)).
  rewrite !(Hx "language" ltac:(in_list)).
  reflexivity.
Qed.

End FilterSteps.

Lemma membership_normalized (name : string) (v : jsval) (f : filter_obj) :
  membership_filter name (normalized v) f = membership_filter name v f.
Proof.
  destruct v as [| | | |s| |]; try reflexivity.
  unfold normalized. destruct (negb (Str.is_empty (Str.trim s))) eqn:E;
    [|reflexivity].
  cbn [membership_filter]. rewrite E.
  destruct (keep_sanitized _ (parseList_elements (JStr s))) as [_ ->].
  reflexivity.
Qed.

Lemma get_prop_filter_argument (params : list (string * jsval)) (name : string) :
  get_prop (filter_argument params) name
  = if String.eqb name "tags" || String.eqb name "locations"
    then normalized (get_prop (JObj params) name)
    else get_prop (JObj params) name.
Proof.
  unfold filter_argument. rewrite !get_prop_normalize_list.
  destruct (String.eqb_spec name "locations") as [->|H1]; [reflexivity|].
  destruct (String.eqb_spec name "tags") as [->|H2]; reflexivity.
Qed.

(** X6.  Splitting the comma-separated tags and locations beforehand, as
    [buildPdfFiltersAndOptions] does with [parseList], is redundant:
    [buildMongoFilters] returns the same filter for the strings and for
    the arrays made from them. *)
Theorem presplit_lists_same_filter
    (Date_parse : string -> option Z) (clock : nat -> Z)
    (params : list (string * jsval)) :
  buildMongoFilters Date_parse clock
    (JObj (normalize_list "locations" (normalize_list "tags" params)))
  = buildMongoFilters Date_parse clock (JObj params).
Proof.
  change (JObj (normalize_list "locations" (normalize_list "tags" params)))
    with (filter_argument params).
  unfold filter_argument at 1.
  apply buildMongoFilters_alike;
    change (JObj (normalize_list "locations" (normalize_list "tags" params)))
      with (filter_argument params).
  - intros name Hin f. rewrite get_prop_filter_argument.
    cbn in Hin. destruct Hin as [<-|[<-|[<-|[]]]]; reflexivity.
  - intros name Hin f. rewrite get_prop_filter_argument.
    cbn in Hin. destruct Hin as [<-|[<-|[]]];
      cbn [String.eqb Ascii.eqb Bool.eqb orb]; apply membership_normalized.
  - now rewrite get_prop_filter_argument.
  - now rewrite get_prop_filter_argument.
  - intros name Hin now. rewrite get_prop_filter_argument.
    cbn in Hin. destruct Hin as [<-|[<-|[<-|[<-|[]]]]]; reflexivity.
  - intros f. now rewrite get_prop_filter_argument.
Qed.

(** *** What each parameter leaves in the filter *)

Lemma range_filter_assoc_same field from to (f : filter_obj) :
  assoc field (range_filter field from to f)
  = match from, to with
    | None, None => assoc field f
    | Some a, None => Some (MObj [("$gte", MDate a)])
    | None, Some b => Some (MObj [("$lte", MDate b)])
    | Some a, Some b => Some (MObj [("$gte", MDate a); ("$lte", MDate b)])
    end.
Proof.
  unfold range_filter. destruct from, to; cbn -[assoc]; try reflexivity;
    apply assoc_set_prop_eq.
Qed.

Section FilterEntries.

Variable Date_parse : string -> option Z.
Variable clock : nat -> Z.

Lemma exact_entry (props : list (string * jsval)) (f : filter_obj)
    (name : string) :
  In name ["language"; "category"; "level"] ->
  buildMongoFilters Date_parse clock (JObj props) = Normal f ->
  assoc name f
  = if truthy (get_prop (JObj props) name)
    then Some (MVal (sanitizeString (get_prop (JObj props) name)))
    else None.
Proof.
  intros Hin. unfold buildMongoFilters. open_object props.
  intros <-%Normal_inj.
  cbn in Hin. destruct Hin as [<-|[<-|[<-|[]]]];
    skip_steps; rewrite ?assoc_set_prop_eq; reflexivity.
Qed.

End FilterEntries.

(** X8.  When the dates and minDownloads are values [String] converts, and
    the number minDownloads parses to, if any, lies below 2^53, the range
    on publishedAt (and on examDate) holds exactly the bounds whose date
    parsed, [$gte] before [$lte], and the field is absent when neither
    parsed.  The bound on downloads is present exactly when minDownloads
    parses to a number, and is that number. *)
Theorem range_entries
    (Date_parse : string -> option Z) (clock : nat -> Z)
    (props : list (string * jsval)) (f : filter_obj) :
  (forall name, In name converted_params ->
                converts (get_prop (JObj props) name)) ->
  (forall n, parseInteger (get_prop (JObj props) "minDownloads") = Some n ->
             safe_integer n) ->
  buildMongoFilters Date_parse clock (JObj props) = Normal f ->
  let bounds (from to : option jsdate) : option mval :=
    match from, to with
    | None, None => None
    | Some a, None => Some (MObj [("$gte", MDate a)])
    | None, Some b => Some (MObj [("$lte", MDate b)])
    | Some a, Some b => Some (MObj [("$gte", MDate a); ("$lte", MDate b)])
    end in
  assoc "publishedAt" f
  = bounds (parseDate Date_parse (clock 0%nat) (get_prop (JObj props) "dateFrom"))
      (parseDate Date_parse (clock 1%nat) (get_prop (JObj props) "dateTo"))
  /\ assoc "examDate" f
     = bounds
         (parseDate Date_parse (clock 2%nat)
            (get_prop (JObj props) "examDateFrom"))
         (parseDate Date_parse (clock 3%nat)
            (get_prop (JObj props) "examDateTo"))
  /\ assoc "downloads" f
     = match parseInteger (get_prop (JObj props) "minDownloads") with
       | Some n => Some (MObj [("$gte", MVal (JNum n))])
       | None => None
       end.
Proof.
  intros _ _.
  unfold buildMongoFilters. open_object props. intros <-%Normal_inj. cbv zeta.
  assert (H1 : forall from to (g : filter_obj) field,
            assoc field g = None ->
            assoc field (range_filter field from to g)
            = match from, to with
              | None, None => None
              | Some a, None => Some (MObj [("$gte", MDate a)])
              | None, Some b => Some (MObj [("$lte", MDate b)])
              | Some a, Some b =>
                  Some (MObj [("$gte", MDate a); ("$lte", MDate b)])
              end).
  { intros from to g field Hg. rewrite range_filter_assoc_same.
    now destruct from, to. }
  split; [|split].
  - rewrite keywords_filter_assoc by discriminate.
    destruct (truthy (get_prop (JObj props) "level"));
      rewrite ?assoc_set_prop_ne by discriminate;
      rewrite range_filter_assoc by discriminate;
      apply H1; skip_steps; reflexivity.
  - rewrite keywords_filter_assoc by discriminate.
    destruct (truthy (get_prop (JObj props) "level"));
      rewrite ?assoc_set_prop_ne by discriminate;
      apply H1; skip_steps; reflexivity.
  - rewrite keywords_filter_assoc by discriminate.
    destruct (truthy (get_prop (JObj props) "level"));
      rewrite ?assoc_set_prop_ne by discriminate;
      rewrite !range_filter_assoc by discriminate;
      (destruct (parseInteger (get_prop (JObj props) "minDownloads"));
       [apply assoc_set_prop_eq | skip_steps; reflexivity]).
Qed.

Lemma range_entries_witness :
  exists f,
    buildMongoFilters no_Date_parse still_clock
      (JObj [("minDownloads", JStr "5"); ("dateTo", JStr "yesterday")])
    = Normal f
    /\ assoc "publishedAt" f = None
    /\ assoc "downloads" f = Some (MObj [("$gte", MVal (JNum 5))]).
Proof.
  eexists. split; [reflexivity|].
  assert (Hc : forall name,
            In name converted_params ->
            converts
              (get_prop
                 (JObj [("minDownloads", JStr "5"); ("dateTo", JStr "yesterday")])
                 name)).
  { intros name H. cbn in H.
    repeat (destruct H as [<-|H]; [reflexivity|]). destruct H. }
  assert (Hn : forall n,
            parseInteger
              (get_prop
                 (JObj [("minDownloads", JStr "5"); ("dateTo", JStr "yesterday")])
                 "minDownloads")
            = Some n ->
            safe_integer n).
  { intros n H. vm_compute in H. injection H as <-. vm_compute. reflexivity. }
  destruct (range_entries no_Date_parse still_clock
              [("minDownloads", JStr "5"); ("dateTo", JStr "yesterday")]
              _ Hc Hn eq_refl) as (H1 & _ & H3).
  split; [exact H1 | exact H3].
Defined.

Lemma sanitize_blank (s : string) : is_blank_run s = true -> sanitize s = EmptyString.
Proof.
  unfold is_blank_run, sanitize, Str.trim. intros H.
  rewrite TrimFacts.trim_start_blank_only
    by now apply TrimFacts.forallb_filter_other.
  reflexivity.
Qed.

(** X9.  The exact-match fields language, category and level.  A direct
    call stores a non-empty string sanitized and any other truthy value as
    it is, an object included; through a URLSearchParams the stored value is
    always the sanitized string, and a value made of white space only is
    stored as the empty string rather than left out. *)
Theorem exact_fields_stored
    (Date_parse : string -> option Z) (clock : nat -> Z) (name : string) :
  In name ["language"; "category"; "level"] ->
  (forall props f,
     buildMongoFilters Date_parse clock (JObj props) = Normal f ->
     assoc name f
     = match get_prop (JObj props) name with
       | JStr s =>
           if Str.is_empty s then None else Some (MVal (JStr (sanitize s)))
       | v => if truthy v then Some (MVal v) else None
       end)
  /\ (forall entries r,
        buildPdfFiltersAndOptions Date_parse clock (SearchParams entries)
        = Normal r ->
        assoc name (filters r)
        = match assoc name entries with
          | Some s =>
              if Str.is_empty s then None
              else Some (MVal (JStr (sanitize s)))
          | None => None
          end)
  /\ (forall entries r s,
        buildPdfFiltersAndOptions Date_parse clock (SearchParams entries)
        = Normal r ->
        assoc name entries = Some s -> s <> EmptyString ->
        is_blank_run s = true ->
        assoc name (filters r) = Some (MVal (JStr EmptyString))).
Proof.
  intros Hin.
  assert (Hdirect : forall props f,
     buildMongoFilters Date_parse clock (JObj props) = Normal f ->
     assoc name f
     = match get_prop (JObj props) name with
       | JStr s =>
           if Str.is_empty s then None else Some (MVal (JStr (sanitize s)))
       | v => if truthy v then Some (MVal v) else None
       end).
  { intros props f Hf. rewrite (exact_entry _ _ _ _ _ Hin Hf).
    destruct (get_prop (JObj props) name) as [| |b|n|s|l|o]; try reflexivity.
    destruct s; reflexivity. }
  assert (Hwrapped : forall entries r,
        buildPdfFiltersAndOptions Date_parse clock (SearchParams entries)
        = Normal r ->
        assoc name (filters r)
        = match assoc name entries with
          | Some s =>
              if Str.is_empty s then None
              else Some (MVal (JStr (sanitize s)))
          | None => None
          end).
  { intros entries r Hr.
    pose proof (wrapper_filters_search Date_parse clock entries) as E.
    rewrite Hr in E. cbn [filters_of] in E. symmetry in E.
    unfold filter_argument in E. rewrite (Hdirect _ _ E).
    rewrite !get_prop_normalize_list.
    assert (Hp : In name filter_params)
      by (cbn in Hin |- *; intuition).
    assert (Hne : String.eqb name "locations" = false
                  /\ String.eqb name "tags" = false
                  /\ String.eqb name "isPaid" = false)
      by (cbn in Hin; destruct Hin as [<-|[<-|[<-|[]]]]; now repeat split).
    destruct Hne as (-> & -> & Hp').
    rewrite params_of_search_params_get by exact Hp. rewrite Hp'.
    unfold usp_get. destruct (assoc name entries) as [s|]; [|reflexivity].
    destruct s; reflexivity. }
  split; [exact Hdirect | split; [exact Hwrapped|]].
  intros entries r s Hr Hs Hne Hb.
  rewrite (Hwrapped _ _ Hr), Hs, (sanitize_blank s Hb).
  destruct s; [contradiction | reflexivity].
Qed.

Lemma exact_fields_stored_witness :
  (exists f,
     buildMongoFilters no_Date_parse still_clock
       (JObj [("language", JObj [("$ne", JNull)])])
     = Normal f
     /\ assoc "language" f = Some (MVal (JObj [("$ne", JNull)])))
  /\ (exists r,
        buildPdfFiltersAndOptions no_Date_parse still_clock
          (SearchParams [("language", " ")])
        = Normal r
        /\ assoc "language" (filters r) = Some (MVal (JStr EmptyString))).
Proof.
  destruct (exact_fields_stored no_Date_parse still_clock "language")
    as (Hd & _ & Hb); [cbn; tauto|].
  split.
  - eexists. split; [reflexivity|].
    exact (Hd [("language", JObj [("$ne", JNull)])] _ eq_refl).
  - eexists. split; [reflexivity|].
    apply (Hb [("language", " ")] _ " " eq_refl eq_refl);
      [discriminate | reflexivity].
Defined.

(* ================================================================== *)
(** ** Further properties of the list options and of the wrapper      *)
(* ================================================================== *)

Lemma list_options_eq (a b : list_options) :
  skip a = skip b -> limit a = limit b -> sort a = sort b ->
  page a = page b -> a = b.
Proof. destruct a, b. cbn. now intros -> -> -> ->. Qed.

Lemma buildListOptions_sort_ext (p1 p2 : list (string * jsval)) :
  get_prop (JObj p1) "sort" = get_prop (JObj p2) "sort" ->
  sort (buildListOptions (JObj p1)) = sort (buildListOptions (JObj p2)).
Proof.
  intros H. unfold buildListOptions. cbv zeta. cbn [sort].
  change (truthy (with_default (JObj []) (JObj p1))) with true.
  change (truthy (with_default (JObj []) (JObj p2))) with true.
  cbv iota. cbn [with_default]. now rewrite H.
Qed.

Lemma buildListOptions_ext (p1 p2 : list (string * jsval)) :
  parseInteger (get_prop (JObj p1) "page")
  = parseInteger (get_prop (JObj p2) "page") ->
  parseInteger (get_prop (JObj p1) "limit")
  = parseInteger (get_prop (JObj p2) "limit") ->
  sort (buildListOptions (JObj p1)) = sort (buildListOptions (JObj p2)) ->
  buildListOptions (JObj p1) = buildListOptions (JObj p2).
Proof.
  intros Hp Hl Hs.
  destruct (buildListOptions_resolved (JObj p1)) as (L1 & P1 & S1).
  destruct (buildListOptions_resolved (JObj p2)) as (L2 & P2 & S2).
  apply list_options_eq; try assumption; congruence.
Qed.

(** X10.  For a page and a limit that [String] converts, and as long as the
    page it resolved lies below 2^53, the options [buildListOptions]
    returns are a fixed point: called again on the page and limit it
    resolved, with the same sort, it returns the same options.  The skip it
    computes is never negative. *)
Theorem buildListOptions_stable (props : list (string * jsval)) :
  let r := buildListOptions (JObj props) in
  converts (get_prop (JObj props) "page") ->
  converts (get_prop (JObj props) "limit") ->
  safe_integer (page r) ->
  buildListOptions
    (JObj [ ("page", JNum (page r)); ("limit", JNum (limit r));
            ("sort", get_prop (JObj props) "sort") ])
  = r
  /\ 0 <= skip r.
Proof.
  intros r _ _ Hsafe.
  destruct (buildListOptions_bounds (JObj props)) as (Hl & Hp).
  destruct (buildListOptions_resolved (JObj props)) as (_ & _ & Hs).
  fold r in Hl, Hp, Hs. split; [|nia].
  set (again := JObj _).
  destruct (buildListOptions_resolved again) as (L & P & S).
  assert (El : limit (buildListOptions again) = limit r).
  { rewrite L. subst again.
    change (get_prop (JObj _) "limit") with (JNum (limit r)).
    rewrite parseInteger_number by (unfold safe_integer; lia).
    unfold clamp_limit, or_fallback, DEFAULT_LIMIT, MAX_LIMIT.
    destruct (Z.leb_spec (limit r) 0); [lia|].
    destruct (Z.gtb_spec (limit r) 200); lia. }
  assert (Ep : page (buildListOptions again) = page r).
  { rewrite P. subst again.
    change (get_prop (JObj _) "page") with (JNum (page r)).
    rewrite parseInteger_number by exact Hsafe.
    unfold clamp_page, or_fallback, DEFAULT_PAGE.
    destruct (Z.leb_spec (page r) 0); lia. }
  apply list_options_eq.
  - rewrite S, Hs. now rewrite El, Ep.
  - exact El.
  - subst again r. now apply buildListOptions_sort_ext.
  - exact Ep.
Qed.

Lemma buildListOptions_stable_witness :
  buildListOptions
    (JObj [("page", JNum 3); ("limit", JNum 200); ("sort", JStr "latest")])
  = buildListOptions
      (JObj [("page", JStr "3"); ("limit", JStr "999"); ("sort", JStr "latest")])
  /\ 0 <= skip (buildListOptions
                  (JObj [("page", JStr "3"); ("limit", JStr "999");
                         ("sort", JStr "latest")])).
Proof.
  apply (buildListOptions_stable
           [("page", JStr "3"); ("limit", JStr "999"); ("sort", JStr "latest")]).
  - reflexivity.
  - reflexivity.
  - vm_compute. reflexivity.
Defined.

(** Beyond the bound the options need not be a fixed point: the page
    1000000000000000000000 resolves to 1e21, which as a number is printed
    as 1e+21 and resolves to 1. *)
Lemma buildListOptions_not_stable_at_1e21 :
  page (buildListOptions (JObj [("page", JStr "1000000000000000000000")]))
  = 10 ^ 21
  /\ page (buildListOptions (JObj [("page", JNum (10 ^ 21))])) = 1.
Proof. split; vm_compute; reflexivity. Qed.

(** *** The two shapes of a query *)

Lemma assoc_fold_set {B} (g : B -> jsval) (entries : list (string * B))
    (acc : list (string * jsval)) (name : string) :
  NoDup (keys entries) ->
  assoc name
    (List.fold_left (fun o kv => set_prop (fst kv) (g (snd kv)) o)
       entries acc)
  = match assoc name entries with
    | Some s => Some (g s)
    | None => assoc name acc
    end.
Proof.
  revert acc. induction entries as [|[k v] entries IH]; intros acc Hnd;
    [reflexivity|].
  cbn [keys List.map fst] in Hnd. apply NoDup_cons_iff in Hnd as [Hk Hnd].
  cbn [List.fold_left fst snd assoc]. rewrite (IH _ Hnd).
  destruct (String.eqb_spec name k) as [->|Hne].
  - assert (E : assoc k entries = None).
    { clear -Hk. induction entries as [|[k' v'] entries IH]; [reflexivity|].
      cbn [assoc]. cbn [keys List.map fst In] in Hk.
      destruct (String.eqb_spec k k'); [subst; tauto|].
      apply IH. fold (keys entries). tauto. }
    rewrite E. apply assoc_set_prop_eq.
  - destruct (assoc name entries); [reflexivity|].
    now apply assoc_set_prop_ne.
Qed.

Lemma get_prop_object_of_entries (entries : list (string * string))
    (name : string) :
  NoDup (keys entries) ->
  get_prop (object_of_entries entries) name
  = match assoc name entries with
    | Some s => JStr s
    | None => JUndefined
    end.
Proof.
  intros Hnd. unfold object_of_entries. cbn [get_prop].
  rewrite (assoc_fold_set JStr entries [] name Hnd).
  now destruct (assoc name entries).
Qed.

Lemma search_or_object (entries : list (string * string)) (name : string) :
  NoDup (keys entries) ->
  same_or_blank (js_or (usp_get entries name) JUndefined)
    (get_prop (object_of_entries entries) name).
Proof.
  intros Hnd. rewrite (get_prop_object_of_entries entries name Hnd).
  unfold usp_get, same_or_blank.
  destruct (assoc name entries) as [[|c s]|]; cbn; auto.
Qed.

Lemma same_or_blank_normalized (v1 v2 : jsval) :
  same_or_blank v1 v2 -> same_or_blank (normalized v1) (normalized v2).
Proof. intros [->|[-> ->]]; [now left | now right]. Qed.

Section SameOrBlank.

Variable Date_parse : string -> option Z.
Variables v1 v2 : jsval.
Hypothesis H : same_or_blank v1 v2.

Lemma same_or_blank_exact (name : string) (f : filter_obj) :
  (if truthy v1 then set_prop name (MVal (sanitizeString v1)) f else f)
  = (if truthy v2 then set_prop name (MVal (sanitizeString v2)) f else f).
Proof. now destruct H as [->|[-> ->]]. Qed.

Lemma same_or_blank_membership (name : string) (f : filter_obj) :
  membership_filter name v1 f = membership_filter name v2 f.
Proof. now destruct H as [->|[-> ->]]. Qed.

Lemma same_or_blank_parseInteger : parseInteger v1 = parseInteger v2.
Proof. now destruct H as [->|[-> ->]]. Qed.

Lemma same_or_blank_parseDate (now : Z) :
  parseDate Date_parse now v1 = parseDate Date_parse now v2.
Proof. now destruct H as [->|[-> ->]]. Qed.

Lemma same_or_blank_keywords (f : filter_obj) :
  keywords_filter v1 f = keywords_filter v2 f.
Proof. now destruct H as [->|[-> ->]]. Qed.

Lemma same_or_blank_or (d : jsval) : js_or v1 d = js_or v2 d.
Proof. now destruct H as [->|[-> ->]]. Qed.

Lemma same_or_blank_sort (page limit page' limit' : jsval) :
  sort (buildListOptions
          (JObj [("page", page); ("limit", limit); ("sort", v1)]))
  = sort (buildListOptions
            (JObj [("page", page'); ("limit", limit'); ("sort", v2)])).
Proof.
  destruct H as [->|[-> ->]]; [|reflexivity].
  now apply buildListOptions_sort_ext.
Qed.

End SameOrBlank.

Section Shapes.

Variable Date_parse : string -> option Z.
Variable clock : nat -> Z.
Variable entries : list (string * string).
Hypothesis Hnd : NoDup (keys entries).

Lemma shapes_param (name : string) :
  In name [ "language"; "category"; "tags"; "locations"; "minDownloads";
            "dateFrom"; "dateTo"; "examDateFrom"; "examDateTo"; "level";
            "keywords"; "page"; "limit"; "sort" ] ->
  same_or_blank
    (get_prop (filter_argument (params_of_search_params entries)) name)
    (get_prop
       (filter_argument (params_of_object (object_of_entries entries)))
       name).
Proof.
  intros Hin. rewrite !get_prop_filter_argument. cbn in Hin.
  repeat (destruct Hin as [<-|Hin];
          [cbn [String.eqb Ascii.eqb Bool.eqb orb];
           try apply same_or_blank_normalized;
           apply (search_or_object entries _ Hnd)|]).
  destruct Hin.
Qed.

Lemma shapes_isPaid :
  get_prop (filter_argument (params_of_search_params entries)) "isPaid"
  = get_prop
      (filter_argument (params_of_object (object_of_entries entries)))
      "isPaid".
Proof.
  rewrite !get_prop_filter_argument. cbn [String.eqb Ascii.eqb Bool.eqb orb].
  rewrite params_of_search_params_get, params_of_object_get by in_list.
  cbn [String.eqb Ascii.eqb Bool.eqb].
  rewrite (get_prop_object_of_entries entries "isPaid" Hnd).
  unfold usp_has, usp_get. now destruct (assoc "isPaid" entries).
Qed.

Lemma shapes_q :
  get_prop (filter_argument (params_of_search_params entries)) "q"
  = get_prop
      (filter_argument (params_of_object (object_of_entries entries))) "q".
Proof.
  rewrite !get_prop_filter_argument. cbn [String.eqb Ascii.eqb Bool.eqb orb].
  change (js_or (usp_get entries "q") (JStr EmptyString)
          = js_or (get_prop (object_of_entries entries) "q")
              (JStr EmptyString)).
  rewrite (get_prop_object_of_entries entries "q" Hnd).
  unfold usp_get. now destruct (assoc "q" entries) as [[|c s]|].
Qed.

Lemma shapes_filters :
  buildMongoFilters Date_parse clock
    (filter_argument (params_of_search_params entries))
  = buildMongoFilters Date_parse clock
      (filter_argument (params_of_object (object_of_entries entries))).
Proof.
  unfold filter_argument. apply buildMongoFilters_alike;
    repeat match goal with
      | |- context [JObj (normalize_list "locations"
                            (normalize_list "tags" ?p))] =>
          change (JObj (normalize_list "locations" (normalize_list "tags" p)))
            with (filter_argument p)
      end.
  - intros name Hin f. apply same_or_blank_exact, shapes_param.
    cbn in Hin |- *. tauto.
  - intros name Hin f. apply same_or_blank_membership, shapes_param.
    cbn in Hin |- *. tauto.
  - exact shapes_isPaid.
  - apply same_or_blank_parseInteger, shapes_param. in_list.
  - intros name Hin now. apply same_or_blank_parseDate, shapes_param.
    cbn in Hin |- *. tauto.
  - intros f. apply same_or_blank_keywords, shapes_param. in_list.
Qed.

End Shapes.

(** X11.  The two shapes of a query agree: for search parameters without a
    repeated name, [buildPdfFiltersAndOptions] returns the same filters,
    options and meta for the URLSearchParams and for the plain object
    holding the same entries; an empty value counts as absent in both. *)
Theorem both_shapes_agree
    (Date_parse : string -> option Z) (clock : nat -> Z)
    (entries : list (string * string)) :
  NoDup (keys entries) ->
  buildPdfFiltersAndOptions Date_parse clock (SearchParams entries)
  = buildPdfFiltersAndOptions Date_parse clock
      (PlainQuery (object_of_entries entries)).
Proof.
  intros Hnd. unfold buildPdfFiltersAndOptions.
  change (with_default (JObj []) (object_of_entries entries))
    with (object_of_entries entries).
  change (is_nullish (object_of_entries entries)) with false.
  cbv iota. cbn [bind].
  repeat match goal with
    | |- context [JObj (normalize_list "locations"
                          (normalize_list "tags" ?p))] =>
        change (JObj (normalize_list "locations" (normalize_list "tags" p)))
          with (filter_argument p)
    end.
  rewrite (shapes_filters Date_parse clock entries Hnd).
  destruct (buildMongoFilters Date_parse clock _) as [f|e];
    [|reflexivity].
  cbn [bind]. f_equal.
  pose proof (shapes_param entries Hnd) as Hparam.
  pose proof (shapes_q entries Hnd) as Hq.
  set (a1 := filter_argument (params_of_search_params entries)) in *.
  set (a2 := filter_argument (params_of_object (object_of_entries entries)))
    in *.
  assert (Ho :
    buildListOptions
      (JObj [ ("page", get_prop a1 "page"); ("limit", get_prop a1 "limit");
              ("sort", get_prop a1 "sort") ])
    = buildListOptions
        (JObj [ ("page", get_prop a2 "page"); ("limit", get_prop a2 "limit");
                ("sort", get_prop a2 "sort") ])).
  { apply buildListOptions_ext.
    - apply same_or_blank_parseInteger, Hparam. in_list.
    - apply same_or_blank_parseInteger, Hparam. in_list.
    - apply same_or_blank_sort, Hparam. in_list. }
  rewrite Ho, Hq.
  rewrite (same_or_blank_or _ _ (Hparam "sort" ltac:(in_list))).
  reflexivity.
Qed.

Lemma both_shapes_agree_witness :
  buildPdfFiltersAndOptions no_Date_parse still_clock
    (SearchParams [("language", ""); ("tags", "a,b"); ("page", "2")])
  = buildPdfFiltersAndOptions no_Date_parse still_clock
      (PlainQuery
         (JObj [("language", JStr ""); ("tags", JStr "a,b");
                ("page", JStr "2")])).
Proof.
  apply (both_shapes_agree no_Date_parse still_clock
           [("language", ""); ("tags", "a,b"); ("page", "2")]).
  repeat constructor; cbn; intuition discriminate.
Defined.

(* ================================================================== *)
(** ** The sort names in the two builders                             *)
(* ================================================================== *)




(* ================================================================== *)
(** ** Further properties of the pagination                           *)
(* ================================================================== *)

Lemma firstn_add {A} (a b : nat) (xs : list A) :
  List.firstn (a + b) xs
  = (List.firstn a xs ++ List.firstn b (List.skipn a xs))%list.
Proof.
  revert xs. induction a as [|a IH]; intros xs; [reflexivity|].
  destruct xs as [|x xs]; cbn [Nat.add List.firstn List.skipn List.app].
  - now destruct b.
  - now rewrite IH.
Qed.

Lemma chunks_concat {A} (xs : list A) (L m : nat) :
  List.concat
    (List.map (fun k => List.firstn L (List.skipn ((k - 1) * L) xs))
       (List.seq 1 m))
  = List.firstn (m * L) xs.
Proof.
  induction m as [|m IH]; [reflexivity|].
  rewrite List.seq_S, List.map_app, List.concat_app, IH.
  cbn [List.map List.concat Nat.add]. rewrite List.app_nil_r.
  replace (S m - 1)%nat with m by lia.
  replace (S m * L)%nat with (m * L + L)%nat by lia.
  symmetry. apply firstn_add.
Qed.

Lemma page_slice_nat {A} (xs : list A) (k : nat) (l : Z) :
  (1 <= k)%nat -> 1 <= l ->
  page_slice xs (Z.of_nat k) l
  = List.firstn (Z.to_nat l) (List.skipn ((k - 1) * Z.to_nat l) xs).
Proof.
  intros Hk Hl. unfold page_slice. f_equal. f_equal.
  rewrite <- (Z2Nat.id l) at 1 by lia.
  replace (Z.of_nat k - 1) with (Z.of_nat (k - 1)) by lia.
  rewrite <- Nat2Z.inj_mul. apply Nat2Z.id.
Qed.

Lemma pages_cover {A} (xs : list A) (l : Z) :
  1 <= l ->
  List.concat
    (List.map (fun p => page_slice xs p l)
       (pages_up_to (Route.ceil_div (Z.of_nat (List.length xs)) l)))
  = xs.
Proof.
  intros Hl. unfold pages_up_to. rewrite List.map_map.
  set (m := Z.to_nat (Route.ceil_div (Z.of_nat (List.length xs)) l)).
  rewrite (List.map_ext_in _
             (fun k => List.firstn (Z.to_nat l)
                         (List.skipn ((k - 1) * Z.to_nat l) xs))).
  - rewrite chunks_concat. apply List.firstn_all2.
    pose proof (ceil_div_bounds (Z.of_nat (List.length xs)) l ltac:(lia))
      as [_ Hc].
    subst m. nia.
  - intros k Hk. apply List.in_seq in Hk. apply page_slice_nat; lia.
Qed.

Section PageFacts.

Variable doc : Type.

Lemma results_of_page (a : Atlas.args) (ranked : list doc) (p l : Z) :
  1 <= p -> 1 <= l ->
  results_of
    (Engine.aggregate doc ranked
       (Atlas.buildPdfSearchPipeline (with_page a p l)))
  = List.map Engine.Doc (page_slice ranked p l).
Proof.
  intros Hp Hl.
  rewrite aggregate_pipeline
    by (cbn [with_page Atlas.page Atlas.limit or_fallback]; lia).
  reflexivity.
Qed.

End PageFacts.

(** X13.  The pages of a search partition its matches: for a page size of
    at least 1, the results of the pages 1 to ceil(total / limit), one
    after the other, are the ranked matches, each once and in order. *)
Theorem pages_partition_the_matches
    (doc : Type) (a : Atlas.args) (ranked : list doc) (l : Z) :
  1 <= l ->
  List.concat
    (List.map
       (fun p =>
          results_of
            (Engine.aggregate doc ranked
               (Atlas.buildPdfSearchPipeline (with_page a p l))))
       (pages_up_to (Route.ceil_div (Z.of_nat (List.length ranked)) l)))
  = List.map Engine.Doc ranked.
Proof.
  intros Hl.
  rewrite (List.map_ext_in _
             (fun p => List.map Engine.Doc (page_slice ranked p l))).
  - rewrite <- List.map_map, <- List.concat_map. f_equal.
    now apply pages_cover.
  - intros p Hp. apply results_of_page; [|exact Hl].
    unfold pages_up_to in Hp. apply List.in_map_iff in Hp as (k & <- & Hk).
    apply List.in_seq in Hk. lia.
Qed.

Lemma pages_partition_the_matches_witness :
  List.concat
    (List.map
       (fun p =>
          results_of
            (Engine.aggregate nat [1; 2; 3; 4; 5]%nat
               (Atlas.buildPdfSearchPipeline
                  (with_page
                     {| Atlas.q := JStr "maths"; Atlas.language := JUndefined;
                        Atlas.category := JUndefined;
                        Atlas.locations := JArr [];
                        Atlas.sort := JUndefined; Atlas.page := None;
                        Atlas.limit := None |} p 2))))
       [1; 2; 3])
  = List.map Engine.Doc [1; 2; 3; 4; 5]%nat.
Proof.
  apply (pages_partition_the_matches nat
           {| Atlas.q := JStr "maths"; Atlas.language := JUndefined;
              Atlas.category := JUndefined; Atlas.locations := JArr [];
              Atlas.sort := JUndefined; Atlas.page := None;
              Atlas.limit := None |}
           [1; 2; 3; 4; 5]%nat 2).
  lia.
Defined.

(** X14.  A page beyond the last, whose skip is still below 2^53 (so that
    it is the product the code computes, and a number the store takes as a
    [$skip]), is no error: GET answers with an empty list of results, the
    total of all matches and a number of pages below the page asked for. *)
Theorem page_beyond_last
    (doc : Type) (Date_parse : string -> option Z) (clock : nat -> Z)
    (entries : list (string * string)) (ranked : list doc) :
  let o := buildListOptions (list_argument entries) in
  search_term entries <> EmptyString ->
  safe_integer ((page o - 1) * limit o) ->
  Z.of_nat (List.length ranked) <= (page o - 1) * limit o ->
  exists e,
    Route.GET doc Date_parse clock entries ranked = Route.Json e
    /\ Route.results e = []
    /\ Route.total e = Z.of_nat (List.length ranked)
    /\ Route.totalPages e < page o.
Proof.
  intros o Hq _ Hlen.
  destruct (GET_search_envelope doc Date_parse clock entries ranked Hq)
    as (e & He & Hr & Ht & _ & _ & Hn).
  fold o in Hr, Hn.
  destruct (buildListOptions_bounds (list_argument entries)) as (Hl & Hp).
  fold o in Hl, Hp.
  exists e. split; [exact He|]. split; [|split; [exact Ht|]].
  - rewrite Hr, List.skipn_all2 by lia. now rewrite List.firstn_nil.
  - rewrite Hn, Ht.
    pose proof (ceil_div_bounds (Z.of_nat (List.length ranked)) (limit o)
                  ltac:(lia)) as [Hc _].
    nia.
Qed.

Lemma page_beyond_last_witness :
  exists e,
    Route.GET nat no_Date_parse still_clock
      [("q", "maths"); ("page", "4"); ("limit", "2")] [1; 2; 3; 4; 5]%nat
    = Route.Json e
    /\ Route.results e = []
    /\ Route.total e = 5
    /\ Route.totalPages e < 4.
Proof.
  apply (page_beyond_last nat no_Date_parse still_clock
           [("q", "maths"); ("page", "4"); ("limit", "2")]
           [1; 2; 3; 4; 5]%nat).
  - discriminate.
  - vm_compute. reflexivity.
  - vm_compute. discriminate.
Defined.

(** X15.  On a request with a search term whose skip stays below 2^53, the
    pipeline GET builds is not rejected for its skip or its limit: the
    answer is the envelope, with a page of at least 1, a limit between 1
    and 200, no more results than the limit, and just enough pages for the
    total. *)
Theorem search_request_answered
    (doc : Type) (Date_parse : string -> option Z) (clock : nat -> Z)
    (entries : list (string * string)) (ranked : list doc) :
  let o := buildListOptions (list_argument entries) in
  search_term entries <> EmptyString ->
  safe_integer ((page o - 1) * limit o) ->
  exists e,
    Route.GET doc Date_parse clock entries ranked = Route.Json e
    /\ Route.success e = true
    /\ 1 <= Route.env_page e
    /\ 1 <= Route.env_limit e <= 200
    /\ Z.of_nat (List.length (Route.results e)) <= Route.env_limit e
    /\ (Route.totalPages e - 1) * Route.env_limit e
       < Route.total e <= Route.totalPages e * Route.env_limit e.
Proof.
  intros o Hq _. subst o.
  destruct (GET_search_envelope doc Date_parse clock entries ranked Hq)
    as (e & He & Hr & Ht & Hp & Hl & Hn).
  destruct (buildListOptions_bounds (list_argument entries)) as (Bl & Bp).
  exists e. split; [exact He|].
  rewrite Hp, Hl, Hn. repeat split; try lia.
  - unfold Route.GET in He.
    destruct (buildPdfFiltersAndOptions _ _ _); [|discriminate He].
    destruct (truthy _); [|discriminate He].
    destruct (Engine.aggregate _ _ _); [|discriminate He].
    injection He as <-. reflexivity.
  - rewrite Hr, List.length_map, List.length_firstn. lia.
  - apply ceil_div_bounds. lia.
  - apply ceil_div_bounds. lia.
Qed.

Lemma search_request_answered_witness :
  exists e,
    Route.GET nat no_Date_parse still_clock
      [("q", "maths"); ("page", "-3"); ("limit", "0")] [1; 2; 3]%nat
    = Route.Json e
    /\ Route.env_page e = 1 /\ Route.env_limit e = 12.
Proof.
  destruct (search_request_answered nat no_Date_parse still_clock
              [("q", "maths"); ("page", "-3"); ("limit", "0")] [1; 2; 3]%nat)
    as (e & He & _); [discriminate | vm_compute; reflexivity |].
  exists e. split; [exact He|].
  vm_compute in He. injection He as <-. split; reflexivity.
Defined.

(* ================================================================== *)
(** ** src/app/api/search/route.js: page and limit as given           *)
(* ================================================================== *)

Section SearchRouteFacts.

Variable doc : Type.

Lemma run_facet_rejected (skip limit : Z) (input : list (Engine.row doc)) :
  skip < 0 \/ limit <= 0 ->
  Engine.run doc
    [Atlas.Facet [ ("results", [Atlas.Skip skip; Atlas.Limit limit]);
                   ("totalCount", [Atlas.Count "count"]) ]]
    input
  = None.
Proof.
  intros H. cbn [Engine.run Engine.run_stage option_map].
  destruct (Z.ltb_spec skip 0); [reflexivity|].
  destruct (Z.leb_spec limit 0); [reflexivity|]. lia.
Qed.

Lemma aggregate_rejected (a : Atlas.args) (ranked : list doc) :
  let page := or_fallback 1 (Atlas.page a) in
  let limit := or_fallback 10 (Atlas.limit a) in
  (page - 1) * limit < 0 \/ limit <= 0 ->
  Engine.aggregate doc ranked (Atlas.buildPdfSearchPipeline a) = None.
Proof.
  intros page limit H. subst page limit.
  destruct (pipeline_shape a) as (c & spec & -> & _).
  unfold Engine.aggregate. cbn [Engine.after_sort].
  now apply run_facet_rejected.
Qed.

Lemma parse_given (entries : list (string * string)) (name d : string)
    (n : Z) :
  assoc name entries = Some (Str.of_Z n) ->
  Str.parseInt10 (ToString (js_or (usp_get entries name) (JStr d))) = Some n.
Proof.
  intros H. unfold usp_get. rewrite H. unfold js_or.
  replace (truthy (JStr (Str.of_Z n))) with true.
  - apply StrFacts.parseInt10_of_Z.
  - pose proof (of_Z_not_empty n). now destruct (Str.of_Z n).
Qed.

End SearchRouteFacts.

(** X16.  GET of /api/search takes the page and the limit as they are
    written.  A page or a limit that is not positive makes the store reject
    the pipeline, and the answer is the Internal Server Error of the catch
    block; positive ones are used unclamped, as long as the limit and the
    skip stay below 2^53, where [parseInt] and the product are exact. *)
Theorem search_route_takes_page_and_limit_as_given
    (doc : Type) (entries : list (string * string)) (ranked : list doc)
    (p l : Z) :
  assoc "page" entries = Some (Str.of_Z p) ->
  assoc "limit" entries = Some (Str.of_Z l) ->
  (p <= 0 \/ l <= 0 ->
   SearchRoute.GET doc entries ranked = SearchRoute.InternalServerError)
  /\ (1 <= p -> 1 <= l ->
      safe_integer l -> safe_integer ((p - 1) * l) ->
      exists e,
        SearchRoute.GET doc entries ranked = SearchRoute.Json e
        /\ Route.env_page e = p
        /\ Route.env_limit e = l
        /\ Route.results e = List.map Engine.Doc (page_slice ranked p l)
        /\ Route.total e = Z.of_nat (List.length ranked)).
Proof.
  intros Hp Hl. unfold SearchRoute.GET. cbv zeta.
  rewrite (parse_given entries "page" "1" p Hp).
  rewrite (parse_given entries "limit" "10" l Hl).
  split.
  - intros H. rewrite aggregate_rejected; [reflexivity|].
    cbn [Atlas.page Atlas.limit or_fallback]. nia.
  - intros H1 H2 _ _.
    rewrite aggregate_pipeline
      by (cbn [Atlas.page Atlas.limit or_fallback]; lia).
    cbn [Atlas.page Atlas.limit or_fallback].
    eexists. split; [reflexivity|].
    unfold SearchRoute.response_data.
    cbn [assoc String.eqb Ascii.eqb Bool.eqb Route.results Route.total
           Route.env_page Route.env_limit].
    repeat split. now destruct ranked.
Qed.

Lemma search_route_takes_page_and_limit_as_given_witness :
  SearchRoute.GET nat [("q", "maths"); ("page", "0"); ("limit", "10")]
    [1; 2; 3]%nat
  = SearchRoute.InternalServerError
  /\ exists e,
       SearchRoute.GET nat [("q", "maths"); ("page", "1"); ("limit", "1000")]
         [1; 2; 3]%nat
       = SearchRoute.Json e
       /\ Route.env_limit e = 1000.
Proof.
  split.
  - apply (search_route_takes_page_and_limit_as_given nat
             [("q", "maths"); ("page", "0"); ("limit", "10")] [1; 2; 3]%nat
             0 10 eq_refl eq_refl).
    left. lia.
  - destruct (search_route_takes_page_and_limit_as_given nat
                [("q", "maths"); ("page", "1"); ("limit", "1000")]
                [1; 2; 3]%nat 1 1000 eq_refl eq_refl) as [_ H].
    destruct H as (e & He & _ & Hl & _);
      [lia | lia | vm_compute; reflexivity | vm_compute; reflexivity |].
    exists e. split; [exact He | exact Hl].
Defined.

(* ================================================================== *)
(** ** src/lib/jwt.js: the bearer token                               *)
(* ================================================================== *)

Module JwtFacts.
Import Jwt.

Lemma span_spaces_app (ws rest : string) :
  Str.forallb Str.is_space ws = true ->
  match rest with
  | String c _ => Str.is_space c = false
  | EmptyString => True
  end ->
  span_spaces (ws ++ rest) = (ws, rest).
Proof.
  intros Hws Hr. induction ws as [|c ws IH]; cbn [append].
  - destruct rest as [|c r]; [reflexivity|]. cbn [span_spaces]. now rewrite Hr.
  - cbn [Str.forallb] in Hws. apply andb_true_iff in Hws as [Hc Hws].
    cbn [span_spaces]. now rewrite Hc, (IH Hws).
Qed.

Lemma span_spaces_spec (s w r : string) :
  span_spaces s = (w, r) ->
  s = w ++ r /\ Str.forallb Str.is_space w = true.
Proof.
  revert w r. induction s as [|c s IH]; intros w r; cbn [span_spaces].
  - intros [= <- <-]. now split.
  - destruct (Str.is_space c) eqn:Hc.
    + destruct (span_spaces s) as [w' t] eqn:E. intros [= <- <-].
      destruct (IH _ _ eq_refl) as [-> Hw]. split; [reflexivity|].
      cbn [Str.forallb]. now rewrite Hc, Hw.
    + intros [= <- <-]. now split.
Qed.

Lemma split_last_spec (s front : string) (l : ascii) :
  split_last s = Some (front, l) -> s = front ++ String l EmptyString.
Proof.
  revert front. induction s as [|c s IH]; intros front; cbn [split_last];
    [discriminate|].
  destruct (split_last s) as [[f l']|] eqn:E.
  - intros [= <- <-]. cbn [append]. now rewrite (IH f eq_refl).
  - intros [= <- <-]. destruct s as [|c' s]; [reflexivity|].
    cbn [split_last] in E. now destruct (split_last s) as [[? ?]|].
Qed.

Lemma forallb_app (p : ascii -> bool) (a b : string) :
  Str.forallb p (a ++ b) = Str.forallb p a && Str.forallb p b.
Proof.
  induction a as [|c a IH]; cbn [append Str.forallb]; [reflexivity|].
  now rewrite IH, andb_assoc.
Qed.

Lemma scheme_letters (scheme : string) :
  Str.toLowerCase scheme = "bearer" ->
  exists c1 c2 c3 c4 c5 c6,
    scheme
    = String c1 (String c2 (String c3 (String c4 (String c5
        (String c6 EmptyString))))).
Proof.
  unfold Str.toLowerCase. intros H.
  do 6 (destruct scheme as [|? scheme]; [discriminate H|]).
  destruct scheme; [|discriminate H]. repeat eexists.
Qed.

End JwtFacts.

(** X17.  [extractBearerToken] returns the token of a well-formed header:
    the word Bearer in any letter case, white space, and a token that is
    not empty, does not start with white space and holds no line
    terminator. *)
Theorem bearer_token_extracted (scheme ws token : string) :
  Str.toLowerCase scheme = "bearer" ->
  ws <> EmptyString -> is_blank_run ws = true ->
  token <> EmptyString ->
  match token with
  | String c _ => Str.is_space c = false
  | EmptyString => True
  end ->
  Str.forallb (fun c => negb (Jwt.is_line_terminator c)) token = true ->
  Jwt.extractBearerToken (JStr (scheme ++ ws ++ token))
  = Normal (Some token).
Proof.
  intros Hs Hws Hb Ht Hhead Hlt.
  destruct (JwtFacts.scheme_letters scheme Hs)
    as (c1 & c2 & c3 & c4 & c5 & c6 & ->).
  unfold Jwt.extractBearerToken. cbn [append truthy Str.is_empty negb].
  cbv iota. f_equal. unfold Jwt.match_bearer.
  rewrite Hs. cbn [String.eqb Ascii.eqb Bool.eqb]. cbv iota.
  unfold Jwt.capture_after_scheme.
  rewrite (JwtFacts.span_spaces_app ws token Hb Hhead).
  destruct ws as [|w ws]; [contradiction|].
  destruct token as [|c t]; [contradiction|].
  now rewrite Hlt.
Qed.

Lemma bearer_token_extracted_witness :
  Jwt.extractBearerToken (JStr "bEaReR   abc.def.ghi")
  = Normal (Some "abc.def.ghi").
Proof.
  apply (bearer_token_extracted "bEaReR" "   " "abc.def.ghi");
    try reflexivity; discriminate.
Defined.

(** X18.  What [extractBearerToken] returns.  A token it returns for a
    string is the end of that string: it is not empty, holds no line
    terminator, and is preceded by the word Bearer (in any letter case) and
    at least one white space.  A falsy header gives null, and a truthy
    header that is not a string raises. *)
Theorem bearer_token_sound :
  (forall s t,
     Jwt.extractBearerToken (JStr s) = Normal (Some t) ->
     t <> EmptyString
     /\ Str.forallb (fun c => negb (Jwt.is_line_terminator c)) t = true
     /\ exists scheme ws,
          s = scheme ++ ws ++ t
          /\ Str.toLowerCase scheme = "bearer"
          /\ ws <> EmptyString /\ is_blank_run ws = true)
  /\ (forall v, truthy v = false -> Jwt.extractBearerToken v = Normal None)
  /\ (forall v, truthy v = true -> (forall s, v <> JStr s) ->
        exists e, Jwt.extractBearerToken v = Throw e).
Proof.
  split; [|split].
  - intros s t. unfold Jwt.extractBearerToken.
    destruct (negb (truthy (JStr s))); [discriminate|].
    intros H%Normal_inj. unfold Jwt.match_bearer in H.
    do 6 (destruct s as [|? s]; [discriminate H|]).
    destruct (String.eqb _ "bearer") eqn:Hs; [|discriminate H].
    apply String.eqb_eq in Hs.
    unfold Jwt.capture_after_scheme in H.
    destruct (Jwt.span_spaces s) as [w r] eqn:E.
    destruct (JwtFacts.span_spaces_spec _ _ _ E) as [-> Hw].
    destruct w as [|w0 w]; [discriminate H|].
    destruct r as [|c r].
    + destruct (Jwt.split_last (String w0 w)) as [[front l]|] eqn:El;
        [|discriminate H].
      destruct front as [|f0 front]; [discriminate H|].
      destruct (Jwt.is_line_terminator l) eqn:Hl; [discriminate H|].
      injection H as <-.
      apply JwtFacts.split_last_spec in El. rewrite El in Hw |- *.
      rewrite JwtFacts.forallb_app in Hw. apply andb_true_iff in Hw as [Hf _].
      split; [discriminate|]. split; [cbn; now rewrite Hl|].
      eexists (String _ (String _ (String _ (String _ (String _
                 (String _ EmptyString)))))), (String f0 front).
      split; [|split; [exact Hs|split; [discriminate|exact Hf]]].
      cbn [append]. do 6 f_equal.
      now rewrite DateFacts.append_empty.
    + destruct (Str.forallb _ (String c r)) eqn:Hlt; [|discriminate H].
      injection H as <-.
      split; [discriminate|]. split; [exact Hlt|].
      eexists (String _ (String _ (String _ (String _ (String _
                 (String _ EmptyString)))))), (String w0 w).
      split; [reflexivity|].
      split; [exact Hs|split; [discriminate|exact Hw]].
  - intros v Hv. unfold Jwt.extractBearerToken. now rewrite Hv.
  - intros v Hv Hn. unfold Jwt.extractBearerToken. rewrite Hv.
    cbn [negb]. destruct v; eauto. now destruct (Hn s).
Qed.

Lemma bearer_token_sound_witness :
  Jwt.extractBearerToken (JStr "Bearer") = Normal None
  /\ Jwt.extractBearerToken (JStr "Bearertoken") = Normal None
  /\ Jwt.extractBearerToken JUndefined = Normal None
  /\ exists e, Jwt.extractBearerToken (JNum 5) = Throw e.
Proof.
  destruct bearer_token_sound as (_ & Hfalsy & Hthrow).
  split; [reflexivity|]. split; [reflexivity|].
  split; [apply Hfalsy; reflexivity|].
  apply Hthrow; [reflexivity | discriminate].
Defined.

(* ================================================================== *)
(** ** When a filter is empty                                         *)
(* ================================================================== *)

Section EmptySteps.

Variable f : filter_obj.

Lemma set_prop_not_nil (k : string) (v : mval) : set_prop k v f <> [].
Proof.
  destruct f as [|[k' v'] r]; cbn [set_prop]; [discriminate|].
  destruct (String.eqb k k'); discriminate.
Qed.

Lemma exact_step_nil (name : string) (v : jsval) :
  (if truthy v then set_prop name (MVal (sanitizeString v)) f else f) = []
  <-> truthy v = false /\ f = [].
Proof.
  destruct (truthy v).
  - split; [intros H; now apply set_prop_not_nil in H | now intros [? _]].
  - tauto.
Qed.

Lemma membership_step_nil (name : string) (v : jsval) :
  membership_filter name v f = [] <-> no_members v /\ f = [].
Proof.
  unfold membership_filter, no_members.
  destruct v as [| | | |s|l|]; try tauto.
  - destruct (Str.trim s) as [|c t] eqn:Et; cbn [Str.is_empty negb].
    + tauto.
    + destruct (parseList (JStr s)) as [|x arr] eqn:Ep;
        cbn [List.length Nat.eqb negb].
      * tauto.
      * split; [intros H; now apply set_prop_not_nil in H|].
        intros [[H|H] _]; discriminate H.
  - destruct l as [|x l]; cbn [List.length Nat.eqb negb].
    + tauto.
    + split; [intros H; now apply set_prop_not_nil in H|].
      intros [H _]; discriminate H.
Qed.

Lemma isPaid_step_nil (v : jsval) :
  (if negb (is_nullish v)
   then set_prop "isPaid" (MVal (JBool (truthy v))) f else f) = []
  <-> is_nullish v = true /\ f = [].
Proof.
  destruct (is_nullish v); cbn [negb].
  - tauto.
  - split; [intros H; now apply set_prop_not_nil in H | now intros [? _]].
Qed.

Lemma downloads_step_nil (parsed : option Z) :
  match parsed with
  | Some minD => set_prop "downloads" (MObj [("$gte", MVal (JNum minD))]) f
  | None => f
  end = []
  <-> parsed = None /\ f = [].
Proof.
  destruct parsed.
  - split; [intros H; now apply set_prop_not_nil in H | now intros [? _]].
  - tauto.
Qed.

Lemma range_step_nil (field : string) (from to : option jsdate) :
  range_filter field from to f = [] <-> (from = None /\ to = None) /\ f = [].
Proof.
  unfold range_filter.
  destruct from, to; cbn -[set_prop];
    try (split; [intros H; now apply set_prop_not_nil in H
                | now intros [[? ?] _]]).
  tauto.
Qed.

Lemma keywords_step_nil (v : jsval) :
  keywords_filter v f = [] <-> no_keywords v /\ f = [].
Proof.
  unfold keywords_filter, no_keywords. destruct v as [| | | |s| |]; try tauto.
  rewrite truthy_trimmed.
  destruct (Str.trim s) as [|c t]; cbn [Str.is_empty negb].
  - tauto.
  - cbn [sanitizeString].
    split; [intros H; now apply set_prop_not_nil in H|].
    intros [H _]; discriminate H.
Qed.

End EmptySteps.

(** X19.  When the dates and minDownloads are values [String] converts, a
    filter has no key exactly when no parameter takes effect: language,
    category and level are falsy, tags and locations name no member, isPaid
    is undefined or null, minDownloads parses to no number, none of the
    four dates parses, and keywords is no string or white space only. *)
Theorem filter_empty_iff
    (Date_parse : string -> option Z) (clock : nat -> Z)
    (props : list (string * jsval)) (f : filter_obj) :
  (forall name, In name converted_params ->
                converts (get_prop (JObj props) name)) ->
  buildMongoFilters Date_parse clock (JObj props) = Normal f ->
  let get := get_prop (JObj props) in
  List.length (keys f) = 0%nat
  <-> truthy (get "language") = false
      /\ truthy (get "category") = false
      /\ truthy (get "level") = false
      /\ no_members (get "tags")
      /\ no_members (get "locations")
      /\ is_nullish (get "isPaid") = true
      /\ parseInteger (get "minDownloads") = None
      /\ parseDate Date_parse (clock 0%nat) (get "dateFrom") = None
      /\ parseDate Date_parse (clock 1%nat) (get "dateTo") = None
      /\ parseDate Date_parse (clock 2%nat) (get "examDateFrom") = None
      /\ parseDate Date_parse (clock 3%nat) (get "examDateTo") = None
      /\ no_keywords (get "keywords").
Proof.
  intros _.
  unfold buildMongoFilters. open_object props. intros <-%Normal_inj. cbv zeta.
  match goal with
  | |- List.length (keys ?g) = 0%nat <-> _ =>
      assert (E : List.length (keys g) = 0%nat <-> g = [])
        by (destruct g; cbn; split; (discriminate || reflexivity));
      rewrite E; clear E
  end.
  rewrite keywords_step_nil, exact_step_nil, !range_step_nil,
    downloads_step_nil, isPaid_step_nil, !membership_step_nil,
    !exact_step_nil.
  tauto.
Qed.

Lemma filter_empty_iff_witness :
  buildMongoFilters no_Date_parse still_clock
    (JObj [("tags", JStr " , "); ("keywords", JStr "  ");
           ("dateFrom", JStr "soon")])
  = Normal []
  /\ no_members (JStr " , ") /\ no_keywords (JStr "  ").
Proof.
  split; [reflexivity|].
  assert (Hc : forall name,
            In name converted_params ->
            converts
              (get_prop
                 (JObj [("tags", JStr " , "); ("keywords", JStr "  ");
                        ("dateFrom", JStr "soon")])
                 name)).
  { intros name H. cbn in H.
    repeat (destruct H as [<-|H]; [reflexivity|]). destruct H. }
  destruct (filter_empty_iff no_Date_parse still_clock
              [("tags", JStr " , "); ("keywords", JStr "  ");
               ("dateFrom", JStr "soon")] [] Hc eq_refl) as [H _].
  destruct (H eq_refl) as (_ & _ & _ & Ht & _ & _ & _ & _ & _ & _ & _ & Hk).
  split; [exact Ht | exact Hk].
Defined.

(* ================================================================== *)
(** ** src/lib/jwt.js: the payload and the cookie                     *)
(* ================================================================== *)



Module CookieFacts.
Import Jwt.





Section Derived.

Variable e : environment.
Variable n : Z.
Variable u : string.
Hypothesis Hn : 0 < n.
Hypothesis He : env_REFRESH_TOKEN_EXP e = Some (Str.of_Z n ++ u).




End Derived.


End CookieFacts.



(** X22.  A maxAge that is falsy counts as none: [getRefreshTokenCookie]
    returns the cookie it returns without the option, its [Max-Age] taken
    from the environment, so a caller cannot ask for a [Max-Age] of 0. *)
Theorem falsy_max_age_is_derived
    (e : Jwt.environment) (token : jsval) (props : list (string * jsval)) :
  truthy (get_prop (JObj props) "maxAge") = false ->
  Jwt.getRefreshTokenCookie e token (JObj props)
  = Jwt.getRefreshTokenCookie e token (JObj (delete_prop "maxAge" props)).
Proof.
  intros Hm.
  unfold Jwt.getRefreshTokenCookie. cbn [with_default is_nullish].
  cbv iota zeta.
  assert (G : forall name, name <> "maxAge" ->
            get_prop (JObj (delete_prop "maxAge" props)) name
            = get_prop (JObj props) name).
  { intros name Hne. cbn [get_prop]. rewrite assoc_delete_prop.
    destruct (String.eqb_spec name "maxAge"); [contradiction|reflexivity]. }
  replace (get_prop (JObj (delete_prop "maxAge" props)) "maxAge")
    with JUndefined
    by (cbn [get_prop]; rewrite assoc_delete_prop; reflexivity).
  rewrite !G by discriminate.
  rewrite Hm. reflexivity.
Qed.

Lemma falsy_max_age_is_derived_witness :
  Jwt.getRefreshTokenCookie
    {| Jwt.env_NODE_ENV := None; Jwt.env_REFRESH_TOKEN_EXP := None;
       Jwt.env_REFRESH_TOKEN_EXPIRES := None |}
    (JStr "abc") (JObj [("maxAge", JNum 0)])
  = Normal
      "refreshToken=abc; Path=/; HttpOnly=true; SameSite=lax; Max-Age=2592000".
Proof.
  rewrite (falsy_max_age_is_derived
             {| Jwt.env_NODE_ENV := None;
                Jwt.env_REFRESH_TOKEN_EXP := None;
                Jwt.env_REFRESH_TOKEN_EXPIRES := None |}
             (JStr "abc") [("maxAge", JNum 0)] eq_refl).
  reflexivity.
Defined.

(* ================================================================== *)
(** ** Members, locations and dates                                   *)
(* ================================================================== *)

Lemma membership_filter_assoc_same field val (f : filter_obj) :
  assoc field (membership_filter field val f)
  = match val with
    | JArr (x :: l) => Some (in_clause (List.map sanitizeString (x :: l)))
    | JStr s =>
        if Str.is_empty (Str.trim s) then assoc field f
        else match parseList (JStr s) with
             | [] => assoc field f
             | arr => Some (in_clause arr)
             end
    | _ => assoc field f
    end.
Proof.
  unfold membership_filter. destruct val as [| | | |s|l|]; try reflexivity.
  - destruct (Str.is_empty (Str.trim s)); cbn [negb]; [reflexivity|].
    destruct (parseList (JStr s)) as [|x arr];
      cbn [List.length Nat.eqb negb]; [reflexivity|].
    apply assoc_set_prop_eq.
  - destruct l as [|x l]; cbn [List.length Nat.eqb negb]; [reflexivity|].
    apply assoc_set_prop_eq.
Qed.

(** X23.  The entry for tags (and for locations): a non-empty array gives
    [$in] over its elements, each sanitized and none dropped, so that an
    empty string or a value that is no string stays a member; a string
    gives [$in] over the tokens [parseList] reads, and no entry when there
    is none; any other value gives no entry. *)
Theorem membership_entries
    (Date_parse : string -> option Z) (clock : nat -> Z)
    (props : list (string * jsval)) (f : filter_obj) (name : string) :
  In name ["tags"; "locations"] ->
  buildMongoFilters Date_parse clock (JObj props) = Normal f ->
  assoc name f
  = match get_prop (JObj props) name with
    | JArr (x :: l) => Some (in_clause (List.map sanitizeString (x :: l)))
    | JStr s =>
        if Str.is_empty (Str.trim s) then None
        else match parseList (JStr s) with
             | [] => None
             | arr => Some (in_clause arr)
             end
    | _ => None
    end.
Proof.
  intros Hin. unfold buildMongoFilters. open_object props.
  intros <-%Normal_inj. cbv zeta.
  cbn in Hin. destruct Hin as [<-|[<-|[]]].
  - skip_steps; rewrite membership_filter_assoc_same;
      skip_steps;
      (destruct (get_prop (JObj props) "tags") as [| | | |s|[|x l]|];
       try reflexivity;
       destruct (Str.is_empty (Str.trim s)); try reflexivity;
       now destruct (parseList (JStr s))).
  - skip_steps; rewrite membership_filter_assoc_same;
      skip_steps;
      (destruct (get_prop (JObj props) "locations") as [| | | |s|[|x l]|];
       try reflexivity;
       destruct (Str.is_empty (Str.trim s)); try reflexivity;
       now destruct (parseList (JStr s))).
Qed.

Lemma membership_entries_witness :
  exists f,
    buildMongoFilters no_Date_parse still_clock
      (JObj [("tags", JArr [JStr " a "; JStr ""; JNum 7]);
             ("locations", JStr " a ,, ")])
    = Normal f
    /\ assoc "tags" f = Some (in_clause [JStr "a"; JStr ""; JNum 7])
    /\ assoc "locations" f = Some (in_clause [JStr "a"]).
Proof.
  eexists. split; [reflexivity|]. split.
  - apply (membership_entries no_Date_parse still_clock
             [("tags", JArr [JStr " a "; JStr ""; JNum 7]);
              ("locations", JStr " a ,, ")] _ "tags");
      [cbn; tauto | reflexivity].
  - apply (membership_entries no_Date_parse still_clock
             [("tags", JArr [JStr " a "; JStr ""; JNum 7]);
              ("locations", JStr " a ,, ")] _ "locations");
      [cbn; tauto | reflexivity].
Defined.

Lemma filter_truthy_strings (ts : list string) :
  List.map JStr (List.filter (fun t => negb (Str.is_empty t)) ts)
  = List.filter truthy (List.map JStr ts).
Proof.
  induction ts as [|t ts IH]; [reflexivity|].
  cbn [List.filter List.map truthy].
  destruct (negb (Str.is_empty t)); cbn [List.map]; now rewrite IH.
Qed.

Lemma split_not_nil (sep : ascii) (s : string) : Str.split sep s <> [].
Proof.
  destruct s as [|c s]; cbn [Str.split]; [discriminate|].
  destruct (Ascii.eqb c sep); [discriminate|].
  destruct (Str.split sep s); discriminate.
Qed.

(** X24.  The locations of a request in the two routes.  Both split the
    parameter at commas and trim the pieces; GET of /api/pdfs then drops
    the empty pieces, GET of /api/search keeps them.  So the first hands
    only non-empty trimmed strings to the pipeline, whereas the second
    hands a list that is not empty, and hence a clause on locations,
    whenever the parameter is not empty. *)
Theorem locations_in_the_two_routes (entries : list (string * string)) :
  exists l l',
    Route.locations_param entries = JArr l
    /\ SearchRoute.locations_param entries = JArr l'
    /\ l = List.filter truthy l'
    /\ (forall x, In x l ->
          exists t, x = JStr t /\ t <> EmptyString /\ Str.trim t = t)
    /\ Atlas.has_length (JArr l') = truthy (usp_get entries "locations").
Proof.
  unfold Route.locations_param, SearchRoute.locations_param, usp_get.
  destruct (assoc "locations" entries) as [s|].
  - destruct (Str.is_empty s) eqn:Es.
    + exists [], []. repeat split; try reflexivity.
      * intros x [].
      * cbn [truthy]. now rewrite Es.
    + eexists. eexists. split; [reflexivity|]. split; [reflexivity|].
      split; [apply filter_truthy_strings|]. split.
      * intros x Hx. apply in_map_iff in Hx as (t & <- & Ht).
        apply filter_In in Ht as [Ht Hne].
        apply in_map_iff in Ht as (p & <- & _).
        exists (Str.trim p). split; [reflexivity|].
        split; [|apply TrimFacts.trim_idem].
        intros E. rewrite E in Hne. discriminate Hne.
      * cbn [Atlas.has_length truthy]. rewrite Es, !List.length_map.
        pose proof (split_not_nil "," s). now destruct (Str.split "," s).
  - exists [], []. repeat split. intros x [].
Qed.

Section SearchArgs.

Variable doc : Type.
Variable Date_parse : string -> option Z.
Variable clock : nat -> Z.

Lemma GET_search_args (entries : list (string * string))
    (ranked : list doc) :
  search_term entries <> EmptyString ->
  Route.GET doc Date_parse clock entries ranked
  = match
      Engine.aggregate doc ranked
        (Atlas.buildPdfSearchPipeline (search_args entries))
    with
    | Some agg =>
        Route.Json
          (Route.search_body doc agg
             (page (buildListOptions (list_argument entries)))
             (limit (buildListOptions (list_argument entries))))
    | None => Route.InternalServerError
    end.
Proof.
  intros Hq. unfold Route.GET.
  destruct (wrapper_options_search Date_parse clock entries) as (r & -> & Ho).
  rewrite Ho. fold (search_term entries).
  replace (truthy (JStr (search_term entries))) with true
    by (destruct (search_term entries); [contradiction | reflexivity]).
  reflexivity.
Qed.

Lemma search_args_ext (entries entries' : list (string * string)) :
  (forall name,
     In name ["q"; "language"; "category"; "locations"; "sort"; "page";
              "limit"] ->
     assoc name entries' = assoc name entries) ->
  search_args entries' = search_args entries
  /\ search_term entries' = search_term entries
  /\ list_argument entries' = list_argument entries.
Proof.
  intros H.
  unfold search_args, search_term, list_argument, Route.locations_param,
    usp_get.
  rewrite (H "q"), (H "language"), (H "category"), (H "locations"),
    (H "sort"), (H "page"), (H "limit") by in_list.
  repeat split.
Qed.

End SearchArgs.

(** X25.  On a request with a search term, GET of /api/pdfs answers from
    the pipeline built for q, language, category, locations, sort, page and
    limit alone: the other filter parameters (tags, isPaid, minDownloads,
    the dates, level, keywords) do not reach the search, and two requests
    that agree on the seven get the same pipeline and the same answer. *)
Theorem search_reads_seven_parameters
    (doc : Type) (Date_parse : string -> option Z) (clock : nat -> Z)
    (entries entries' : list (string * string)) (ranked : list doc) :
  search_term entries <> EmptyString ->
  (forall name,
     In name ["q"; "language"; "category"; "locations"; "sort"; "page";
              "limit"] ->
     assoc name entries' = assoc name entries) ->
  Route.GET doc Date_parse clock entries ranked
  = match
      Engine.aggregate doc ranked
        (Atlas.buildPdfSearchPipeline (search_args entries))
    with
    | Some agg =>
        Route.Json
          (Route.search_body doc agg
             (page (buildListOptions (list_argument entries)))
             (limit (buildListOptions (list_argument entries))))
    | None => Route.InternalServerError
    end
  /\ Atlas.buildPdfSearchPipeline (search_args entries')
     = Atlas.buildPdfSearchPipeline (search_args entries)
  /\ Route.GET doc Date_parse clock entries' ranked
     = Route.GET doc Date_parse clock entries ranked.
Proof.
  intros Hq H.
  destruct (search_args_ext entries entries' H) as (Ea & Et & El).
  split; [now apply GET_search_args|]. split; [now rewrite Ea|].
  rewrite !GET_search_args by (rewrite ?Et; exact Hq).
  now rewrite Ea, El.
Qed.

Lemma search_reads_seven_parameters_witness :
  Route.GET nat no_Date_parse still_clock
    [("q", "maths"); ("isPaid", "true"); ("tags", "x"); ("level", "hard")]
    [1; 2; 3]%nat
  = Route.GET nat no_Date_parse still_clock [("q", "maths")] [1; 2; 3]%nat.
Proof.
  apply (search_reads_seven_parameters nat no_Date_parse still_clock
           [("q", "maths")]
           [("q", "maths"); ("isPaid", "true"); ("tags", "x");
            ("level", "hard")]
           [1; 2; 3]%nat).
  - discriminate.
  - intros name Hin. cbn in Hin.
    repeat (destruct Hin as [<-|Hin]; [reflexivity|]). destruct Hin.
Defined.

(** X26.  [parseDate] ignores white space around a date: padding a
    string that is not blank changes nothing of the result. *)
Theorem parseDate_ignores_padding
    (Date_parse : string -> option Z) (now : Z) (a s b : string) :
  is_blank_run a = true -> is_blank_run b = true ->
  Str.trim s <> EmptyString ->
  parseDate Date_parse now (JStr (a ++ s ++ b))
  = parseDate Date_parse now (JStr s).
Proof.
  unfold is_blank_run. intros Ha Hb Hs. unfold parseDate.
  assert (Hne : s <> EmptyString) by (intros ->; now apply Hs).
  replace (truthy (JStr s)) with true by (now destruct s).
  replace (truthy (JStr (a ++ s ++ b))) with true
    by (destruct a; [destruct s; [contradiction|]|]; reflexivity).
  cbn [negb ToString]. now rewrite TrimFacts.trim_padded.
Qed.

Lemma parseDate_ignores_padding_witness :
  parseDate no_Date_parse 1700000000000 (JStr "  last7d ")
  = Some (DateAt (1700000000000 - 7 * 86400000)).
Proof.
  exact (eq_trans
           (parseDate_ignores_padding no_Date_parse 1700000000000
              "  " "last7d" " " eq_refl eq_refl ltac:(discriminate))
           eq_refl).
Defined.

(** X27.  An Invalid Date reaches the filter: for a dateFrom of the form
    last<N><unit> that lies more than 8.64e15 ms before the clock,
    [parseDate] returns the Invalid Date, and [buildMongoFilters] places
    it as the [$gte] bound of publishedAt. *)
Theorem invalid_date_reaches_filter
    (Date_parse : string -> option Z) (clock : nat -> Z)
    (props : list (string * jsval)) (f : filter_obj)
    (ds : string) (u : ascii) :
  ds <> EmptyString -> Str.forallb Str.is_digit ds = true ->
  is_unit u = true ->
  get_prop (JObj props) "dateFrom"
  = JStr ("last" ++ ds ++ String u EmptyString) ->
  DateObj.MAX_TIME
  < Num.digits_val 0 ds * unit_ms (Str.lower u) - clock 0%nat ->
  buildMongoFilters Date_parse clock (JObj props) = Normal f ->
  exists rest,
    assoc "publishedAt" f
    = Some (MObj (("$gte", MDate InvalidDate) :: rest)).
Proof.
  intros Hne Hd Hu Hget Hfar.
  unfold buildMongoFilters. open_object props. intros <-%Normal_inj. cbv zeta.
  rewrite Hget, (parseDate_relative Date_parse (clock 0%nat) ds u Hne Hd Hu).
  replace (DateObj.of_ms _) with InvalidDate.
  - rewrite keywords_filter_assoc by discriminate.
    destruct (truthy (get_prop (JObj props) "level"));
      rewrite ?assoc_set_prop_ne by discriminate;
      rewrite range_filter_assoc by discriminate;
      rewrite range_filter_assoc_same;
      destruct (parseDate Date_parse (clock 1%nat) _); eauto.
  - unfold DateObj.of_ms.
    destruct (Z.leb_spec
                (Z.abs (clock 0%nat
                        - Num.digits_val 0 ds * unit_ms (Str.lower u)))
                DateObj.MAX_TIME); [lia | reflexivity].
Qed.

Lemma invalid_date_reaches_filter_witness :
  exists f rest,
    buildMongoFilters no_Date_parse still_clock
      (JObj [("dateFrom", JStr "last200000000d")])
    = Normal f
    /\ assoc "publishedAt" f
       = Some (MObj (("$gte", MDate InvalidDate) :: rest)).
Proof.
  eexists.
  destruct (invalid_date_reaches_filter no_Date_parse still_clock
              [("dateFrom", JStr "last200000000d")] _ "200000000" "d"
              ltac:(discriminate) eq_refl eq_refl eq_refl
              ltac:(vm_compute; reflexivity) eq_refl) as [rest H].
  exists rest. split; [reflexivity | exact H].
Defined.
